(** * mcp-kind-manager: cluster configuration, runtime detection, registry mirrors

    A shallow embedding of the Go packages [internal/runtime] (imported by the
    sources as [rtdetect]), [internal/kind] and [internal/registry], followed by
    the properties of the written specification that were checked against them.

    Conventions of the embedding:
    - a Go [string] is a [string] (a sequence of bytes), a Go [int] is a [Z];
    - a nil slice and an empty slice are both the empty list, a nil map and an
      empty map are both the empty [gmap];
    - a Go [error] is its message; a function returning [(T, error)] returns a
      [Go.result T];
    - the outside world (processes started through the [CommandRunner],
      environment variables, the file system) is a state [W] that is threaded
      through every call that may change it;
    - functions of libraries that are not part of the repository (Unicode-aware
      string functions, path joining, the YAML and JSON codecs) are fields of
      type classes; nothing is assumed about them unless a theorem says so. *)

From Stdlib Require Import Ascii.
From stdpp Require Import base numbers list strings gmap countable.

(** * Go preliminaries *)

Module Go.

Definition error : Type := string.

Inductive result (A : Type) : Type :=
| Ok (a : A)
| Err (e : error).
Arguments Ok {A} a.
Arguments Err {A} e.

Definition is_Ok {A} (r : result A) : bool :=
  match r with Ok _ => true | Err _ => false end.

(** The characters a string literal cannot hold directly. *)
Definition nl : string := String "010"%char "".
Definition dquote : string := String "034"%char "".

(** [len(s) > 0] and [s != ""] on strings. *)
Definition nonempty (s : string) : bool := negb (String.eqb s "").

(** [strings.HasPrefix(s, prefix)]. *)
Fixpoint HasPrefix (s prefix : string) {struct prefix} : bool :=
  match prefix, s with
  | EmptyString, _ => true
  | String _ _, EmptyString => false
  | String a prefix', String b s' => Ascii.eqb a b && HasPrefix s' prefix'
  end.


(** [strings.Contains(s, substr)]: [substr] starts at some position of [s]. *)
Fixpoint Contains (s substr : string) : bool :=
  HasPrefix s substr ||
  match s with
  | EmptyString => false
  | String _ s' => Contains s' substr
  end.

(** [s[n:]] for [n <= len(s)]. *)
Fixpoint drop_bytes (n : nat) (s : string) : string :=
  match n, s with
  | O, _ => s
  | S _, EmptyString => EmptyString
  | S n', String _ s' => drop_bytes n' s'
  end.

(** [strings.TrimPrefix(s, prefix)]. *)
Definition TrimPrefix (s prefix : string) : string :=
  if HasPrefix s prefix then drop_bytes (String.length prefix) s else s.

(** [strings.Split(s, sep)] for a separator of one byte, which is how the
    sources call it (the separator is always the newline). *)
Fixpoint Split (s : string) (sep : ascii) : list string :=
  match s with
  | EmptyString => [EmptyString]
  | String c s' =>
      if Ascii.eqb c sep then EmptyString :: Split s' sep
      else match Split s' sep with
           | piece :: rest => String c piece :: rest
           | [] => [String c EmptyString]
           end
  end.

(** [strings.Join(elems, sep)]. *)
Definition Join (elems : list string) (sep : string) : string :=
  String.concat sep elems.

(** Functions of the Go standard library whose result depends on Unicode
    tables or on the path rules of the host. *)
Class Lib := {
  (** [strings.TrimSpace] *)
  TrimSpace : string → string;
  (** [strings.ToLower] *)
  ToLower : string → string;
  (** the [%q] verb of [fmt] on a string, that is [strconv.Quote] *)
  Quote : string → string;
  (** [filepath.Join] *)
  filepath_Join : list string → string;
}.

End Go.

Export Go (result(..)).

(** * Package [internal/runtime] ([rtdetect]): data *)

Module rtdetect.
Import Go.

Definition Runtime : Type := string.
Definition RuntimeDocker : Runtime := "docker".
Definition RuntimePodman : Runtime := "podman".
Definition RuntimeUnknown : Runtime := "unknown".

Definition Backend : Type := string.
Definition BackendDockerDesktop : Backend := "docker-desktop".
Definition BackendColima : Backend := "colima".
Definition BackendWSL : Backend := "wsl".
Definition BackendPodmanMachine : Backend := "podman-machine".
Definition BackendNative : Backend := "native".
Definition BackendRancherDesktop : Backend := "rancher-desktop".
Definition BackendLima : Backend := "lima".
Definition BackendUnknown : Backend := "unknown".

Record OSInfo := {
  OS : string;
  Arch : string;
  Platform : string;
  PlatformNote : string;
}.

Record RuntimeInfo := {
  ri_Runtime : Runtime;
  ri_Backend : Backend;
  ri_Version : string;
  ri_SocketPath : string;
  ri_OS : OSInfo;
  ri_Available : bool;
  ri_Error : string;
}.

(** [CommandRunner] abstracts command execution. [Run] returns the combined
    output together with the error, if any, and may change the world;
    [LookPath] only reads it. The [context.Context] argument of the Go methods
    carries cancellation only and is left out. *)
Class CommandRunner (W : Type) := {
  Run : W → string → list string → (string * option error) * W;
  LookPath : W → string → result string;
}.

(** What the process reads from its host: the build target ([runtime.GOOS],
    [runtime.GOARCH]), environment variables ([os.Getenv]), and the file
    system ([os.Stat] succeeding, [os.ReadFile], [os.UserHomeDir]). *)
Class Host (W : Type) := {
  GOOS : string;
  GOARCH : string;
  Getenv : W → string → string;
  Stat : W → string → bool;
  ReadFile : W → string → result string;
  UserHomeDir : W → result string;
}.

(** [dockerInfo] is a subset of the [docker info] JSON output. *)
Record dockerInfo := {
  ServerVersion : string;
  OperatingSystem : string;
  OSType : string;
  Architecture : string;
  Name : string;
}.

(** [podmanInfo] is a subset of the [podman info] JSON output; the nested
    anonymous structs are flattened. *)
Record podmanInfo := {
  Host_RemoteSocket_Path : string;
  Host_RemoteSocket_Exists : bool;
  Host_OS : string;
  Host_Arch : string;
  Host_Version_Version : string;
}.

(** [json.Unmarshal] into the two shapes above. *)
Class JSON := {
  json_Unmarshal_dockerInfo : string → result dockerInfo;
  json_Unmarshal_podmanInfo : string → result podmanInfo;
}.

Section detection.
Context {W : Type} {lib : Lib} {runner : CommandRunner W} {host : Host W} {json : JSON}.

(** [DetectOS] returns information about the host operating system. *)
Definition DetectOS : OSInfo :=
  if String.eqb GOOS "darwin" then
    {| OS := GOOS; Arch := GOARCH; Platform := "macOS";
       PlatformNote := "Containers run in a VM. Docker Desktop, Colima, Podman Machine, or Lima required." |}
  else if String.eqb GOOS "linux" then
    {| OS := GOOS; Arch := GOARCH; Platform := "Linux";
       PlatformNote := "Native container support. Docker or Podman can run directly. WSL2 environment possible." |}
  else if String.eqb GOOS "windows" then
    {| OS := GOOS; Arch := GOARCH; Platform := "Windows";
       PlatformNote := "Containers typically run in WSL2 or Hyper-V via Docker Desktop or Podman Machine." |}
  else
    {| OS := GOOS; Arch := GOARCH; Platform := GOOS;
       PlatformNote := "Unsupported platform: " +:+ GOOS |}.

(** The first candidate that [os.Stat] finds, if any. *)
Definition first_existing (w : W) (candidates : list string) : option string :=
  List.find (Stat w) candidates.

Definition home_or_empty (w : W) : string :=
  match UserHomeDir w with Ok home => home | Err _ => "" end.

Definition detectDockerSocket (w : W) : string :=
  let host := Getenv w "DOCKER_HOST" in
  if nonempty host then
    if HasPrefix host "unix://" then TrimPrefix host "unix://" else host
  else
    let fallback := "/var/run/docker.sock" in
    if String.eqb GOOS "darwin" then
      let home := home_or_empty w in
      let candidates :=
        [ filepath_Join [home; ".colima"; "default"; "docker.sock"];
          filepath_Join [home; ".docker"; "run"; "docker.sock"];
          filepath_Join [home; ".rd"; "docker.sock"];
          "/var/run/docker.sock" ] in
      default fallback (first_existing w candidates)
    else if String.eqb GOOS "linux" then
      let xdg := Getenv w "XDG_RUNTIME_DIR" in
      let candidates :=
        (if nonempty xdg then [filepath_Join [xdg; "docker.sock"]] else []) ++
        ["/var/run/docker.sock"] ++
        [filepath_Join [home_or_empty w; ".docker"; "run"; "docker.sock"]] in
      default fallback (first_existing w candidates)
    else if String.eqb GOOS "windows" then
      "\\.\pipe\docker_engine"
    else fallback.

Definition isWSL (w : W) : bool :=
  match ReadFile w "/proc/version" with
  | Err _ => false
  | Ok data =>
      let lower := ToLower data in
      Contains lower "microsoft" || Contains lower "wsl"
  end.

Definition detectDockerBackend (w : W) (di : dockerInfo) (osInfo : OSInfo) : Backend :=
  let osField := ToLower (OperatingSystem di) in
  let nameField := ToLower (Name di) in
  if Contains osField "docker desktop" then BackendDockerDesktop
  else if Contains osField "colima" || Contains nameField "colima" then BackendColima
  else if Contains nameField "rancher" then BackendRancherDesktop
  else if Contains nameField "lima" then BackendLima
  else
    let socketPath := detectDockerSocket w in
    if Contains socketPath ".colima" then BackendColima
    else if Contains socketPath ".lima" then BackendLima
    else if Contains socketPath ".rd" then BackendRancherDesktop
    else if String.eqb (OS osInfo) "linux" && isWSL w then BackendWSL
    else if String.eqb (OS osInfo) "linux" then BackendNative
    else BackendDockerDesktop.

Definition detectPodmanBackend (w : W) (osInfo : OSInfo) : Backend :=
  if String.eqb (OS osInfo) "darwin" || String.eqb (OS osInfo) "windows" then
    BackendPodmanMachine
  else if String.eqb (OS osInfo) "linux" then
    if isWSL w then BackendWSL else BackendNative
  else BackendUnknown.

(** [detectDocker] returns its [info] in every case, with the error next to
    it, as the Go function does. *)
Definition detectDocker (w : W) (osInfo : OSInfo) : (RuntimeInfo * option error) * W :=
  let info := {| ri_Runtime := RuntimeDocker; ri_Backend := ""; ri_Version := "";
                 ri_SocketPath := ""; ri_OS := osInfo; ri_Available := true;
                 ri_Error := "" |} in
  let '((out, err), w1) := Run w "docker" ["info"; "--format"; "{{json .}}"] in
  match err with
  | Some e => ((info, Some ("docker info failed: " +:+ e)), w1)
  | None =>
      match json_Unmarshal_dockerInfo out with
      | Err e => ((info, Some ("parsing docker info: " +:+ e)), w1)
      | Ok di =>
          (({| ri_Runtime := RuntimeDocker;
               ri_Backend := detectDockerBackend w1 di osInfo;
               ri_Version := ServerVersion di;
               ri_SocketPath := detectDockerSocket w1;
               ri_OS := osInfo; ri_Available := true; ri_Error := "" |}, None), w1)
      end
  end.

Definition detectPodman (w : W) (osInfo : OSInfo) : (RuntimeInfo * option error) * W :=
  let info := {| ri_Runtime := RuntimePodman; ri_Backend := ""; ri_Version := "";
                 ri_SocketPath := ""; ri_OS := osInfo; ri_Available := true;
                 ri_Error := "" |} in
  let '((out, err), w1) := Run w "podman" ["info"; "--format"; "json"] in
  match err with
  | Some e => ((info, Some ("podman info failed: " +:+ e)), w1)
  | None =>
      match json_Unmarshal_podmanInfo out with
      | Err e => ((info, Some ("parsing podman info: " +:+ e)), w1)
      | Ok pi =>
          (({| ri_Runtime := RuntimePodman;
               ri_Backend := detectPodmanBackend w1 osInfo;
               ri_Version := Host_Version_Version pi;
               ri_SocketPath := Host_RemoteSocket_Path pi;
               ri_OS := osInfo; ri_Available := true; ri_Error := "" |}, None), w1)
      end
  end.

(** The second half of [Detect]: the Podman probe and the final fallback. *)
Definition Detect_podman (w : W) (osInfo : OSInfo) : RuntimeInfo * W :=
  let unavailable :=
    {| ri_Runtime := RuntimeUnknown; ri_Backend := BackendUnknown; ri_Version := "";
       ri_SocketPath := ""; ri_OS := osInfo; ri_Available := false;
       ri_Error := "no container runtime detected; install Docker or Podman" |} in
  match LookPath w "podman" with
  | Ok _ =>
      match detectPodman w osInfo with
      | ((ri, None), w1) => (ri, w1)
      | ((_, Some _), w1) => (unavailable, w1)
      end
  | Err _ => (unavailable, w)
  end.

(** [Detect] detects the container runtime and backend. *)
Definition Detect (w : W) : RuntimeInfo * W :=
  let osInfo := DetectOS in
  match LookPath w "docker" with
  | Ok _ =>
      match detectDocker w osInfo with
      | ((ri, None), w1) => (ri, w1)
      | ((_, Some _), w1) => Detect_podman w1 osInfo
      end
  | Err _ => Detect_podman w osInfo
  end.

End detection.

End rtdetect.

(** * Package [internal/kind] *)

Module kind.
Import Go.

(** ** Configuration documents *)

Record PortMapping := {
  pm_HostPort : Z;
  pm_ContainerPort : Z;
  pm_ListenAddress : string;
  pm_Protocol : string;
}.

Record Mount := {
  mnt_HostPath : string;
  mnt_ContainerPath : string;
  mnt_ReadOnly : bool;
  mnt_Propagation : string;
}.

Record NetworkConfig := {
  net_IPFamily : string;
  net_APIServerAddress : string;
  net_APIServerPort : Z;
  net_PodSubnet : string;
  net_ServiceSubnet : string;
  net_DisableDefaultCNI : bool;
  net_KubeProxyMode : string;
}.

Record NodeConfig := {
  node_Role : string;
  node_Image : string;
  node_ExtraPortMappings : list PortMapping;
  node_ExtraMounts : list Mount;
  node_Labels : gmap string string;
  node_KubeadmConfigPatches : list string;
}.

Record ClusterConfig := {
  cfg_Kind : string;
  cfg_APIVersion : string;
  cfg_Name : string;
  cfg_Nodes : list NodeConfig;
  cfg_Networking : option NetworkConfig;
  cfg_FeatureGates : gmap string bool;
  cfg_ContainerdConfigPatches : list string;
}.

Record ConfigOptions := {
  ClusterName : string;
  NumWorkers : Z;
  NumControlPlanes : Z;
  KubernetesVersion : string;
  PortMappings : list PortMapping;
  ExtraMounts : list Mount;
  ContainerdPatches : list string;
  PodSubnet : string;
  ServiceSubnet : string;
  DisableDefaultCNI : bool;
  Labels : gmap string string;
  IPFamily : string;
  KubeProxyMode : string;
  APIServerPort : Z;
}.

(** [yaml.Marshal] of a [ClusterConfig] and [yaml.Unmarshal] into one
    (package [gopkg.in/yaml.v3]). *)
Class YAML := {
  yaml_Marshal : ClusterConfig → result string;
  yaml_Unmarshal : string → result ClusterConfig;
}.

(** [kindNodeImage] returns the kindest/node image for a Kubernetes version. *)
Definition kindNodeImage (version : string) : string :=
  let version := if negb (HasPrefix version "v") then "v" +:+ version else version in
  "kindest/node:" +:+ version.

(** [len(x) > 0] on a slice and on a map. *)
Definition has_elems {A} (l : list A) : bool := (0 <? length l)%nat.
Definition has_entries {V} (m : gmap string V) : bool := (0 <? size m)%nat.

(** The node appended by iteration [i] of the control-plane loop. *)
Definition controlPlaneNode (opts : ConfigOptions) (i : Z) : NodeConfig :=
  {| node_Role := "control-plane";
     node_Image :=
       if nonempty (KubernetesVersion opts)
       then kindNodeImage (KubernetesVersion opts) else "";
     (* Port mappings only on the first control plane *)
     node_ExtraPortMappings :=
       if (i =? 0)%Z && has_elems (PortMappings opts) then PortMappings opts else [];
     node_ExtraMounts :=
       if has_elems (ExtraMounts opts) then ExtraMounts opts else [];
     node_Labels :=
       if has_entries (Labels opts) then Labels opts else ∅;
     node_KubeadmConfigPatches := [] |}.

(** The node appended by iteration [i] of the worker loop. *)
Definition workerNode (opts : ConfigOptions) (i : Z) : NodeConfig :=
  {| node_Role := "worker";
     node_Image :=
       if nonempty (KubernetesVersion opts)
       then kindNodeImage (KubernetesVersion opts) else "";
     node_ExtraPortMappings := [];
     node_ExtraMounts :=
       if has_elems (ExtraMounts opts) then ExtraMounts opts else [];
     node_Labels :=
       if has_entries (Labels opts) then Labels opts else ∅;
     node_KubeadmConfigPatches := [] |}.

(** [opts.NumControlPlanes] after the normalisation at the head of
    [GenerateConfig]. *)
Definition normalizedControlPlanes (opts : ConfigOptions) : Z :=
  if (NumControlPlanes opts <=? 0)%Z then 1%Z else NumControlPlanes opts.

(** The value of [cfg] when [GenerateConfig] hands it to [yaml.Marshal]:
    [for i := 0; i < n; i++] runs its body on [seqZ 0 n]. *)
Definition GenerateConfig_cfg (opts : ConfigOptions) : ClusterConfig :=
  {| cfg_Kind := "Cluster";
     cfg_APIVersion := "kind.x-k8s.io/v1alpha4";
     cfg_Name := ClusterName opts;
     cfg_Nodes :=
       (controlPlaneNode opts <$> seqZ 0 (normalizedControlPlanes opts)) ++
       (workerNode opts <$> seqZ 0 (NumWorkers opts));
     cfg_Networking :=
       if nonempty (PodSubnet opts) || nonempty (ServiceSubnet opts) ||
          DisableDefaultCNI opts || nonempty (IPFamily opts) ||
          nonempty (KubeProxyMode opts) || negb (APIServerPort opts =? 0)%Z
       then Some {| net_IPFamily := IPFamily opts;
                    net_APIServerAddress := "";
                    net_APIServerPort := APIServerPort opts;
                    net_PodSubnet := PodSubnet opts;
                    net_ServiceSubnet := ServiceSubnet opts;
                    net_DisableDefaultCNI := DisableDefaultCNI opts;
                    net_KubeProxyMode := KubeProxyMode opts |}
       else None;
     cfg_FeatureGates := ∅;
     cfg_ContainerdConfigPatches :=
       if has_elems (ContainerdPatches opts) then ContainerdPatches opts else [] |}.

Section config.
Context {lib : Lib} {yaml : YAML}.

(** [GenerateConfig] generates a Kind cluster configuration YAML. *)
Definition GenerateConfig (opts : ConfigOptions) : result string :=
  if String.eqb (ClusterName opts) "" then Err "cluster name is required"
  else
    match yaml_Marshal (GenerateConfig_cfg opts) with
    | Err e => Err ("marshaling config to YAML: " +:+ e)
    | Ok data => Ok data
    end.

(** The loop over [cfg.Nodes] in [ValidateConfig], started with a value of
    [hasControlPlane]: the error of the first node with an invalid role, or
    the final value of [hasControlPlane]. *)
Fixpoint validateNodes (nodes : list NodeConfig) (hasControlPlane : bool) : result bool :=
  match nodes with
  | [] => Ok hasControlPlane
  | node :: rest =>
      let hasControlPlane :=
        if String.eqb (node_Role node) "control-plane" then true else hasControlPlane in
      if negb (String.eqb (node_Role node) "control-plane") &&
         negb (String.eqb (node_Role node) "worker")
      then Err ("invalid node role " +:+ Quote (node_Role node) +:+
                "; must be 'control-plane' or 'worker'")
      else validateNodes rest hasControlPlane
  end.

(** The checks of [ValidateConfig] on the parsed document. *)
Definition validateParsed (cfg : ClusterConfig) : result unit :=
  if negb (String.eqb (cfg_Kind cfg) "Cluster") then
    Err ("expected kind 'Cluster', got " +:+ Quote (cfg_Kind cfg))
  else if negb (String.eqb (cfg_APIVersion cfg) "kind.x-k8s.io/v1alpha4") then
    Err ("expected apiVersion 'kind.x-k8s.io/v1alpha4', got " +:+ Quote (cfg_APIVersion cfg))
  else
    match validateNodes (cfg_Nodes cfg) false with
    | Err e => Err e
    | Ok hasControlPlane =>
        if has_elems (cfg_Nodes cfg) && negb hasControlPlane
        then Err "at least one control-plane node is required"
        else Ok ()
    end.

(** [ValidateConfig] performs basic validation on a Kind cluster config YAML. *)
Definition ValidateConfig (configYAML : string) : result unit :=
  match yaml_Unmarshal configYAML with
  | Err e => Err ("invalid YAML: " +:+ e)
  | Ok cfg => validateParsed cfg
  end.

End config.

(** ** Network advice *)

Record NetworkAdvice := {
  adv_ListenAddress : string;
  adv_SupportsPortMapping : bool;
  adv_RequiresExtraConfig : bool;
  adv_Notes : string;
  adv_RecommendedPortRange : string;
}.

(** [DetectNetworkConfig] returns network exposure advice based on the
    runtime info. Every branch of the switch starts from the same [advice]
    and assigns some of its fields. *)
Definition DetectNetworkConfig (ri : rtdetect.RuntimeInfo) : NetworkAdvice :=
  let backend := rtdetect.ri_Backend ri in
  let os := rtdetect.OS (rtdetect.ri_OS ri) in
  let advice (listen : string) (extra : bool) (notes : string) :=
    {| adv_ListenAddress := listen;
       adv_SupportsPortMapping := true;
       adv_RequiresExtraConfig := extra;
       adv_Notes := notes;
       adv_RecommendedPortRange := "30000-32767" |} in
  if String.eqb backend rtdetect.BackendDockerDesktop then
    advice "127.0.0.1" false
      ("Docker Desktop forwards container ports to the host automatically. " +:+
       "Use extraPortMappings in the Kind config to map NodePorts to host ports. " +:+
       "Bind to 127.0.0.1 for local-only access or 0.0.0.0 for LAN access.")
  else if String.eqb backend rtdetect.BackendColima then
    advice "127.0.0.1" false
      ("Colima forwards ports from the VM to the macOS host. " +:+
       "extraPortMappings work seamlessly. Bind to 127.0.0.1 for local access. " +:+
       "For LAN access, use 0.0.0.0 and ensure Colima network settings allow it.")
  else if String.eqb backend rtdetect.BackendWSL then
    advice "127.0.0.1" false
      ("WSL2 automatically forwards localhost ports from the Linux VM to Windows. " +:+
       "extraPortMappings on 127.0.0.1 are reachable from Windows host. " +:+
       "For LAN access, Windows firewall rules may need adjustment.")
  else if String.eqb backend rtdetect.BackendPodmanMachine then
    advice "127.0.0.1"
      (String.eqb os "darwin" || String.eqb os "windows")
      ("Podman Machine forwards ports from the VM to the host. " +:+
       "extraPortMappings work with rootful Podman Machine. " +:+
       "For rootless mode, additional port forwarding may be required.")
  else if String.eqb backend rtdetect.BackendNative then
    if String.eqb os "linux" then
      advice "0.0.0.0" false
        ("Native Linux: containers are directly accessible. " +:+
         "extraPortMappings bind to the host network interface. " +:+
         "Container IPs are also directly reachable from the host.")
    else advice "127.0.0.1" false ""
  else if String.eqb backend rtdetect.BackendRancherDesktop then
    advice "127.0.0.1" false
      ("Rancher Desktop forwards container ports similar to Docker Desktop. " +:+
       "extraPortMappings work as expected.")
  else if String.eqb backend rtdetect.BackendLima then
    advice "127.0.0.1" false
      ("Lima VMs forward ports to the macOS host. " +:+
       "extraPortMappings should work. Check Lima port forwarding configuration if issues arise.")
  else
    advice "127.0.0.1" false
      "Unknown backend. extraPortMappings with 127.0.0.1 is a safe default.".

(** [DefaultPortMappings] returns commonly useful port mappings for Kind
    clusters. *)
Definition DefaultPortMappings (listenAddr : string) : list PortMapping :=
  let listenAddr := if String.eqb listenAddr "" then "127.0.0.1" else listenAddr in
  [ {| pm_HostPort := 80; pm_ContainerPort := 80;
       pm_ListenAddress := listenAddr; pm_Protocol := "TCP" |};
    {| pm_HostPort := 443; pm_ContainerPort := 443;
       pm_ListenAddress := listenAddr; pm_Protocol := "TCP" |} ].

(** The [%t] verb of [fmt] on a boolean. *)
Definition fmt_bool (b : bool) : string := if b then "true" else "false".

(** [FormatNetworkAdvice] returns a human-readable summary of the network
    advice. *)
Definition FormatNetworkAdvice (advice : NetworkAdvice) : string :=
  let result :=
    "Listen Address: " +:+ adv_ListenAddress advice +:+ nl +:+
    "Port Mapping Supported: " +:+ fmt_bool (adv_SupportsPortMapping advice) +:+ nl in
  let result :=
    if adv_RequiresExtraConfig advice
    then result +:+ "Warning: Extra configuration may be required for port forwarding." +:+ nl
    else result in
  let result :=
    result +:+ ("Recommended NodePort Range: " +:+ adv_RecommendedPortRange advice +:+ nl) in
  result +:+ ("Notes: " +:+ adv_Notes advice).

(** ** The Kind CLI manager *)

(** [Manager] wraps the Kind CLI. Its runner is the [CommandRunner] instance
    in scope; its logger has no observable effect and is left out. *)
Record Manager := {
  runtime : rtdetect.RuntimeInfo;
}.

Section manager.
Context {W : Type} {lib : Lib} {runner : rtdetect.CommandRunner W}.

(** [kindArgs] returns extra args for the kind CLI based on the runtime. *)
Definition kindArgs (m : Manager) : list string :=
  if String.eqb (rtdetect.ri_Runtime (runtime m)) rtdetect.RuntimePodman
  then ["--runtime"; "podman"] else [].

(** The value of [runtimeBin] in [ExecOnNode] and [GetClusterStatus]. *)
Definition runtimeBin (m : Manager) : string :=
  if String.eqb (rtdetect.ri_Runtime (runtime m)) rtdetect.RuntimePodman
  then "podman" else "docker".

(** [ExecOnNode] runs a command on a Kind node container. *)
Definition ExecOnNode (m : Manager) (w : W) (nodeName : string) (cmd : list string)
  : (string * option error) * W :=
  let args := ["exec"; nodeName] ++ cmd in
  let '((out, err), w1) := rtdetect.Run w (runtimeBin m) args in
  match err with
  | Some e =>
      ((out, Some ("exec on node " +:+ Quote nodeName +:+ " failed: " +:+ e +:+
                   nl +:+ "Output: " +:+ out)), w1)
  | None => ((out, None), w1)
  end.

(** [GetClusterNodes] returns node names for a Kind cluster. *)
Definition GetClusterNodes (m : Manager) (w : W) (name : string)
  : result (list string) * W :=
  let args := kindArgs m ++ ["get"; "nodes"; "--name"; name] in
  let '((out, err), w1) := rtdetect.Run w "kind" args in
  match err with
  | Some e => (Err ("kind get nodes failed: " +:+ e), w1)
  | None =>
      let output := TrimSpace out in
      if String.eqb output "" then (Ok [], w1)
      else (Ok (List.filter nonempty (TrimSpace <$> Split output "010"%char)), w1)
  end.

End manager.

(** ** Cluster lifecycle *)

(** [NodeStatus] holds status information for a single node. *)
Record NodeStatus := {
  ns_Name : string;
  ns_Role : string;
  ns_Status : string;
}.

(** [ClusterStatus] holds the status of a Kind cluster and its nodes. *)
Record ClusterStatus := {
  cs_Name : string;
  cs_Nodes : list NodeStatus;
}.

(** The temporary file of [CreateCluster]: [os.CreateTemp] (the name of the
    file created, or an error), [WriteString] and [Close] on the file, and
    [os.Remove], whose error the deferred call drops. *)
Class TempFiles (W : Type) := {
  CreateTemp : W → string → string → result string * W;
  WriteString : W → string → string → option error * W;
  Close : W → string → W;
  Remove : W → string → W;
}.

Section lifecycle.
Context {W : Type} {lib : Lib} {yaml : YAML} {runner : rtdetect.CommandRunner W}
  {temp : TempFiles W}.

(** [CreateCluster] creates a Kind cluster from the given config YAML. The
    deferred [os.Remove] runs on every return that follows the creation of
    the temporary file. *)
Definition CreateCluster (m : Manager) (w : W) (name configYAML : string)
  : (string * option error) * W :=
  if String.eqb name "" then (("", Some "cluster name is required"), w)
  else
    match ValidateConfig configYAML with
    | Err e => (("", Some ("invalid config: " +:+ e)), w)
    | Ok _ =>
        match CreateTemp w "" "kind-config-*.yaml" with
        | (Err e, w1) => (("", Some ("creating temp config file: " +:+ e)), w1)
        | (Ok tmpFile, w1) =>
            match WriteString w1 tmpFile configYAML with
            | (Some e, w2) =>
                let w3 := Close w2 tmpFile in
                (("", Some ("writing config to temp file: " +:+ e)), Remove w3 tmpFile)
            | (None, w2) =>
                let w3 := Close w2 tmpFile in
                let args := kindArgs m ++
                            ["create"; "cluster"; "--name"; name; "--config"; tmpFile] in
                let '((out, err), w4) := rtdetect.Run w3 "kind" args in
                match err with
                | Some e =>
                    ((out, Some ("kind create cluster failed: " +:+ e +:+ nl +:+
                                 "Output: " +:+ out)), Remove w4 tmpFile)
                | None => ((out, None), Remove w4 tmpFile)
                end
            end
        end
    end.

(** [DeleteCluster] deletes a Kind cluster by name. *)
Definition DeleteCluster (m : Manager) (w : W) (name : string)
  : (string * option error) * W :=
  if String.eqb name "" then (("", Some "cluster name is required"), w)
  else
    let args := kindArgs m ++ ["delete"; "cluster"; "--name"; name] in
    let '((out, err), w1) := rtdetect.Run w "kind" args in
    match err with
    | Some e =>
        ((out, Some ("kind delete cluster failed: " +:+ e +:+ nl +:+ "Output: " +:+ out)), w1)
    | None => ((out, None), w1)
    end.

(** [ListClusters] returns a list of Kind cluster names. *)
Definition ListClusters (m : Manager) (w : W) : result (list string) * W :=
  let args := kindArgs m ++ ["get"; "clusters"] in
  let '((out, err), w1) := rtdetect.Run w "kind" args in
  match err with
  | Some e =>
      (Err ("kind get clusters failed: " +:+ e +:+ nl +:+ "Output: " +:+ out), w1)
  | None =>
      let output := TrimSpace out in
      if String.eqb output "" || String.eqb output "No kind clusters found."
      then (Ok [], w1)
      else (Ok (List.filter nonempty (TrimSpace <$> Split output "010"%char)), w1)
  end.

(** [GetKubeconfig] returns the kubeconfig for a Kind cluster. *)
Definition GetKubeconfig (m : Manager) (w : W) (name : string) (internal : bool)
  : (string * option error) * W :=
  if String.eqb name "" then (("", Some "cluster name is required"), w)
  else
    let args := kindArgs m ++ ["get"; "kubeconfig"; "--name"; name] in
    let args := if internal then args ++ ["--internal"] else args in
    let '((out, err), w1) := rtdetect.Run w "kind" args in
    match err with
    | Some e =>
        (("", Some ("kind get kubeconfig failed: " +:+ e +:+ nl +:+ "Output: " +:+ out)), w1)
    | None => ((out, None), w1)
    end.

(** The loop of [GetClusterStatus] over the lines of the node listing. *)
Fixpoint inspectNodes (m : Manager) (w : W) (lines : list string)
  : list NodeStatus * W :=
  match lines with
  | [] => ([], w)
  | line :: rest =>
      let nodeName := TrimSpace line in
      if String.eqb nodeName "" then inspectNodes m w rest
      else
        let role :=
          if Contains nodeName "control-plane" then "control-plane" else "worker" in
        let '((inspectOut, err), w1) :=
          rtdetect.Run w (runtimeBin m)
            ["inspect"; "--format"; "{{.State.Status}}"; nodeName] in
        let status :=
          match err with
          | Some _ => "unknown"
          | None => TrimSpace inspectOut
          end in
        let '(nodes, w2) := inspectNodes m w1 rest in
        ({| ns_Name := nodeName; ns_Role := role; ns_Status := status |} :: nodes, w2)
  end.

(** [GetClusterStatus] returns the status of a Kind cluster including node
    states. *)
Definition GetClusterStatus (m : Manager) (w : W) (name : string)
  : result ClusterStatus * W :=
  if String.eqb name "" then (Err "cluster name is required", w)
  else
    let args := kindArgs m ++ ["get"; "nodes"; "--name"; name] in
    let '((out, err), w1) := rtdetect.Run w "kind" args in
    match err with
    | Some e =>
        (Err ("kind get nodes failed: " +:+ e +:+ nl +:+ "Output: " +:+ out), w1)
    | None =>
        let output := TrimSpace out in
        if String.eqb output ""
        then (Err ("cluster " +:+ Quote name +:+ " not found or has no nodes"), w1)
        else
          let '(nodes, w2) := inspectNodes m w1 (Split output "010"%char) in
          (Ok {| cs_Name := name; cs_Nodes := nodes |}, w2)
    end.

End lifecycle.

End kind.

(** * Package [internal/registry] *)

Module registry.
Import Go.

(** ** Mirrors *)

Record RegistryOverride := {
  Original : string;
  Mirror : string;
}.

Record NodeCommand := {
  NodeSelector : string;
  Description : string;
  Command : list string;
}.

Record MirrorConfig := {
  ContainerdPatches : list string;
  ExtraMounts : list kind.Mount;
  PostCreateCommands : list NodeCommand;
}.

Record CredentialInfo := {
  FilePath : string;
  Registries : list string;
  CredStore : string;
  CredHelpers : gmap string string;
  InlineAuth : bool;
  MountPath : string;
  Source : string;
  Notes : string;
}.

(** The calls of [sb.WriteString] made by [generateHostsToml], in order. *)
Definition generateHostsToml_writes (override : RegistryOverride) : list string :=
  let server :=
    if String.eqb (Original override) "docker.io"
    then "server = " +:+ dquote +:+ "https://registry-1.docker.io" +:+ dquote +:+ nl +:+ nl
    else "server = " +:+ dquote +:+ "https://" +:+ Original override +:+ dquote +:+ nl +:+ nl in
  let mirrorURL :=
    if negb (HasPrefix (Mirror override) "http://") &&
       negb (HasPrefix (Mirror override) "https://")
    then "http://" +:+ Mirror override else Mirror override in
  [ server;
    "[host." +:+ dquote +:+ mirrorURL +:+ dquote +:+ "]" +:+ nl;
    "  capabilities = [" +:+ dquote +:+ "pull" +:+ dquote +:+ ", " +:+
      dquote +:+ "resolve" +:+ dquote +:+ "]" +:+ nl ] ++
  (if HasPrefix mirrorURL "http://" then ["  skip_verify = true" +:+ nl] else []).

(** [generateHostsToml] creates a hosts.toml file content for a registry
    override: the contents of the [strings.Builder] after those writes. *)
Definition generateHostsToml (override : RegistryOverride) : string :=
  String.concat "" (generateHostsToml_writes override).

(** The two commands that one iteration of the loop of
    [GenerateMirrorConfig] appends. *)
Definition overrideCommands (override : RegistryOverride) : list NodeCommand :=
  let registryDir := Original override in
  let hostsToml := generateHostsToml override in
  [ {| NodeSelector := "all";
       Description := "Create registry config directory for " +:+ Original override;
       Command := ["mkdir"; "-p"; "/etc/containerd/certs.d/" +:+ registryDir] |};
    {| NodeSelector := "all";
       Description := "Configure mirror for " +:+ Original override +:+ " -> " +:+
                      Mirror override;
       Command := ["bash"; "-c";
                   "cat > /etc/containerd/certs.d/" +:+ registryDir +:+
                   "/hosts.toml << 'EOF'" +:+ nl +:+ hostsToml +:+ nl +:+ "EOF"] |} ].

(** [GenerateMirrorConfig] generates containerd mirror configuration for the
    given registry overrides; [credInfo] is [None] for a nil pointer. *)
Definition GenerateMirrorConfig (overrides : list RegistryOverride)
    (credInfo : option CredentialInfo) : result MirrorConfig :=
  if (length overrides =? 0)%nat then Err "at least one registry override is required"
  else
    Ok {| ContainerdPatches :=
            [ "[plugins." +:+ dquote +:+ "io.containerd.grpc.v1.cri" +:+ dquote +:+
              ".registry]" +:+ nl +:+ "  config_path = " +:+ dquote +:+
              "/etc/containerd/certs.d" +:+ dquote ];
          ExtraMounts :=
            match credInfo with
            | Some ci =>
                if InlineAuth ci
                then [ {| kind.mnt_HostPath := FilePath ci;
                          kind.mnt_ContainerPath := MountPath ci;
                          kind.mnt_ReadOnly := true;
                          kind.mnt_Propagation := "" |} ]
                else []
            | None => []
            end;
          PostCreateCommands := concat (overrideCommands <$> overrides) |}.

(** [filterNodes] filters node names based on the selector. *)
Definition filterNodes (nodes : list string) (selector : string) : list string :=
  if String.eqb selector "all" then nodes
  else if String.eqb selector "control-plane"
  then List.filter (λ n, Contains n "control-plane") nodes
  else if String.eqb selector "worker"
  then List.filter (λ n, negb (Contains n "control-plane")) nodes
  else [].

Section apply.
Context {W : Type} {lib : Lib} {runner : rtdetect.CommandRunner W}.

(** The result line recorded for one run of a provisioning command. *)
Definition commandLine (node : string) (cmd : NodeCommand) (out : string)
    (err : option error) : string :=
  match err with
  | Some e => "FAILED [" +:+ node +:+ "] " +:+ Description cmd +:+ ": " +:+ e
  | None =>
      let msg := "OK [" +:+ node +:+ "] " +:+ Description cmd in
      let trimmed := TrimSpace out in
      if nonempty trimmed then msg +:+ ": " +:+ trimmed else msg
  end.

(** The result line recorded for one restart of containerd. *)
Definition restartLine (node : string) (out : string) (err : option error) : string :=
  match err with
  | Some e => "FAILED [" +:+ node +:+ "] restart containerd: " +:+ e
  | None =>
      let msg := "OK [" +:+ node +:+ "] restarted containerd" in
      let trimmed := TrimSpace out in
      if nonempty trimmed then msg +:+ ": " +:+ trimmed else msg
  end.

(** The inner loop of [ApplyMirrorConfig]: one command on its target nodes. *)
Fixpoint applyCommand (m : kind.Manager) (w : W) (cmd : NodeCommand)
    (targetNodes : list string) : list string * W :=
  match targetNodes with
  | [] => ([], w)
  | node :: rest =>
      let '((out, err), w1) := kind.ExecOnNode m w node (Command cmd) in
      let '(lines, w2) := applyCommand m w1 cmd rest in
      (commandLine node cmd out err :: lines, w2)
  end.

(** The outer loop of [ApplyMirrorConfig] over the commands. *)
Fixpoint applyCommands (m : kind.Manager) (w : W) (cmds : list NodeCommand)
    (nodes : list string) : list string * W :=
  match cmds with
  | [] => ([], w)
  | cmd :: rest =>
      let '(lines1, w1) := applyCommand m w cmd (filterNodes nodes (NodeSelector cmd)) in
      let '(lines2, w2) := applyCommands m w1 rest nodes in
      (lines1 ++ lines2, w2)
  end.

(** The last loop of [ApplyMirrorConfig]: restart containerd on all nodes. *)
Fixpoint restartNodes (m : kind.Manager) (w : W) (nodes : list string)
  : list string * W :=
  match nodes with
  | [] => ([], w)
  | node :: rest =>
      let '((out, err), w1) :=
        kind.ExecOnNode m w node ["systemctl"; "restart"; "containerd"] in
      let '(lines, w2) := restartNodes m w1 rest in
      (restartLine node out err :: lines, w2)
  end.

(** [ApplyMirrorConfig] applies mirror configuration to a running Kind
    cluster. *)
Definition ApplyMirrorConfig (m : kind.Manager) (w : W) (clusterName : string)
    (mirrorCfg : MirrorConfig) : result (list string) * W :=
  match kind.GetClusterNodes m w clusterName with
  | (Err e, w1) => (Err ("getting cluster nodes: " +:+ e), w1)
  | (Ok nodes, w1) =>
      let '(provisioned, w2) := applyCommands m w1 (PostCreateCommands mirrorCfg) nodes in
      let '(restarted, w3) := restartNodes m w2 nodes in
      (Ok (provisioned ++ restarted), w3)
  end.

End apply.

(** ** Credentials *)

Record authEntry := {
  Auth : string;
}.

(** [dockerConfig] represents the structure of Docker/Podman config.json /
    auth.json. *)
Record dockerConfig := {
  Auths : gmap string authEntry;
  CredsStore : string;
  cfg_CredHelpers : gmap string string;
}.

(** [json.Unmarshal] into a [dockerConfig]. *)
Class JSON := {
  json_Unmarshal_dockerConfig : string → result dockerConfig;
}.

Record candidatePath := {
  path : string;
  source : string;
}.

Section credentials.
Context {W : Type} {lib : Lib} {host : rtdetect.Host W} {json : JSON}.

Definition expandPath (w : W) (p : string) : string :=
  if HasPrefix p "~/" then
    match rtdetect.UserHomeDir w with
    | Err _ => p
    | Ok home => filepath_Join [home; drop_bytes 2 p]
    end
  else p.

Definition candidatePaths (w : W) (ri : rtdetect.RuntimeInfo) : list candidatePath :=
  let docker_default := {| path := "~/.docker/config.json"; source := "docker" |} in
  let podman_default := {| path := "~/.config/containers/auth.json"; source := "podman" |} in
  if String.eqb (rtdetect.ri_Runtime ri) rtdetect.RuntimePodman then
    let envPath := rtdetect.Getenv w "REGISTRY_AUTH_FILE" in
    (if nonempty envPath then [{| path := envPath; source := "podman" |}] else []) ++
    (if String.eqb rtdetect.GOOS "linux" then
       let xdg := rtdetect.Getenv w "XDG_RUNTIME_DIR" in
       (if nonempty xdg
        then [{| path := filepath_Join [xdg; "containers"; "auth.json"];
                 source := "podman" |}]
        else []) ++ [podman_default]
     else if String.eqb rtdetect.GOOS "darwin" || String.eqb rtdetect.GOOS "windows"
     then [podman_default]
     else []) ++
    (* Fallback to Docker config *)
    [docker_default]
  else if String.eqb (rtdetect.ri_Runtime ri) rtdetect.RuntimeDocker then
    let envPath := rtdetect.Getenv w "DOCKER_CONFIG" in
    (if nonempty envPath
     then [{| path := filepath_Join [envPath; "config.json"]; source := "docker" |}]
     else []) ++ [docker_default]
  else
    (* Try both *)
    [docker_default; podman_default].

Definition pathStrings (w : W) (paths : list candidatePath) : list string :=
  (λ p, expandPath w (path p)) <$> paths.

(** The [CredentialInfo] that [FindCredentials] returns for a candidate whose
    file, at the expanded path, parsed as [cfg]. Go leaves the order in which
    [range cfg.Auths] visits the keys unspecified; the order of [map_to_list]
    stands for it, and no property below depends on it. *)
Definition credentialInfo (expanded : string) (candidate : candidatePath)
    (cfg : dockerConfig) : CredentialInfo :=
  let registries := (map_to_list (Auths cfg)).*1 in
  let inlineAuth :=
    String.eqb (CredsStore cfg) "" && (size (cfg_CredHelpers cfg) =? 0)%nat in
  let notes1 :=
    if nonempty (CredsStore cfg) then
      "Credentials are managed by credential helper " +:+ Quote (CredsStore cfg) +:+ ". " +:+
      "The config file may not contain inline credentials. " +:+
      "To use with Kind, you may need to extract credentials using " +:+
      "'docker-credential-" +:+ CredsStore cfg +:+ " get' and create a standalone config.json, " +:+
      "or use imagePullSecrets in your Kubernetes manifests."
    else "" in
  let notes2 :=
    if negb inlineAuth && (length registries =? 0)%nat
    then notes1 +:+ " No inline auth entries found in the config file." else notes1 in
  {| FilePath := expanded;
     Registries := registries;
     CredStore := CredsStore cfg;
     CredHelpers := cfg_CredHelpers cfg;
     InlineAuth := inlineAuth;
     MountPath := "/var/lib/kubelet/config.json";
     Source := source candidate;
     Notes := notes2 |}.

(** The loop of [FindCredentials] over the candidates: each of its three
    [continue] statements moves on to the rest of the list. *)
Fixpoint searchCandidates (w : W) (paths : list candidatePath) : option CredentialInfo :=
  match paths with
  | [] => None
  | candidate :: rest =>
      let expanded := expandPath w (path candidate) in
      if negb (rtdetect.Stat w expanded) then searchCandidates w rest
      else
        match rtdetect.ReadFile w expanded with
        | Err _ => searchCandidates w rest
        | Ok data =>
            match json_Unmarshal_dockerConfig data with
            | Err _ => searchCandidates w rest
            | Ok cfg => Some (credentialInfo expanded candidate cfg)
            end
        end
  end.

(** [FindCredentials] discovers registry credentials based on the container
    runtime and OS. *)
Definition FindCredentials (w : W) (ri : rtdetect.RuntimeInfo) : result CredentialInfo :=
  let paths := candidatePaths w ri in
  match searchCandidates w paths with
  | Some info => Ok info
  | None =>
      Err ("no registry credentials found; searched paths: " +:+
           Join (pathStrings w paths) ", ")
  end.

End credentials.

End registry.

(** * Package [internal/tools]: the shared dependencies of the handlers *)

Module tools.
Import Go.

Section registry.
Context {W : Type} {lib : Lib} {runner : rtdetect.CommandRunner W}
  {host : rtdetect.Host W} {json : rtdetect.JSON}.

(** [runtimeInfo] detects the runtime anew on every call. *)
Definition runtimeInfo (w : W) : rtdetect.RuntimeInfo * W := rtdetect.Detect w.

(** [kindManager] builds the manager of one tool call from a fresh
    detection. *)
Definition kindManager (w : W) : kind.Manager * W :=
  let '(ri, w1) := runtimeInfo w in
  ({| kind.runtime := ri |}, w1).

End registry.

End tools.

(** * The vocabulary of the properties

    The predicates in which the properties of the second half of this file
    are stated. They describe inputs and results; none of them is part of the
    program. *)

Section config_vocabulary.
Import Go kind.

(** A node role that [ValidateConfig] accepts. *)
Definition validRole (node : NodeConfig) : Prop :=
  node_Role node = "control-plane" ∨ node_Role node = "worker".

Definition isControlPlane (node : NodeConfig) : bool :=
  String.eqb (node_Role node) "control-plane".

(** What makes [ValidateConfig] reject a document that parsed. *)
Definition SchemaViolation (cfg : ClusterConfig) : Prop :=
  cfg_Kind cfg ≠ "Cluster" ∨
  cfg_APIVersion cfg ≠ "kind.x-k8s.io/v1alpha4" ∨
  (∃ node, node ∈ cfg_Nodes cfg ∧ ¬ validRole node) ∨
  (cfg_Nodes cfg ≠ [] ∧ ∀ node, node ∈ cfg_Nodes cfg → node_Role node ≠ "control-plane").

(** The options that make up the networking block. *)
Definition networkingRequested (opts : ConfigOptions) : Prop :=
  PodSubnet opts ≠ "" ∨ ServiceSubnet opts ≠ "" ∨ DisableDefaultCNI opts = true ∨
  IPFamily opts ≠ "" ∨ KubeProxyMode opts ≠ "" ∨ APIServerPort opts ≠ 0%Z.

End config_vocabulary.

Section mirror_vocabulary.
Import Go registry.
Context {lib : Lib}.



Definition schemeless (mirror : string) : Prop :=
  HasPrefix mirror "http://" = false ∧ HasPrefix mirror "https://" = false.





(** A result line reports success or failure in its first word. *)
Definition resultLine (line : string) : Prop :=
  HasPrefix line "OK [" = true ∨ HasPrefix line "FAILED [" = true.

End mirror_vocabulary.

(** One run of a command inside a node: the node, the command, and what the
    runner returned for it. *)
Record execution := {
  ex_node : string;
  ex_command : list string;
  ex_out : string;
  ex_err : option Go.error;
}.

Section apply_vocabulary.
Import Go registry.
Context {W : Type} {lib : Lib} {runner : rtdetect.CommandRunner W}.

(** [executed m w runs w']: from the world [w] the runner was asked to run,
    one after the other and with nothing in between, the command of each
    record of [runs] inside its node, through the exec command of the
    runtime CLI; each time it returned what the record says; and it left the
    world [w']. *)
Inductive executed (m : kind.Manager) : W → list execution → W → Prop :=
  | executed_nil (w : W) : executed m w [] w
  | executed_cons (w w1 w2 : W) (ex : execution) (rest : list execution) :
      rtdetect.Run w (kind.runtimeBin m) ("exec" :: ex_node ex :: ex_command ex)
        = ((ex_out ex, ex_err ex), w1) →
      executed m w1 rest w2 →
      executed m w (ex :: rest) w2.

(** The line that reports a run. A run that failed is reported as FAILED,
    with the node, what was attempted and the error of the run; a run that
    succeeded is reported as OK, with the node, what was done and, when it is
    not blank, the trimmed output. *)
Definition reportLine (attempted achieved : string) (ex : execution) : string :=
  match ex_err ex with
  | Some e =>
      "FAILED [" +:+ ex_node ex +:+ "] " +:+ attempted +:+ ": " +:+
      ("exec on node " +:+ Quote (ex_node ex) +:+ " failed: " +:+ e +:+ nl +:+
       "Output: " +:+ ex_out ex)
  | None =>
      if String.eqb (TrimSpace (ex_out ex)) ""
      then "OK [" +:+ ex_node ex +:+ "] " +:+ achieved
      else ("OK [" +:+ ex_node ex +:+ "] " +:+ achieved) +:+ ": " +:+ TrimSpace (ex_out ex)
  end.

(** The run and the line of one provisioning command on one node, and of one
    restart of containerd on one node. *)
Definition provisionReport (job : NodeCommand * string) (ex : execution)
    (line : string) : Prop :=
  ex_node ex = job.2 ∧ ex_command ex = Command job.1 ∧
  line = reportLine (Description job.1) (Description job.1) ex.

Definition restartReport (node : string) (ex : execution) (line : string) : Prop :=
  ex_node ex = node ∧ ex_command ex = ["systemctl"; "restart"; "containerd"] ∧
  line = reportLine "restart containerd" "restarted containerd" ex.

(** Every command on every node: command by command, and node by node
    within a command. *)
Definition jobs (cmds : list NodeCommand) (nodes : list string)
  : list (NodeCommand * string) :=
  concat ((λ cmd, pair cmd <$> nodes) <$> cmds).

(** A run failed exactly when its line says FAILED. *)
Definition failureRecorded (ex : execution) (line : string) : Prop :=
  (ex_err ex ≠ None → HasPrefix line "FAILED [" = true) ∧
  (ex_err ex = None → HasPrefix line "OK [" = true).

End apply_vocabulary.

Section credential_vocabulary.
Import Go rtdetect registry.
Context {W : Type} {lib : Lib} {host : Host W} {json : JSON}.

(** The three ways the loop of [FindCredentials] passes over a candidate:
    [os.Stat] fails; the file is there but cannot be read; the file was read
    but is not JSON of the expected shape. *)
Definition missing (w : W) (c : candidatePath) : Prop :=
  Stat w (expandPath w (path c)) = false.

Definition unreadable (w : W) (c : candidatePath) : Prop :=
  Stat w (expandPath w (path c)) = true ∧
  ∃ e, ReadFile w (expandPath w (path c)) = Err e.

Definition unparsable (w : W) (c : candidatePath) : Prop :=
  Stat w (expandPath w (path c)) = true ∧
  ∃ data e, ReadFile w (expandPath w (path c)) = Ok data ∧
            json_Unmarshal_dockerConfig data = Err e.

Definition passedOver (w : W) (c : candidatePath) : Prop :=
  missing w c ∨ unreadable w c ∨ unparsable w c.

(** The candidate exists and its contents parse as [cfg]. *)
Definition parsesAs (w : W) (c : candidatePath) (cfg : dockerConfig) : Prop :=
  Stat w (expandPath w (path c)) = true ∧
  ∃ data, ReadFile w (expandPath w (path c)) = Ok data ∧
          json_Unmarshal_dockerConfig data = Ok cfg.

End credential_vocabulary.

Section detection_vocabulary.
Import Go rtdetect.
Context {W : Type} {lib : Lib} {runner : CommandRunner W} {host : Host W} {json : JSON}.

(** Docker responds in world [w]: the executable is on the search path, its
    info call succeeds, leaving the world [w1], and the output parses. *)
Definition dockerResponds (w : W) (di : dockerInfo) (w1 : W) : Prop :=
  (∃ p, LookPath w "docker" = Ok p) ∧
  ∃ out, Run w "docker" ["info"; "--format"; "{{json .}}"] = ((out, None), w1) ∧
         json_Unmarshal_dockerInfo out = Ok di.

(** Docker does not respond: it is absent (nothing is run), or its info call
    fails, or the output of the call does not parse. *)
Definition dockerFails (w w1 : W) : Prop :=
  ((∃ e, LookPath w "docker" = Err e) ∧ w1 = w) ∨
  ((∃ p, LookPath w "docker" = Ok p) ∧
   ((∃ out e, Run w "docker" ["info"; "--format"; "{{json .}}"] = ((out, Some e), w1)) ∨
    (∃ out e, Run w "docker" ["info"; "--format"; "{{json .}}"] = ((out, None), w1) ∧
              json_Unmarshal_dockerInfo out = Err e))).

Definition podmanResponds (w : W) (pi : podmanInfo) (w1 : W) : Prop :=
  (∃ p, LookPath w "podman" = Ok p) ∧
  ∃ out, Run w "podman" ["info"; "--format"; "json"] = ((out, None), w1) ∧
         json_Unmarshal_podmanInfo out = Ok pi.

Definition podmanFails (w w1 : W) : Prop :=
  ((∃ e, LookPath w "podman" = Err e) ∧ w1 = w) ∨
  ((∃ p, LookPath w "podman" = Ok p) ∧
   ((∃ out e, Run w "podman" ["info"; "--format"; "json"] = ((out, Some e), w1)) ∨
    (∃ out e, Run w "podman" ["info"; "--format"; "json"] = ((out, None), w1) ∧
              json_Unmarshal_podmanInfo out = Err e))).

(** The result of [Detect] when no runtime responds. *)
Definition noRuntime : RuntimeInfo :=
  {| ri_Runtime := RuntimeUnknown; ri_Backend := BackendUnknown; ri_Version := "";
     ri_SocketPath := ""; ri_OS := DetectOS; ri_Available := false;
     ri_Error := "no container runtime detected; install Docker or Podman" |}.

End detection_vocabulary.

(** ** Recording the commands

    The functions of the program work with any [CommandRunner]. Run with the
    runner below they leave, next to the world, the list of the commands
    they asked for, in order. *)

Section tracing.
Import Go.
Context {W : Type}.

(** A command: the executable and its arguments. *)
Definition call : Type := string * list string.

Definition tracedRunner (runner : rtdetect.CommandRunner W)
  : rtdetect.CommandRunner (W * list call) :=
  {| rtdetect.Run wl name args :=
       let '(r, w1) := rtdetect.Run wl.1 name args in
       (r, (w1, wl.2 ++ [(name, args)]));
     rtdetect.LookPath wl name := rtdetect.LookPath wl.1 name |}.

Definition tracedHost (host : rtdetect.Host W) : rtdetect.Host (W * list call) :=
  {| rtdetect.GOOS := rtdetect.GOOS;
     rtdetect.GOARCH := rtdetect.GOARCH;
     rtdetect.Getenv wl := rtdetect.Getenv wl.1;
     rtdetect.Stat wl := rtdetect.Stat wl.1;
     rtdetect.ReadFile wl := rtdetect.ReadFile wl.1;
     rtdetect.UserHomeDir wl := rtdetect.UserHomeDir wl.1 |}.

Definition tracedTempFiles (temp : kind.TempFiles W) : kind.TempFiles (W * list call) :=
  {| kind.CreateTemp wl dir pattern :=
       let '(r, w1) := kind.CreateTemp wl.1 dir pattern in (r, (w1, wl.2));
     kind.WriteString wl file data :=
       let '(r, w1) := kind.WriteString wl.1 file data in (r, (w1, wl.2));
     kind.Close wl file := (kind.Close wl.1 file, wl.2);
     kind.Remove wl file := (kind.Remove wl.1 file, wl.2) |}.

(** The command that asks the runtime for the state of a node, and the
    command that runs [command] inside a node. *)
Definition inspectCall (m : kind.Manager) (ns : kind.NodeStatus) : call :=
  (kind.runtimeBin m, ["inspect"; "--format"; "{{.State.Status}}"; kind.ns_Name ns]).

Definition execCall (m : kind.Manager) (command : list string) (node : string) : call :=
  (kind.runtimeBin m, "exec" :: node :: command).

(** The role of a node as its name tells it. *)
Definition roleOfName (nodeName : string) : string :=
  if Contains nodeName "control-plane" then "control-plane" else "worker".

End tracing.

(** * Test doubles

    Concrete instances of the interfaces above, used to run the functions on
    explicit inputs. The runners are the [mockRunner]s of the repository's
    tests; the other instances are small stand-ins for the Go libraries. *)

Module Mock.
Import Go.

(** ** Library stand-ins *)

Definition ascii_is_space (c : ascii) : bool :=
  Nat.eqb (nat_of_ascii c) 9 || Nat.eqb (nat_of_ascii c) 10 ||
  Nat.eqb (nat_of_ascii c) 11 || Nat.eqb (nat_of_ascii c) 12 ||
  Nat.eqb (nat_of_ascii c) 13 || Nat.eqb (nat_of_ascii c) 32.

Fixpoint trim_left (s : string) : string :=
  match s with
  | String c s' => if ascii_is_space c then trim_left s' else s
  | EmptyString => EmptyString
  end.

Definition ascii_to_lower (c : ascii) : ascii :=
  let n := nat_of_ascii c in
  if Nat.leb 65 n && Nat.leb n 90 then ascii_of_nat (n + 32) else c.

Fixpoint map_bytes (f : ascii → ascii) (s : string) : string :=
  match s with
  | String c s' => String (f c) (map_bytes f s')
  | EmptyString => EmptyString
  end.

(** The Go functions restricted to what they do on ASCII text free of
    characters that [%q] escapes, and on path elements that are already
    clean. *)
Definition asciiLib : Lib :=
  {| TrimSpace s := String.rev (trim_left (String.rev (trim_left s)));
     ToLower s := map_bytes ascii_to_lower s;
     Quote s := dquote +:+ s +:+ dquote;
     filepath_Join elems := String.concat "/" (List.filter nonempty elems) |}.

(** A JSON decoder that knows the documents of a table and rejects every
    other text. *)
Definition decode_table {A} (table : list (string * A)) (data : string) : result A :=
  match List.find (λ entry, String.eqb (fst entry) data) table with
  | Some entry => Ok (snd entry)
  | None => Err "invalid character"
  end.

Definition tableJSON (dockerInfos : list (string * rtdetect.dockerInfo))
    (podmanInfos : list (string * rtdetect.podmanInfo)) : rtdetect.JSON :=
  {| rtdetect.json_Unmarshal_dockerInfo := decode_table dockerInfos;
     rtdetect.json_Unmarshal_podmanInfo := decode_table podmanInfos |}.

Definition tableConfigJSON (configs : list (string * registry.dockerConfig))
  : registry.JSON :=
  {| registry.json_Unmarshal_dockerConfig := decode_table configs |}.

(** ** The [mockRunner] of the tests of package [kind] *)

Record runCall := {
  rc_name : string;
  rc_args : list string;
  rc_out : string;
  rc_err : option error;
}.

Fixpoint matchArgs (want got : list string) : bool :=
  match want, got with
  | [], _ => true
  | _ :: _, [] => false
  | w :: want', g :: got' => String.eqb w g && matchArgs want' got'
  end.

Definition kindMockRunner : rtdetect.CommandRunner (list runCall) :=
  {| rtdetect.Run runs name args :=
       match List.find (λ r, String.eqb (rc_name r) name && matchArgs (rc_args r) args) runs with
       | Some r => ((rc_out r, rc_err r), runs)
       | None => (("", Some ("no mock for " +:+ name +:+ " [" +:+ Join args " " +:+ "]")), runs)
       end;
     rtdetect.LookPath runs name := Ok ("/usr/bin/" +:+ name) |}.

(** ** The [mockRunner] of the tests of package [runtime], on a fake host *)

Record World := {
  lookPathResults : gmap string error;
  runResults : gmap string (string * option error);
  env : gmap string string;
  files : gmap string string;
  home : result string;
}.

Definition runtimeMockRunner : rtdetect.CommandRunner World :=
  {| rtdetect.Run w name args :=
       let key := match args with [] => name | a :: _ => name +:+ " " +:+ a end in
       match runResults w !! key with
       | Some r => (r, w)
       | None => (("", Some ("no mock for " +:+ dquote +:+ key +:+ dquote)), w)
       end;
     rtdetect.LookPath w name :=
       match lookPathResults w !! name with
       | Some e => Err e
       | None => Ok ("/usr/bin/" +:+ name)
       end |}.

Definition fakeHost (goos goarch : string) : rtdetect.Host World :=
  {| rtdetect.GOOS := goos;
     rtdetect.GOARCH := goarch;
     rtdetect.Getenv w key := default "" (env w !! key);
     rtdetect.Stat w p := bool_decide (is_Some (files w !! p));
     rtdetect.ReadFile w p :=
       match files w !! p with
       | Some data => Ok data
       | None => Err ("open " +:+ p +:+ ": no such file or directory")
       end;
     rtdetect.UserHomeDir w := home w |}.

(** ** A reference codec for [ClusterConfig]

    Not YAML: the document is numbered through its [Countable] instance and
    the number is written in binary. It is total and decodes what it encodes,
    which is all the properties below ask of [yaml.v3]. *)

Fixpoint bits_of_pos (p : positive) : string :=
  match p with
  | xH => EmptyString
  | xO p' => String "0"%char (bits_of_pos p')
  | xI p' => String "1"%char (bits_of_pos p')
  end.

Fixpoint pos_of_bits (s : string) : option positive :=
  match s with
  | EmptyString => Some xH
  | String c s' =>
      match pos_of_bits s' with
      | None => None
      | Some p =>
          if Ascii.eqb c "0"%char then Some (xO p)
          else if Ascii.eqb c "1"%char then Some (xI p)
          else None
      end
  end.

#[export] Instance PortMapping_eq_dec : EqDecision kind.PortMapping.
Proof. solve_decision. Defined.
#[export] Instance Mount_eq_dec : EqDecision kind.Mount.
Proof. solve_decision. Defined.
#[export] Instance NetworkConfig_eq_dec : EqDecision kind.NetworkConfig.
Proof. solve_decision. Defined.
#[export] Instance NodeConfig_eq_dec : EqDecision kind.NodeConfig.
Proof. solve_decision. Defined.
#[export] Instance ClusterConfig_eq_dec : EqDecision kind.ClusterConfig.
Proof. solve_decision. Defined.

#[export] Instance PortMapping_countable : Countable kind.PortMapping.
Proof.
  apply (inj_countable'
    (λ x, (kind.pm_HostPort x, kind.pm_ContainerPort x,
           kind.pm_ListenAddress x, kind.pm_Protocol x))
    (λ '(a, b, c, d), kind.Build_PortMapping a b c d)).
  by intros [].
Defined.

#[export] Instance Mount_countable : Countable kind.Mount.
Proof.
  apply (inj_countable'
    (λ x, (kind.mnt_HostPath x, kind.mnt_ContainerPath x,
           kind.mnt_ReadOnly x, kind.mnt_Propagation x))
    (λ '(a, b, c, d), kind.Build_Mount a b c d)).
  by intros [].
Defined.

#[export] Instance NetworkConfig_countable : Countable kind.NetworkConfig.
Proof.
  apply (inj_countable'
    (λ x, (kind.net_IPFamily x, kind.net_APIServerAddress x, kind.net_APIServerPort x,
           kind.net_PodSubnet x, kind.net_ServiceSubnet x,
           kind.net_DisableDefaultCNI x, kind.net_KubeProxyMode x))
    (λ '(a, b, c, d, e, f, g), kind.Build_NetworkConfig a b c d e f g)).
  by intros [].
Defined.

#[export] Instance NodeConfig_countable : Countable kind.NodeConfig.
Proof.
  apply (inj_countable'
    (λ x, (kind.node_Role x, kind.node_Image x, kind.node_ExtraPortMappings x,
           kind.node_ExtraMounts x, kind.node_Labels x,
           kind.node_KubeadmConfigPatches x))
    (λ '(a, b, c, d, e, f), kind.Build_NodeConfig a b c d e f)).
  by intros [].
Defined.

#[export] Instance ClusterConfig_countable : Countable kind.ClusterConfig.
Proof.
  apply (inj_countable'
    (λ x, (kind.cfg_Kind x, kind.cfg_APIVersion x, kind.cfg_Name x, kind.cfg_Nodes x,
           kind.cfg_Networking x, kind.cfg_FeatureGates x,
           kind.cfg_ContainerdConfigPatches x))
    (λ '(a, b, c, d, e, f, g), kind.Build_ClusterConfig a b c d e f g)).
  by intros [].
Defined.

Definition referenceCodec : kind.YAML :=
  {| kind.yaml_Marshal cfg := Ok (bits_of_pos (encode cfg));
     kind.yaml_Unmarshal text :=
       match pos_of_bits text ≫= decode with
       | Some cfg => Ok cfg
       | None => Err "cannot unmarshal"
       end |}.

(** ** Inputs *)

(** The scenario of the specification: cluster "demo", 3 control-planes,
    2 workers, Kubernetes 1.31.0, with the default port mappings. *)
Definition demoOptions : kind.ConfigOptions :=
  {| kind.ClusterName := "demo";
     kind.NumWorkers := 2;
     kind.NumControlPlanes := 3;
     kind.KubernetesVersion := "1.31.0";
     kind.PortMappings :=
       [ {| kind.pm_HostPort := 80; kind.pm_ContainerPort := 80;
            kind.pm_ListenAddress := "127.0.0.1"; kind.pm_Protocol := "TCP" |};
         {| kind.pm_HostPort := 443; kind.pm_ContainerPort := 443;
            kind.pm_ListenAddress := "127.0.0.1"; kind.pm_Protocol := "TCP" |} ];
     kind.ExtraMounts := [];
     kind.ContainerdPatches := [];
     kind.PodSubnet := "";
     kind.ServiceSubnet := "";
     kind.DisableDefaultCNI := false;
     kind.Labels := ∅;
     kind.IPFamily := "";
     kind.KubeProxyMode := "";
     kind.APIServerPort := 0 |}.


Definition dockerManager : kind.Manager :=
  {| kind.runtime :=
       {| rtdetect.ri_Runtime := rtdetect.RuntimeDocker; rtdetect.ri_Backend := "";
          rtdetect.ri_Version := ""; rtdetect.ri_SocketPath := "";
          rtdetect.ri_OS := {| rtdetect.OS := ""; rtdetect.Arch := "";
                               rtdetect.Platform := ""; rtdetect.PlatformNote := "" |};
          rtdetect.ri_Available := false; rtdetect.ri_Error := "" |} |}.

(** A cluster of two nodes on which creating a directory fails on the worker
    and every other command succeeds. *)
Definition twoNodeCluster : list runCall :=
  [ {| rc_name := "kind"; rc_args := ["get"; "nodes"];
       rc_out := "test-control-plane" +:+ nl +:+ "test-worker" +:+ nl;
       rc_err := None |};
    {| rc_name := "docker"; rc_args := ["exec"; "test-worker"; "mkdir"];
       rc_out := "mkdir: permission denied"; rc_err := Some "exit status 1" |};
    {| rc_name := "docker"; rc_args := ["exec"]; rc_out := ""; rc_err := None |} ].

Definition dockerHubOverride : list registry.RegistryOverride :=
  [ {| registry.Original := "docker.io"; registry.Mirror := "http://proxy:5000" |} ].

Definition emptyWorld : World :=
  {| lookPathResults := ∅; runResults := ∅; env := ∅; files := ∅;
     home := Ok "/home/user" |}.

(** A host with a Docker configuration file that is not JSON and a Podman
    authentication file that is. *)
Definition podmanAuthText : string := "{}".
Definition brokenDockerConfigWorld : World :=
  {| lookPathResults := ∅; runResults := ∅; env := ∅;
     files := {[ "/home/user/.docker/config.json" := "not json";
                 "/home/user/.config/containers/auth.json" := podmanAuthText ]};
     home := Ok "/home/user" |}.

Definition emptyDockerConfig : registry.dockerConfig :=
  {| registry.Auths := ∅; registry.CredsStore := ""; registry.cfg_CredHelpers := ∅ |}.

Definition unknownRuntime : rtdetect.RuntimeInfo :=
  {| rtdetect.ri_Runtime := rtdetect.RuntimeUnknown;
     rtdetect.ri_Backend := rtdetect.BackendUnknown;
     rtdetect.ri_Version := ""; rtdetect.ri_SocketPath := "";
     rtdetect.ri_OS := {| rtdetect.OS := "linux"; rtdetect.Arch := "amd64";
                          rtdetect.Platform := "Linux"; rtdetect.PlatformNote := "" |};
     rtdetect.ri_Available := false; rtdetect.ri_Error := "" |}.

(** The world of [TestDetect_NoRuntime]: neither executable is found. *)
Definition noRuntimeWorld : World :=
  {| lookPathResults := {[ "docker" := "not found"; "podman" := "not found" ]};
     runResults := ∅; env := ∅; files := ∅; home := Ok "/home/user" |}.

(** The world of [TestDetect_DockerFailsFallsToPodman]: both executables are
    found, [docker info] fails and [podman info] answers. *)
Definition podmanInfoText : string := "{podman 4.9.0}".
Definition podman490 : rtdetect.podmanInfo :=
  {| rtdetect.Host_RemoteSocket_Path := ""; rtdetect.Host_RemoteSocket_Exists := false;
     rtdetect.Host_OS := ""; rtdetect.Host_Arch := "";
     rtdetect.Host_Version_Version := "4.9.0" |}.
Definition dockerDownWorld : World :=
  {| lookPathResults := ∅;
     runResults := {[ "docker info" := ("", Some "cannot connect");
                      "podman info" := (podmanInfoText, None) ]};
     env := ∅; files := ∅; home := Ok "/home/user" |}.

(** The hosts and decoders of the runs below. *)
Definition linuxHost : rtdetect.Host World := fakeHost "linux" "amd64".
Definition freebsdHost : rtdetect.Host World := fakeHost "freebsd" "amd64".
Definition podmanJSON : rtdetect.JSON := tableJSON [] [(podmanInfoText, podman490)].
Definition brokenHost : rtdetect.Host World := fakeHost "linux" "amd64".
Definition brokenJSON : registry.JSON :=
  tableConfigJSON [(podmanAuthText, emptyDockerConfig)].
Definition dockerCandidate : registry.candidatePath :=
  {| registry.path := "~/.docker/config.json"; registry.source := "docker" |}.
Definition podmanCandidate : registry.candidatePath :=
  {| registry.path := "~/.config/containers/auth.json"; registry.source := "podman" |}.

(** ** A YAML codec that knows the documents of a table *)

Definition tableYAML (documents : list (string * kind.ClusterConfig)) : kind.YAML :=
  {| kind.yaml_Marshal cfg :=
       match List.find (λ entry, bool_decide (snd entry = cfg)) documents with
       | Some entry => Ok (fst entry)
       | None => Err "unknown document"
       end;
     kind.yaml_Unmarshal := decode_table documents |}.

Definition node (role image : string) : kind.NodeConfig :=
  {| kind.node_Role := role; kind.node_Image := image;
     kind.node_ExtraPortMappings := []; kind.node_ExtraMounts := [];
     kind.node_Labels := ∅; kind.node_KubeadmConfigPatches := [] |}.

Definition cluster (nodes : list kind.NodeConfig) : kind.ClusterConfig :=
  {| kind.cfg_Kind := "Cluster"; kind.cfg_APIVersion := "kind.x-k8s.io/v1alpha4";
     kind.cfg_Name := "demo"; kind.cfg_Nodes := nodes; kind.cfg_Networking := None;
     kind.cfg_FeatureGates := ∅; kind.cfg_ContainerdConfigPatches := [] |}.

(** Three documents: a control-plane and a worker without images; the same
    roles with images; and the worker listed first. *)
Definition plainText : string := "nodes: [control-plane, worker]".
Definition imagesText : string := "nodes: [control-plane v1.31.0, worker v1.31.0]".
Definition workerFirstText : string := "nodes: [worker, control-plane]".
Definition plainCluster : kind.ClusterConfig :=
  cluster [node "control-plane" ""; node "worker" ""].
Definition imagesCluster : kind.ClusterConfig :=
  cluster [node "control-plane" "kindest/node:v1.31.0"; node "worker" "kindest/node:v1.31.0"].
Definition workerFirstCluster : kind.ClusterConfig :=
  cluster [node "worker" ""; node "control-plane" ""].
Definition documentsYAML : kind.YAML :=
  tableYAML [(plainText, plainCluster); (imagesText, imagesCluster);
             (workerFirstText, workerFirstCluster)].

(** ** A disk for the temporary file of [CreateCluster]

    The world is a list of mocked commands and the files on disk by name.
    [CreateTemp] always creates the same file. *)

Definition diskRunner : rtdetect.CommandRunner (list runCall * gmap string string) :=
  {| rtdetect.Run wd name args :=
       let '(r, runs) := rtdetect.Run (CommandRunner := kindMockRunner) wd.1 name args in
       (r, (runs, wd.2));
     rtdetect.LookPath wd name :=
       rtdetect.LookPath (CommandRunner := kindMockRunner) wd.1 name |}.

Definition tempFileName : string := "/tmp/kind-config-1.yaml".

Definition diskTempFiles : kind.TempFiles (list runCall * gmap string string) :=
  {| kind.CreateTemp wd dir pattern := (Ok tempFileName, (wd.1, <[tempFileName := ""]> wd.2));
     kind.WriteString wd file data := (None, (wd.1, <[file := data]> wd.2));
     kind.Close wd file := wd;
     kind.Remove wd file := (wd.1, delete file wd.2) |}.

(** The kind CLI fails to create the cluster. *)
Definition createFails : list runCall :=
  [ {| rc_name := "kind"; rc_args := ["create"; "cluster"];
       rc_out := "ERROR: failed to create cluster"; rc_err := Some "exit status 1" |} ].

(** The kind CLI lists two clusters, with a blank line between them. *)
Definition twoClusters : list runCall :=
  [ {| rc_name := "kind"; rc_args := ["get"; "clusters"];
       rc_out := "dev" +:+ nl +:+ nl +:+ "staging" +:+ nl; rc_err := None |} ].

(** The kind CLI lists no node: its output is a newline. *)
Definition noNodes : list runCall :=
  [ {| rc_name := "kind"; rc_args := ["get"; "nodes"]; rc_out := nl; rc_err := None |} ].

Definition dockerHubMirror : registry.MirrorConfig :=
  {| registry.ContainerdPatches := [];
     registry.ExtraMounts := [];
     registry.PostCreateCommands :=
       [ {| registry.NodeSelector := "all"; registry.Description := "Create directory";
            registry.Command := ["mkdir"; "-p"; "/etc/containerd/certs.d/docker.io"] |} ] |}.

End Mock.

(** * Properties *)

(** ** Strings *)

Section string_facts.
Import Go.

Lemma eqb_true_iff (a b : string) : String.eqb a b = true ↔ a = b.
Proof. apply String.eqb_eq. Qed.

Lemma eqb_false_iff (a b : string) : String.eqb a b = false ↔ a ≠ b.
Proof. apply String.eqb_neq. Qed.

Lemma app_cons (c : ascii) (p s : string) : String c p +:+ s = String c (p +:+ s).
Proof. reflexivity. Qed.

Lemma HasPrefix_app (p s : string) : HasPrefix (p +:+ s) p = true.
Proof.
  induction p as [|c p IH]; [done|].
  rewrite app_cons. simpl. by rewrite Ascii.eqb_refl, IH.
Qed.

End string_facts.

(** ** Network advice *)

Section network_advice.
Import Go rtdetect kind.

(** C10. For every [RuntimeInfo] (every backend string, known or not, and
    every host OS) the advice returned by [DetectNetworkConfig] has
    [SupportsPortMapping = true] and [RecommendedPortRange = "30000-32767"]:
    no branch of the switch touches these two fields. *)
Theorem DetectNetworkConfig_fixed_fields (ri : RuntimeInfo) :
  adv_SupportsPortMapping (DetectNetworkConfig ri) = true ∧
  adv_RecommendedPortRange (DetectNetworkConfig ri) = "30000-32767".
Proof.
  unfold DetectNetworkConfig.
  repeat match goal with
         | |- context [if ?b then _ else _] => destruct b
         end; split; reflexivity.
Qed.

End network_advice.

(** ** Validation of configuration documents *)

Section validation.
Import Go kind.
Context {lib : Lib} {yaml : YAML}.

Lemma validateNodes_spec (nodes : list NodeConfig) (b : bool) :
  match validateNodes nodes b with
  | Ok b' => Forall validRole nodes ∧ b' = b || existsb isControlPlane nodes
  | Err _ => Exists (λ node, ¬ validRole node) nodes
  end.
Proof.
  revert b. induction nodes as [|node nodes IH]; intros b; simpl.
  { split; [constructor | by rewrite orb_false_r]. }
  unfold isControlPlane at 1.
  destruct (String.eqb (node_Role node) "control-plane") eqn:Hcp; simpl.
  - apply eqb_true_iff in Hcp. specialize (IH true).
    destruct (validateNodes nodes true).
    + destruct IH as [Hall ->]. split; [constructor; [by left | done]|].
      by rewrite orb_true_r.
    + by apply Exists_cons_tl.
  - apply eqb_false_iff in Hcp.
    destruct (String.eqb (node_Role node) "worker") eqn:Hw; simpl.
    + apply eqb_true_iff in Hw. specialize (IH b).
      destruct (validateNodes nodes b).
      * destruct IH as [Hall ->]. split; [constructor; [by right | done] | done].
      * by apply Exists_cons_tl.
    + apply eqb_false_iff in Hw. apply Exists_cons_hd. by intros [? | ?].
Qed.

Lemma existsb_isControlPlane_false (nodes : list NodeConfig) :
  existsb isControlPlane nodes = false ↔
  ∀ node, node ∈ nodes → node_Role node ≠ "control-plane".
Proof.
  induction nodes as [|node nodes IH]; simpl.
  { split; [intros _ ? ?%elem_of_nil; done | done]. }
  rewrite orb_false_iff, IH. unfold isControlPlane. rewrite eqb_false_iff.
  split.
  - intros [Hn Hrest] node' [-> | Hin]%elem_of_cons; auto.
  - intros Hno. split; [apply Hno; left | intros node' Hin; apply Hno; by right].
Qed.

Lemma has_elems_true_iff {A} (l : list A) : has_elems l = true ↔ l ≠ [].
Proof. destruct l; simpl; split; (done || congruence). Qed.

Lemma validateParsed_spec (cfg : ClusterConfig) :
  match validateParsed cfg with
  | Ok _ => ¬ SchemaViolation cfg
  | Err _ => SchemaViolation cfg
  end.
Proof.
  unfold validateParsed, SchemaViolation.
  destruct (String.eqb (cfg_Kind cfg) "Cluster") eqn:Hk; simpl.
  2: { apply eqb_false_iff in Hk. by left. }
  apply eqb_true_iff in Hk.
  destruct (String.eqb (cfg_APIVersion cfg) "kind.x-k8s.io/v1alpha4") eqn:Ha; simpl.
  2: { apply eqb_false_iff in Ha. right. by left. }
  apply eqb_true_iff in Ha.
  pose proof (validateNodes_spec (cfg_Nodes cfg) false) as Hn.
  destruct (validateNodes (cfg_Nodes cfg) false) as [b | e].
  2: { apply list.Exists_exists in Hn as (node & Hin & Hbad).
       right. right. left. eauto. }
  destruct Hn as [Hall ->]. simpl.
  destruct (has_elems (cfg_Nodes cfg)) eqn:He; simpl.
  - apply has_elems_true_iff in He.
    destruct (existsb isControlPlane (cfg_Nodes cfg)) eqn:Hcp; simpl.
    + intros [? | [? | [(node & Hin & Hbad) | [_ Hnone]]]]; try done.
      * rewrite list.Forall_forall in Hall. by apply Hbad, Hall.
      * apply existsb_isControlPlane_false in Hnone. congruence.
    + pose proof (proj1 (existsb_isControlPlane_false _) Hcp) as Hnone.
      right. right. by right.
  - apply not_true_iff_false in He. rewrite has_elems_true_iff in He.
    intros [? | [? | [(node & Hin & Hbad) | [Hne _]]]]; try done.
    rewrite list.Forall_forall in Hall. by apply Hbad, Hall.
Qed.

(** C3. [ValidateConfig] fails exactly when the text does not parse as the
    document shape, or the parsed document has a [kind] other than "Cluster"
    or an [apiVersion] other than "kind.x-k8s.io/v1alpha4", or has a node
    whose role is neither "control-plane" nor "worker", or has nodes none of
    which is a control-plane; in every other case it succeeds. *)
Theorem ValidateConfig_fails_iff (configYAML : string) :
  ((∃ e, ValidateConfig configYAML = Err e) ↔
     (∃ e, yaml_Unmarshal configYAML = Err e) ∨
     (∃ cfg, yaml_Unmarshal configYAML = Ok cfg ∧ SchemaViolation cfg)) ∧
  (ValidateConfig configYAML = Ok () ↔
     ∃ cfg, yaml_Unmarshal configYAML = Ok cfg ∧ ¬ SchemaViolation cfg).
Proof.
  unfold ValidateConfig.
  destruct (yaml_Unmarshal configYAML) as [cfg | e] eqn:Hparse.
  - pose proof (validateParsed_spec cfg) as Hv.
    destruct (validateParsed cfg) as [[] | e]; split; split.
    + by intros [? ?].
    + intros [[? ?] | (cfg' & [= <-] & ?)]; done.
    + eauto.
    + done.
    + eauto.
    + eauto.
    + done.
    + intros (cfg' & [= <-] & ?). done.
  - split; split.
    + eauto.
    + eauto.
    + done.
    + intros (cfg & ? & _). done.
Qed.

End validation.

(** ** The document built by [GenerateConfig] *)

Section generated_document.
Import Go kind.

Lemma normalizedControlPlanes_pos (opts : ConfigOptions) :
  (0 < normalizedControlPlanes opts)%Z.
Proof.
  unfold normalizedControlPlanes.
  destruct (Z.leb_spec (NumControlPlanes opts) 0); lia.
Qed.

Lemma normalizedControlPlanes_id (opts : ConfigOptions) :
  (0 < NumControlPlanes opts)%Z → normalizedControlPlanes opts = NumControlPlanes opts.
Proof.
  intros Hpos. unfold normalizedControlPlanes.
  destruct (Z.leb_spec (NumControlPlanes opts) 0); [lia | done].
Qed.

(** The roles of the nodes, in order: the control-planes, then the workers. *)
Lemma GenerateConfig_cfg_roles (opts : ConfigOptions) :
  node_Role <$> cfg_Nodes (GenerateConfig_cfg opts) =
  replicate (Z.to_nat (normalizedControlPlanes opts)) "control-plane" ++
  replicate (Z.to_nat (NumWorkers opts)) "worker".
Proof.
  simpl. rewrite fmap_app, <- !list_fmap_compose.
  rewrite (const_fmap (node_Role ∘ controlPlaneNode opts) _ "control-plane") by done.
  rewrite (const_fmap (node_Role ∘ workerNode opts) _ "worker") by done.
  by rewrite !length_seqZ.
Qed.

Lemma has_elems_keep {A} (l : list A) : (if has_elems l then l else []) = l.
Proof. by destruct l. Qed.

(** The first node is a control-plane and carries the port mappings. *)
Lemma GenerateConfig_cfg_first (opts : ConfigOptions) :
  ∃ first, cfg_Nodes (GenerateConfig_cfg opts) !! 0%nat = Some first ∧
           node_Role first = "control-plane" ∧
           node_ExtraPortMappings first = PortMappings opts.
Proof.
  exists (controlPlaneNode opts 0). simpl.
  rewrite seqZ_cons by apply normalizedControlPlanes_pos.
  split; [done|]. split; [done|]. simpl. apply has_elems_keep.
Qed.

(** No other node carries port mappings. *)
Lemma GenerateConfig_cfg_others (opts : ConfigOptions) (i : nat) (node : NodeConfig) :
  cfg_Nodes (GenerateConfig_cfg opts) !! i = Some node → i ≠ 0%nat →
  node_ExtraPortMappings node = [].
Proof.
  simpl. intros Hlook Hi.
  apply lookup_app_Some in Hlook as [Hcp | [_ Hwk]].
  - rewrite list_lookup_fmap in Hcp.
    destruct (seqZ 0 (normalizedControlPlanes opts) !! i) as [k|] eqn:Hk; [|done].
    apply lookup_seqZ in Hk as [-> _]. simpl in Hcp. injection Hcp as <-. simpl.
    destruct (Z.eqb_spec (0 + Z.of_nat i) 0); [lia | done].
  - rewrite list_lookup_fmap in Hwk.
    destruct (seqZ 0 (NumWorkers opts) !! _) as [k|]; [|done].
    simpl in Hwk. by injection Hwk as <-.
Qed.


(** *** What is assumed of the YAML library *)

Section with_codec.
Context {lib : Lib} {yaml : YAML}.

(** [yaml.Marshal] does not fail on a [ClusterConfig], and [yaml.Unmarshal]
    reads back the document that [yaml.Marshal] wrote. *)
Hypothesis yaml_Marshal_total : ∀ cfg, ∃ data, yaml_Marshal cfg = Ok data.
Hypothesis yaml_roundtrip :
  ∀ cfg data, yaml_Marshal cfg = Ok data → yaml_Unmarshal data = Ok cfg.

Lemma GenerateConfig_Ok (opts : ConfigOptions) :
  ClusterName opts ≠ "" →
  ∃ data, GenerateConfig opts = Ok data ∧
          yaml_Unmarshal data = Ok (GenerateConfig_cfg opts).
Proof using yaml_Marshal_total yaml_roundtrip.
  intros Hname%eqb_false_iff. unfold GenerateConfig. rewrite Hname.
  destruct (yaml_Marshal_total (GenerateConfig_cfg opts)) as [data Hdata].
  rewrite Hdata. eauto.
Qed.

(** C1. For options with a non-empty cluster name, a positive control-plane
    count [c] and a non-negative worker count [w], [GenerateConfig] succeeds,
    and the node list of the document it returns is [c] nodes of role
    "control-plane" followed by [w] nodes of role "worker". *)
Theorem GenerateConfig_node_roles (opts : ConfigOptions) (c w : Z) :
  ClusterName opts ≠ "" →
  NumControlPlanes opts = c → (0 < c)%Z →
  NumWorkers opts = w → (0 ≤ w)%Z →
  ∃ data cfg,
    GenerateConfig opts = Ok data ∧
    yaml_Unmarshal data = Ok cfg ∧
    node_Role <$> cfg_Nodes cfg =
      replicate (Z.to_nat c) "control-plane" ++ replicate (Z.to_nat w) "worker".
Proof using yaml_Marshal_total yaml_roundtrip.
  intros Hname Hc Hcpos Hw _.
  destruct (GenerateConfig_Ok opts Hname) as (data & Hgen & Hparse).
  exists data, (GenerateConfig_cfg opts). split; [done|]. split; [done|].
  rewrite GenerateConfig_cfg_roles, normalizedControlPlanes_id by lia.
  by rewrite Hc, Hw.
Qed.


(** C9. In the document returned by [GenerateConfig], node 0, a
    control-plane, carries the port mappings of the options, and no other
    node, control-plane or worker, has any port mapping. *)
Theorem GenerateConfig_port_mappings_first_only (opts : ConfigOptions) :
  ClusterName opts ≠ "" →
  ∃ data cfg,
    GenerateConfig opts = Ok data ∧
    yaml_Unmarshal data = Ok cfg ∧
    (∃ first, cfg_Nodes cfg !! 0%nat = Some first ∧
              node_Role first = "control-plane" ∧
              node_ExtraPortMappings first = PortMappings opts) ∧
    (∀ i node, cfg_Nodes cfg !! i = Some node → i ≠ 0%nat →
               node_ExtraPortMappings node = []).
Proof using yaml_Marshal_total yaml_roundtrip.
  intros Hname.
  destruct (GenerateConfig_Ok opts Hname) as (data & Hgen & Hparse).
  exists data, (GenerateConfig_cfg opts). split; [done|]. split; [done|].
  split; [apply GenerateConfig_cfg_first | apply GenerateConfig_cfg_others].
Qed.

End with_codec.

End generated_document.

(** ** More on strings: suffixes *)

Section suffix_facts.
Import Go.

Lemma app_assoc_string (a b c : string) : (a +:+ b) +:+ c = a +:+ (b +:+ c).
Proof.
  induction a as [|x a IH]; [done|]. by rewrite !app_cons, IH.
Qed.





Lemma HasPrefix_inv (s p : string) : HasPrefix s p = true → ∃ r, s = p +:+ r.
Proof.
  revert s. induction p as [|c p IH]; intros s Hs; [by exists s|].
  destruct s as [|b s]; [done|]. simpl in Hs.
  apply andb_true_iff in Hs as [->%Ascii.eqb_eq Hs].
  destruct (IH s Hs) as [r ->]. by exists r.
Qed.

End suffix_facts.

(** ** The hosts.toml of a registry override *)

Section hosts_toml.
Import Go registry.








End hosts_toml.

(** ** Applying a mirror configuration *)

Section apply_mirror_config.
Import Go rtdetect kind registry.
Context {W : Type} {lib : Lib} {runner : CommandRunner W}.

Lemma HasPrefix_app_l (s t p : string) :
  HasPrefix s p = true → HasPrefix (s +:+ t) p = true.
Proof.
  intros [r ->]%HasPrefix_inv. rewrite app_assoc_string. apply HasPrefix_app.
Qed.

Lemma reportLine_failureRecorded (attempted achieved : string) (ex : execution) :
  failureRecorded ex (reportLine attempted achieved ex) ∧
  resultLine (reportLine attempted achieved ex).
Proof.
  unfold failureRecorded, resultLine, reportLine. destruct (ex_err ex) as [e|].
  - assert (HasPrefix ("FAILED [" +:+ ex_node ex +:+ "] " +:+ attempted +:+ ": " +:+
                       ("exec on node " +:+ Quote (ex_node ex) +:+ " failed: " +:+ e +:+
                        nl +:+ "Output: " +:+ ex_out ex)) "FAILED [" = true) as Hfailed
      by apply (HasPrefix_app "FAILED [").
    split; [split; [done | done] | by right].
  - assert (HasPrefix ("OK [" +:+ ex_node ex +:+ "] " +:+ achieved) "OK [" = true) as Hok
      by apply (HasPrefix_app "OK [").
    destruct (String.eqb (TrimSpace (ex_out ex)) "").
    + split; [split; [done | done] | by left].
    + split; [split; [done | intros _] | left]; by apply HasPrefix_app_l.
Qed.

Lemma executed_app (m : Manager) (w w1 w2 : W) (first second : list execution) :
  executed m w first w1 → executed m w1 second w2 → executed m w (first ++ second) w2.
Proof.
  induction 1 as [|w0 w0' w0'' ex rest Hrun _ IH]; [done|].
  intros Hsecond. simpl. econstructor; [exact Hrun | by apply IH].
Qed.

(** One step of either loop: [ExecOnNode] asks the runner once, and the line
    appended is the report of that run. *)
Lemma ExecOnNode_execution (m : Manager) (w : W) (node : string) (command : list string) :
  ∃ ex,
    ex_node ex = node ∧ ex_command ex = command ∧
    executed m w [ex] (ExecOnNode m w node command).2 ∧
    (∀ cmd, commandLine node cmd (ExecOnNode m w node command).1.1
                        (ExecOnNode m w node command).1.2
            = reportLine (Description cmd) (Description cmd) ex) ∧
    restartLine node (ExecOnNode m w node command).1.1 (ExecOnNode m w node command).1.2
      = reportLine "restart containerd" "restarted containerd" ex.
Proof.
  unfold ExecOnNode.
  destruct (Run w (runtimeBin m) (["exec"; node] ++ command)) as [[out err] w1] eqn:Hrun.
  exists {| ex_node := node; ex_command := command; ex_out := out; ex_err := err |}.
  split; [done|]. split; [done|]. split.
  { destruct err; (econstructor; [exact Hrun | constructor]). }
  unfold commandLine, restartLine, reportLine, nonempty. cbn [ex_node ex_out ex_err].
  destruct err as [e|]; cbn [fst snd]; [by split|].
  destruct (String.eqb (TrimSpace out) ""); by split.
Qed.

Lemma applyCommand_executed (m : Manager) (w : W) (cmd : NodeCommand)
    (targetNodes : list string) :
  ∃ runs,
    executed m w runs (applyCommand m w cmd targetNodes).2 ∧
    Forall3 provisionReport (pair cmd <$> targetNodes) runs
            (applyCommand m w cmd targetNodes).1.
Proof.
  revert w. induction targetNodes as [|node rest IH]; intros w.
  { exists []. split; constructor. }
  cbn [applyCommand].
  destruct (ExecOnNode_execution m w node (Command cmd))
    as (ex & Hnode & Hcommand & Hrun & Hline & _).
  specialize (Hline cmd).
  destruct (ExecOnNode m w node (Command cmd)) as [[out err] w1]. cbn [fst snd] in *.
  destruct (IH w1) as (runs & Hruns & Hlines).
  destruct (applyCommand m w1 cmd rest) as [lines w2]. cbn [fst snd] in *.
  exists (ex :: runs). split; [exact (executed_app m w w1 w2 [ex] runs Hrun Hruns)|].
  cbn [fmap list_fmap]. constructor; [by repeat split | exact Hlines].
Qed.

Lemma applyCommands_executed (m : Manager) (w : W) (cmds : list NodeCommand)
    (nodes : list string) :
  Forall (λ cmd, NodeSelector cmd = "all") cmds →
  ∃ runs,
    executed m w runs (applyCommands m w cmds nodes).2 ∧
    Forall3 provisionReport (jobs cmds nodes) runs (applyCommands m w cmds nodes).1.
Proof.
  intros Hall. revert w. induction Hall as [|cmd rest Hsel _ IH]; intros w.
  { exists []. split; constructor. }
  cbn [applyCommands]. rewrite Hsel. change (filterNodes nodes "all") with nodes.
  destruct (applyCommand_executed m w cmd nodes) as (runs1 & Hruns1 & Hlines1).
  destruct (applyCommand m w cmd nodes) as [lines1 w1]. cbn [fst snd] in *.
  destruct (IH w1) as (runs2 & Hruns2 & Hlines2).
  destruct (applyCommands m w1 rest nodes) as [lines2 w2]. cbn [fst snd] in *.
  exists (runs1 ++ runs2). split; [by eapply executed_app|].
  unfold jobs. cbn [fmap list_fmap concat]. by apply Forall3_app.
Qed.

Lemma restartNodes_executed (m : Manager) (w : W) (nodes : list string) :
  ∃ runs,
    executed m w runs (restartNodes m w nodes).2 ∧
    Forall3 restartReport nodes runs (restartNodes m w nodes).1.
Proof.
  revert w. induction nodes as [|node rest IH]; intros w.
  { exists []. split; constructor. }
  cbn [restartNodes].
  destruct (ExecOnNode_execution m w node ["systemctl"; "restart"; "containerd"])
    as (ex & Hnode & Hcommand & Hrun & _ & Hline).
  destruct (ExecOnNode m w node _) as [[out err] w1]. cbn [fst snd] in *.
  destruct (IH w1) as (runs & Hruns & Hlines).
  destruct (restartNodes m w1 rest) as [lines w2]. cbn [fst snd] in *.
  exists (ex :: runs). split; [exact (executed_app m w w1 w2 [ex] runs Hrun Hruns)|].
  constructor; [by repeat split | exact Hlines].
Qed.

Lemma jobs_length (cmds : list NodeCommand) (nodes : list string) :
  length (jobs cmds nodes) = length cmds * length nodes.
Proof.
  unfold jobs. induction cmds as [|cmd rest IH]; [done|].
  cbn [fmap list_fmap concat length]. rewrite length_app, length_fmap, IH. simpl. lia.
Qed.

Lemma reports_failureRecorded {A} (report : A → execution → string → Prop)
    (items : list A) (runs : list execution) (lines : list string) :
  (∀ item ex line, report item ex line →
                   failureRecorded ex line ∧ resultLine line) →
  Forall3 report items runs lines →
  Forall2 failureRecorded runs lines ∧ Forall resultLine lines.
Proof.
  intros Hreport. induction 1 as [|item ex line items runs lines Hr _ [IH1 IH2]].
  { split; constructor. }
  destruct (Hreport _ _ _ Hr). split; by constructor.
Qed.

(** The commands generated for a list of overrides: two per override, all
    addressed to every node. *)
Lemma overrideCommands_all (overrides : list RegistryOverride) :
  length (concat (overrideCommands <$> overrides)) = 2 * length overrides ∧
  Forall (λ cmd, NodeSelector cmd = "all") (concat (overrideCommands <$> overrides)).
Proof.
  induction overrides as [|o rest [IHlen IHall]]; [by split|].
  change (concat (overrideCommands <$> o :: rest))
    with (overrideCommands o ++ concat (overrideCommands <$> rest)).
  rewrite length_app, Forall_app, IHlen. split; [simpl; lia|].
  split; [by repeat constructor | done].
Qed.

Lemma GenerateMirrorConfig_Ok overrides credInfo :
  overrides ≠ [] →
  ∃ mirrorCfg, GenerateMirrorConfig overrides credInfo = Ok mirrorCfg ∧
               PostCreateCommands mirrorCfg = concat (overrideCommands <$> overrides).
Proof.
  intros Hne. unfold GenerateMirrorConfig.
  destruct overrides as [|o rest]; [done|]. simpl. eauto.
Qed.

(** The only failure of [ApplyMirrorConfig]: the nodes cannot be listed. *)
Lemma ApplyMirrorConfig_lookup_failure (m : Manager) (w w1 : W) (clusterName : string)
    (mirrorCfg : MirrorConfig) (e : error) :
  GetClusterNodes m w clusterName = (Err e, w1) →
  ApplyMirrorConfig m w clusterName mirrorCfg = (Err ("getting cluster nodes: " +:+ e), w1).
Proof. intros Hnodes. unfold ApplyMirrorConfig. by rewrite Hnodes. Qed.

Lemma GenerateMirrorConfig_empty (credInfo : option CredentialInfo) :
  GenerateMirrorConfig [] credInfo = Err "at least one registry override is required".
Proof. reflexivity. Qed.

(** C4, as the code has it. For a non-empty list of overrides and a cluster
    whose nodes could be listed, [ApplyMirrorConfig] on the generated
    configuration returns the provisioning lines followed by the restart
    lines. Every one of the 2 × (number of overrides) commands is run inside
    every node, command by command and node by node, and contributes one
    line per node, so there are 2 × (number of overrides) × (number of nodes)
    provisioning lines; then containerd is restarted inside every node, in
    node order, which gives exactly (number of nodes) restart lines. All
    these runs are made, one after the other, whatever each of them returns:
    the line of a run that failed says FAILED, with the node, what was
    attempted and the error, the line of a run that succeeded says OK, and
    the run goes on. *)
Theorem ApplyMirrorConfig_result_lines (m : Manager) (w w1 : W) (clusterName : string)
    (overrides : list RegistryOverride) (credInfo : option CredentialInfo)
    (nodes : list string) :
  overrides ≠ [] →
  GetClusterNodes m w clusterName = (Ok nodes, w1) →
  ∃ mirrorCfg provisioned restarted runs restarts w',
    GenerateMirrorConfig overrides credInfo = Ok mirrorCfg ∧
    ApplyMirrorConfig m w clusterName mirrorCfg = (Ok (provisioned ++ restarted), w') ∧
    length (PostCreateCommands mirrorCfg) = 2 * length overrides ∧
    executed m w1 (runs ++ restarts) w' ∧
    Forall3 provisionReport (jobs (PostCreateCommands mirrorCfg) nodes) runs provisioned ∧
    length provisioned = 2 * length overrides * length nodes ∧
    Forall3 restartReport nodes restarts restarted ∧
    length restarted = length nodes ∧
    Forall2 failureRecorded (runs ++ restarts) (provisioned ++ restarted) ∧
    Forall resultLine (provisioned ++ restarted).
Proof.
  intros Hne Hnodes.
  destruct (GenerateMirrorConfig_Ok overrides credInfo Hne) as (mirrorCfg & Hgen & Hcmds).
  destruct (overrideCommands_all overrides) as [Hlen Hall]. rewrite <- Hcmds in Hlen, Hall.
  set (cmds := PostCreateCommands mirrorCfg) in *.
  destruct (applyCommands_executed m w1 cmds nodes Hall) as (runs & Hruns & Hprov).
  set (provisioned := (applyCommands m w1 cmds nodes).1) in *.
  set (w2 := (applyCommands m w1 cmds nodes).2) in *.
  destruct (restartNodes_executed m w2 nodes) as (restarts & Hrestarts & Hrest).
  set (restarted := (restartNodes m w2 nodes).1) in *.
  assert (ApplyMirrorConfig m w clusterName mirrorCfg =
          (Ok (provisioned ++ restarted), (restartNodes m w2 nodes).2)) as Happly.
  { unfold ApplyMirrorConfig. rewrite Hnodes.
    subst provisioned restarted w2. fold cmds.
    destruct (applyCommands m w1 cmds nodes) as [p w2']. simpl.
    by destruct (restartNodes m w2' nodes). }
  destruct (reports_failureRecorded provisionReport _ _ _
              (λ job ex line '(conj _ (conj _ Hline)),
                 eq_ind_r (λ l, failureRecorded ex l ∧ resultLine l)
                          (reportLine_failureRecorded _ _ ex) Hline) Hprov)
    as [Hfail1 Hres1].
  destruct (reports_failureRecorded restartReport _ _ _
              (λ node ex line '(conj _ (conj _ Hline)),
                 eq_ind_r (λ l, failureRecorded ex l ∧ resultLine l)
                          (reportLine_failureRecorded _ _ ex) Hline) Hrest)
    as [Hfail2 Hres2].
  exists mirrorCfg, provisioned, restarted, runs, restarts, (restartNodes m w2 nodes).2.
  split; [done|]. split; [done|]. split; [done|].
  split; [by eapply executed_app|]. split; [done|].
  split.
  { rewrite <- (Forall3_length_lr _ _ _ _ Hprov), jobs_length, Hlen. done. }
  split; [done|]. split; [symmetry; by eapply Forall3_length_lr|].
  split; [by apply Forall2_app | by apply Forall_app].
Qed.

End apply_mirror_config.

(** ** The search for a credential file *)

Section find_credentials.
Import Go rtdetect registry.
Context {W : Type} {lib : Lib} {host : Host W} {json : JSON}.

Lemma searchCandidates_passedOver (w : W) (before rest : list candidatePath) :
  Forall (passedOver w) before →
  searchCandidates w (before ++ rest) = searchCandidates w rest.
Proof.
  induction 1 as [|c before Hc _ IH]; [done|]. simpl.
  destruct Hc as [Hmiss | [[Hstat [e Hread]] | [Hstat (data & e & Hread & Hparse)]]].
  - unfold missing in Hmiss. by rewrite Hmiss.
  - by rewrite Hstat, Hread.
  - by rewrite Hstat, Hread, Hparse.
Qed.

Lemma searchCandidates_parsesAs (w : W) (c : candidatePath) (rest : list candidatePath)
    (cfg : dockerConfig) :
  parsesAs w c cfg →
  searchCandidates w (c :: rest) = Some (credentialInfo (expandPath w (path c)) c cfg).
Proof. intros [Hstat (data & Hread & Hparse)]. simpl. by rewrite Hstat, Hread, Hparse. Qed.

(** C5, as the code has it. A candidate credential file that exists but whose
    contents fail to parse is passed over like a missing or unreadable one:
    the search goes on with the candidates after it. It returns the first of
    them that exists, can be read and parses, and it fails only when every
    candidate was passed over. *)
Theorem FindCredentials_passes_over_unparsable (w : W) (ri : RuntimeInfo)
    (before after : list candidatePath) (bad : candidatePath) :
  candidatePaths w ri = before ++ bad :: after →
  Forall (passedOver w) before →
  unparsable w bad →
  (∀ between next rest cfg,
     after = between ++ next :: rest →
     Forall (passedOver w) between →
     parsesAs w next cfg →
     FindCredentials w ri = Ok (credentialInfo (expandPath w (path next)) next cfg)) ∧
  (Forall (passedOver w) after → ∃ e, FindCredentials w ri = Err e).
Proof.
  intros Hpaths Hbefore Hbad.
  assert (searchCandidates w (candidatePaths w ri) = searchCandidates w after) as Hsearch.
  { rewrite Hpaths, (searchCandidates_passedOver w before) by done.
    apply (searchCandidates_passedOver w [bad] after).
    constructor; [|constructor]. right. by right. }
  unfold FindCredentials. rewrite Hsearch. split.
  - intros between next rest cfg -> Hbetween Hnext.
    rewrite (searchCandidates_passedOver w between) by done.
    by rewrite (searchCandidates_parsesAs w next rest cfg).
  - intros Hafter.
    rewrite <- (app_nil_r after), (searchCandidates_passedOver w after []) by done.
    simpl. eauto.
Qed.

End find_credentials.

(** ** Runtime detection *)

Section runtime_detection.
Import Go rtdetect.
Context {W : Type} {lib : Lib} {runner : CommandRunner W} {host : Host W} {json : JSON}.

Lemma Detect_podman_responds (w w1 : W) (pi : podmanInfo) :
  podmanResponds w pi w1 →
  Detect_podman w DetectOS =
    ({| ri_Runtime := RuntimePodman; ri_Backend := detectPodmanBackend w1 DetectOS;
        ri_Version := Host_Version_Version pi;
        ri_SocketPath := Host_RemoteSocket_Path pi;
        ri_OS := DetectOS; ri_Available := true; ri_Error := "" |}, w1).
Proof.
  intros [[p Hlook] (out & Hrun & Hparse)].
  unfold Detect_podman, detectPodman. by rewrite Hlook, Hrun, Hparse.
Qed.

Lemma Detect_podman_fails (w w1 : W) :
  podmanFails w w1 → Detect_podman w DetectOS = (noRuntime, w1).
Proof.
  unfold Detect_podman, detectPodman.
  intros [[[e Hlook] ->] | [[p Hlook] [(out & e & Hrun) | (out & e & Hrun & Hparse)]]].
  - by rewrite Hlook.
  - by rewrite Hlook, Hrun.
  - by rewrite Hlook, Hrun, Hparse.
Qed.

Lemma Detect_docker_fails (w w1 : W) :
  dockerFails w w1 → Detect w = Detect_podman w1 DetectOS.
Proof.
  unfold Detect, detectDocker.
  intros [[[e Hlook] ->] | [[p Hlook] [(out & e & Hrun) | (out & e & Hrun & Hparse)]]].
  - by rewrite Hlook.
  - by rewrite Hlook, Hrun.
  - by rewrite Hlook, Hrun, Hparse.
Qed.

(** C7. [Detect] probes Docker first: when Docker responds its information
    is returned and Podman is not consulted. When Docker is absent, or its
    info call fails, the same probe is made for Podman. When neither responds
    [Detect] still returns a [RuntimeInfo], with [Available = false],
    [Runtime = "unknown"] and the fixed diagnostic message. *)
Theorem Detect_docker_then_podman (w : W) :
  (∀ di w1, dockerResponds w di w1 →
     Detect w =
       ({| ri_Runtime := RuntimeDocker; ri_Backend := detectDockerBackend w1 di DetectOS;
           ri_Version := ServerVersion di; ri_SocketPath := detectDockerSocket w1;
           ri_OS := DetectOS; ri_Available := true; ri_Error := "" |}, w1)) ∧
  (∀ w1 pi w2, dockerFails w w1 → podmanResponds w1 pi w2 →
     Detect w =
       ({| ri_Runtime := RuntimePodman; ri_Backend := detectPodmanBackend w2 DetectOS;
           ri_Version := Host_Version_Version pi;
           ri_SocketPath := Host_RemoteSocket_Path pi;
           ri_OS := DetectOS; ri_Available := true; ri_Error := "" |}, w2)) ∧
  (∀ w1 w2, dockerFails w w1 → podmanFails w1 w2 →
     Detect w = (noRuntime, w2) ∧
     ri_Available (Detect w).1 = false ∧
     ri_Runtime (Detect w).1 = RuntimeUnknown ∧
     ri_Error (Detect w).1 = "no container runtime detected; install Docker or Podman").
Proof.
  split; [|split].
  - intros di w1 [[p Hlook] (out & Hrun & Hparse)].
    unfold Detect, detectDocker. by rewrite Hlook, Hrun, Hparse.
  - intros w1 pi w2 Hdocker Hpodman.
    rewrite (Detect_docker_fails w w1 Hdocker). by apply Detect_podman_responds.
  - intros w1 w2 Hdocker Hpodman.
    rewrite (Detect_docker_fails w w1 Hdocker), (Detect_podman_fails w1 w2 Hpodman).
    done.
Qed.

(** C8, as the code has it. The Podman backend is "podman-machine" on the
    hosts "darwin" and "windows"; on "linux" it is "wsl" when the kernel
    signature check [isWSL] succeeds and "native" otherwise; on any other
    host it is "unknown". *)
Theorem detectPodmanBackend_by_host (w : W) (osInfo : OSInfo) :
  (OS osInfo = "darwin" ∨ OS osInfo = "windows" →
     detectPodmanBackend w osInfo = BackendPodmanMachine) ∧
  (OS osInfo = "linux" →
     detectPodmanBackend w osInfo = if isWSL w then BackendWSL else BackendNative) ∧
  (OS osInfo ≠ "darwin" → OS osInfo ≠ "windows" → OS osInfo ≠ "linux" →
     detectPodmanBackend w osInfo = BackendUnknown).
Proof.
  unfold detectPodmanBackend. split; [|split].
  - by intros [-> | ->].
  - by intros ->.
  - intros Hd%eqb_false_iff Hw%eqb_false_iff Hl%eqb_false_iff.
    by rewrite Hd, Hw, Hl.
Qed.

End runtime_detection.

(** * Concrete runs *)

(** ** The reference codec obeys the codec laws *)

Section reference_codec.
Import Go kind.

Lemma pos_of_bits_of_pos (p : positive) : Mock.pos_of_bits (Mock.bits_of_pos p) = Some p.
Proof. induction p as [p IH | p IH |]; simpl; [by rewrite IH..| done]. Qed.

Lemma referenceCodec_total (cfg : ClusterConfig) :
  ∃ data, yaml_Marshal (YAML := Mock.referenceCodec) cfg = Ok data.
Proof. simpl. eauto. Qed.

Lemma referenceCodec_roundtrip (cfg : ClusterConfig) (data : string) :
  yaml_Marshal (YAML := Mock.referenceCodec) cfg = Ok data →
  yaml_Unmarshal (YAML := Mock.referenceCodec) data = Ok cfg.
Proof.
  simpl. intros [= <-]. rewrite pos_of_bits_of_pos. simpl.
  by rewrite decode_encode.
Qed.

End reference_codec.

(** ** Configuration documents *)

Section config_runs.
Import Go kind.

(** The scenario of the specification, through [GenerateConfig_node_roles]:
    3 control-planes, then 2 workers. *)
Lemma GenerateConfig_node_roles_demo :
  ClusterName Mock.demoOptions ≠ "" ∧ (0 < 3)%Z ∧ (0 ≤ 2)%Z ∧
  ∃ data cfg,
    GenerateConfig (yaml := Mock.referenceCodec) Mock.demoOptions = Ok data ∧
    yaml_Unmarshal (YAML := Mock.referenceCodec) data = Ok cfg ∧
    node_Role <$> cfg_Nodes cfg =
      replicate (Z.to_nat 3) "control-plane" ++ replicate (Z.to_nat 2) "worker".
Proof.
  split; [discriminate|]. split; [reflexivity|]. split; [discriminate|].
  apply (GenerateConfig_node_roles (yaml := Mock.referenceCodec)
           referenceCodec_total referenceCodec_roundtrip Mock.demoOptions 3 2).
  - discriminate.
  - reflexivity.
  - reflexivity.
  - reflexivity.
  - discriminate.
Defined.


(** In the scenario of the specification the two port mappings are on node 0
    only. *)
Lemma GenerateConfig_port_mappings_demo :
  ClusterName Mock.demoOptions ≠ "" ∧
  ∃ data cfg,
    GenerateConfig (yaml := Mock.referenceCodec) Mock.demoOptions = Ok data ∧
    yaml_Unmarshal (YAML := Mock.referenceCodec) data = Ok cfg ∧
    (∃ first, cfg_Nodes cfg !! 0%nat = Some first ∧
              node_Role first = "control-plane" ∧
              node_ExtraPortMappings first = PortMappings Mock.demoOptions) ∧
    (∀ i node, cfg_Nodes cfg !! i = Some node → i ≠ 0%nat →
               node_ExtraPortMappings node = []).
Proof.
  split; [discriminate|].
  apply (GenerateConfig_port_mappings_first_only (yaml := Mock.referenceCodec)
           referenceCodec_total referenceCodec_roundtrip Mock.demoOptions).
  discriminate.
Defined.

(** The documents of [TestValidateConfig_WrongKind] and
    [TestValidateConfig_InvalidRole], once parsed, are rejected; the document
    of the scenario is accepted. *)
Example validateParsed_examples :
  is_Ok (validateParsed (lib := Mock.asciiLib)
           {| cfg_Kind := "Pod"; cfg_APIVersion := "v1"; cfg_Name := ""; cfg_Nodes := [];
              cfg_Networking := None; cfg_FeatureGates := ∅;
              cfg_ContainerdConfigPatches := [] |}) = false ∧
  is_Ok (validateParsed (lib := Mock.asciiLib)
           {| cfg_Kind := "Cluster"; cfg_APIVersion := "kind.x-k8s.io/v1alpha4";
              cfg_Name := "";
              cfg_Nodes := [ {| node_Role := "bogus"; node_Image := "";
                                node_ExtraPortMappings := []; node_ExtraMounts := [];
                                node_Labels := ∅; node_KubeadmConfigPatches := [] |} ];
              cfg_Networking := None; cfg_FeatureGates := ∅;
              cfg_ContainerdConfigPatches := [] |}) = false ∧
  validateParsed (lib := Mock.asciiLib) (GenerateConfig_cfg Mock.demoOptions) = Ok ().
Proof. repeat split; vm_compute; reflexivity. Qed.

Example kindNodeImage_examples :
  kindNodeImage "1.31.0" = "kindest/node:v1.31.0" ∧
  kindNodeImage "v1.30.0" = "kindest/node:v1.30.0".
Proof. split; reflexivity. Qed.

End config_runs.

(** ** Registry mirrors *)

Section mirror_runs.
Import Go kind registry.



(** Two nodes and one override: [ApplyMirrorConfig] returns six lines, four
    of provisioning and two of restarts, so the lines cannot be split into
    2 × 1 provisioning lines followed by 2 restart lines. The failure of one
    command on the worker is recorded and the run goes on. *)
Lemma ApplyMirrorConfig_two_nodes_six_lines :
  ∃ mirrorCfg results w',
    Mock.dockerHubOverride ≠ [] ∧
    GenerateMirrorConfig Mock.dockerHubOverride None = Ok mirrorCfg ∧
    GetClusterNodes (lib := Mock.asciiLib) (runner := Mock.kindMockRunner)
      Mock.dockerManager Mock.twoNodeCluster "test"
      = (Ok ["test-control-plane"; "test-worker"], Mock.twoNodeCluster) ∧
    ApplyMirrorConfig (lib := Mock.asciiLib) (runner := Mock.kindMockRunner)
      Mock.dockerManager Mock.twoNodeCluster "test" mirrorCfg = (Ok results, w') ∧
    length results = 6 ∧
    ¬ ∃ provisioned restarted,
        results = provisioned ++ restarted ∧
        length provisioned = 2 * length Mock.dockerHubOverride ∧
        length restarted = length ["test-control-plane"; "test-worker"].
Proof.
  eexists _, _, _.
  split; [discriminate|]. split; [reflexivity|]. split; [vm_compute; reflexivity|].
  split; [vm_compute; reflexivity|]. split; [reflexivity|].
  intros (provisioned & restarted & Heq & Hp & Hr).
  apply (f_equal length) in Heq. rewrite length_app, Hp, Hr in Heq.
  discriminate Heq.
Qed.

(** The same run through [ApplyMirrorConfig_result_lines]: four provisioning
    lines and two restart lines, one of them the FAILED line of the command
    that failed on the worker. *)
Lemma ApplyMirrorConfig_result_lines_two_nodes :
  Mock.dockerHubOverride ≠ [] ∧
  GetClusterNodes (lib := Mock.asciiLib) (runner := Mock.kindMockRunner)
    Mock.dockerManager Mock.twoNodeCluster "test"
    = (Ok ["test-control-plane"; "test-worker"], Mock.twoNodeCluster) ∧
  ∃ mirrorCfg provisioned restarted w',
    GenerateMirrorConfig Mock.dockerHubOverride None = Ok mirrorCfg ∧
    ApplyMirrorConfig (lib := Mock.asciiLib) (runner := Mock.kindMockRunner)
      Mock.dockerManager Mock.twoNodeCluster "test" mirrorCfg
      = (Ok (provisioned ++ restarted), w') ∧
    length provisioned = 4 ∧ length restarted = 2 ∧
    existsb (λ line, HasPrefix line "FAILED [test-worker] Create registry config directory")
            (provisioned ++ restarted) = true.
Proof.
  assert (GetClusterNodes (lib := Mock.asciiLib) (runner := Mock.kindMockRunner)
            Mock.dockerManager Mock.twoNodeCluster "test"
          = (Ok ["test-control-plane"; "test-worker"], Mock.twoNodeCluster)) as Hnodes
    by (vm_compute; reflexivity).
  assert (∀ mirrorCfg lines w',
            GenerateMirrorConfig Mock.dockerHubOverride None = Ok mirrorCfg →
            ApplyMirrorConfig (lib := Mock.asciiLib) (runner := Mock.kindMockRunner)
              Mock.dockerManager Mock.twoNodeCluster "test" mirrorCfg = (Ok lines, w') →
            existsb (λ line, HasPrefix line
                               "FAILED [test-worker] Create registry config directory")
                    lines = true) as Hfailed.
  { intros mirrorCfg lines w' [= <-]. vm_compute. intros [= <- _]. reflexivity. }
  split; [discriminate|]. split; [exact Hnodes|].
  destruct (ApplyMirrorConfig_result_lines (lib := Mock.asciiLib)
              (runner := Mock.kindMockRunner) Mock.dockerManager Mock.twoNodeCluster
              Mock.twoNodeCluster "test" Mock.dockerHubOverride None
              ["test-control-plane"; "test-worker"])
    as (mirrorCfg & provisioned & restarted & runs & restarts & w' & Hgen & Happly & _ & _
        & _ & Hp & _ & Hr & _).
  - discriminate.
  - exact Hnodes.
  - exists mirrorCfg, provisioned, restarted, w'.
    split; [exact Hgen|]. split; [exact Happly|]. split; [exact Hp|]. split; [exact Hr|].
    exact (Hfailed mirrorCfg _ w' Hgen Happly).
Defined.

End mirror_runs.

(** ** Credentials *)

Section credential_runs.
Import Go rtdetect registry.

(** The Docker configuration file exists and does not parse, and the search
    does not end there: it returns the Podman file, a later candidate. *)
Lemma FindCredentials_returns_later_candidate :
  candidatePaths (lib := Mock.asciiLib) (host := Mock.brokenHost)
    Mock.brokenDockerConfigWorld Mock.unknownRuntime
    = [Mock.dockerCandidate; Mock.podmanCandidate] ∧
  unparsable (lib := Mock.asciiLib) (host := Mock.brokenHost) (json := Mock.brokenJSON)
    Mock.brokenDockerConfigWorld Mock.dockerCandidate ∧
  ∃ info,
    FindCredentials (lib := Mock.asciiLib) (host := Mock.brokenHost) (json := Mock.brokenJSON)
      Mock.brokenDockerConfigWorld Mock.unknownRuntime = Ok info ∧
    FilePath info = "/home/user/.config/containers/auth.json" ∧
    Source info = "podman".
Proof.
  split; [reflexivity|]. split.
  - split; [reflexivity|]. eexists _, _. split; reflexivity.
  - eexists. split; [vm_compute; reflexivity|]. split; reflexivity.
Qed.

(** The same search through [FindCredentials_passes_over_unparsable]. *)
Lemma FindCredentials_passes_over_broken_docker_config :
  candidatePaths (lib := Mock.asciiLib) (host := Mock.brokenHost)
    Mock.brokenDockerConfigWorld Mock.unknownRuntime
    = [] ++ Mock.dockerCandidate :: [Mock.podmanCandidate] ∧
  unparsable (lib := Mock.asciiLib) (host := Mock.brokenHost) (json := Mock.brokenJSON)
    Mock.brokenDockerConfigWorld Mock.dockerCandidate ∧
  parsesAs (lib := Mock.asciiLib) (host := Mock.brokenHost) (json := Mock.brokenJSON)
    Mock.brokenDockerConfigWorld Mock.podmanCandidate Mock.emptyDockerConfig ∧
  FindCredentials (lib := Mock.asciiLib) (host := Mock.brokenHost) (json := Mock.brokenJSON)
    Mock.brokenDockerConfigWorld Mock.unknownRuntime
  = Ok (credentialInfo (lib := Mock.asciiLib)
          "/home/user/.config/containers/auth.json" Mock.podmanCandidate
          Mock.emptyDockerConfig).
Proof.
  assert (unparsable (lib := Mock.asciiLib) (host := Mock.brokenHost) (json := Mock.brokenJSON)
            Mock.brokenDockerConfigWorld Mock.dockerCandidate) as Hbad.
  { split; [reflexivity|]. eexists _, _. split; reflexivity. }
  assert (parsesAs (lib := Mock.asciiLib) (host := Mock.brokenHost) (json := Mock.brokenJSON)
            Mock.brokenDockerConfigWorld Mock.podmanCandidate Mock.emptyDockerConfig) as Hgood.
  { split; [reflexivity|]. eexists. split; reflexivity. }
  split; [reflexivity|]. split; [exact Hbad|]. split; [exact Hgood|].
  destruct (FindCredentials_passes_over_unparsable (lib := Mock.asciiLib)
              (host := Mock.brokenHost) (json := Mock.brokenJSON)
              Mock.brokenDockerConfigWorld Mock.unknownRuntime
              [] [Mock.podmanCandidate] Mock.dockerCandidate) as [Hnext _].
  - reflexivity.
  - constructor.
  - exact Hbad.
  - apply (Hnext [] Mock.podmanCandidate [] Mock.emptyDockerConfig).
    + reflexivity.
    + constructor.
    + exact Hgood.
Defined.

End credential_runs.

(** ** Runtime detection *)

Section detection_runs.
Import Go rtdetect.

(** [TestDetect_NoRuntime] and [TestDetect_DockerFailsFallsToPodman], through
    [Detect_docker_then_podman]. *)
Lemma Detect_on_test_worlds :
  (dockerFails (runner := Mock.runtimeMockRunner)
     (json := Mock.podmanJSON) Mock.noRuntimeWorld Mock.noRuntimeWorld ∧
   podmanFails (runner := Mock.runtimeMockRunner) (json := Mock.podmanJSON)
     Mock.noRuntimeWorld Mock.noRuntimeWorld ∧
   Detect (lib := Mock.asciiLib) (runner := Mock.runtimeMockRunner) (host := Mock.linuxHost)
     (json := Mock.podmanJSON) Mock.noRuntimeWorld
   = (noRuntime (host := Mock.linuxHost), Mock.noRuntimeWorld)) ∧
  (dockerFails (runner := Mock.runtimeMockRunner)
     (json := Mock.podmanJSON) Mock.dockerDownWorld Mock.dockerDownWorld ∧
   podmanResponds (runner := Mock.runtimeMockRunner) (json := Mock.podmanJSON)
     Mock.dockerDownWorld Mock.podman490 Mock.dockerDownWorld ∧
   ri_Runtime (Detect (lib := Mock.asciiLib) (runner := Mock.runtimeMockRunner)
                 (host := Mock.linuxHost) (json := Mock.podmanJSON) Mock.dockerDownWorld).1
   = RuntimePodman ∧
   ri_Version (Detect (lib := Mock.asciiLib) (runner := Mock.runtimeMockRunner)
                 (host := Mock.linuxHost) (json := Mock.podmanJSON) Mock.dockerDownWorld).1
   = "4.9.0").
Proof.
  assert (dockerFails (runner := Mock.runtimeMockRunner)
            (json := Mock.podmanJSON) Mock.noRuntimeWorld Mock.noRuntimeWorld) as Hd1.
  { left. split; [eexists; reflexivity | reflexivity]. }
  assert (podmanFails (runner := Mock.runtimeMockRunner) (json := Mock.podmanJSON)
            Mock.noRuntimeWorld Mock.noRuntimeWorld) as Hp1.
  { left. split; [eexists; reflexivity | reflexivity]. }
  assert (dockerFails (runner := Mock.runtimeMockRunner)
            (json := Mock.podmanJSON) Mock.dockerDownWorld Mock.dockerDownWorld) as Hd2.
  { right. split; [eexists; reflexivity|]. left. eexists _, _. reflexivity. }
  assert (podmanResponds (runner := Mock.runtimeMockRunner) (json := Mock.podmanJSON)
            Mock.dockerDownWorld Mock.podman490 Mock.dockerDownWorld) as Hp2.
  { split; [eexists; reflexivity|]. eexists. split; reflexivity. }
  destruct (Detect_docker_then_podman (lib := Mock.asciiLib)
              (runner := Mock.runtimeMockRunner) (host := Mock.linuxHost) (json := Mock.podmanJSON)
              Mock.noRuntimeWorld) as (_ & _ & Hnone).
  destruct (Detect_docker_then_podman (lib := Mock.asciiLib)
              (runner := Mock.runtimeMockRunner) (host := Mock.linuxHost) (json := Mock.podmanJSON)
              Mock.dockerDownWorld) as (_ & Hpodman & _).
  split.
  - split; [exact Hd1|]. split; [exact Hp1|]. exact (proj1 (Hnone _ _ Hd1 Hp1)).
  - split; [exact Hd2|]. split; [exact Hp2|].
    rewrite (Hpodman _ _ _ Hd2 Hp2). split; reflexivity.
Defined.

(** On a FreeBSD host, which is not Linux, the Podman backend is "unknown",
    not "podman-machine". *)
Lemma detectPodmanBackend_freebsd :
  OS (DetectOS (host := Mock.freebsdHost)) = "freebsd" ∧
  OS (DetectOS (host := Mock.freebsdHost)) ≠ "linux" ∧
  detectPodmanBackend (lib := Mock.asciiLib) (host := Mock.freebsdHost)
    Mock.emptyWorld (DetectOS (host := Mock.freebsdHost)) = BackendUnknown ∧
  detectPodmanBackend (lib := Mock.asciiLib) (host := Mock.freebsdHost)
    Mock.emptyWorld (DetectOS (host := Mock.freebsdHost)) ≠ BackendPodmanMachine.
Proof. repeat split; (reflexivity || discriminate). Qed.

(** [detectPodmanBackend_by_host] on a Linux host without the WSL signature,
    on macOS, and on FreeBSD. *)
Lemma detectPodmanBackend_by_host_examples :
  detectPodmanBackend (lib := Mock.asciiLib) (host := Mock.linuxHost)
    Mock.emptyWorld (DetectOS (host := Mock.linuxHost)) = BackendNative ∧
  detectPodmanBackend (lib := Mock.asciiLib) (host := Mock.linuxHost) Mock.emptyWorld
    {| OS := "darwin"; Arch := "arm64"; Platform := "macOS"; PlatformNote := "" |}
    = BackendPodmanMachine ∧
  detectPodmanBackend (lib := Mock.asciiLib) (host := Mock.freebsdHost)
    Mock.emptyWorld (DetectOS (host := Mock.freebsdHost)) = BackendUnknown.
Proof.
  split; [|split].
  - destruct (detectPodmanBackend_by_host (lib := Mock.asciiLib) (host := Mock.linuxHost)
                Mock.emptyWorld (DetectOS (host := Mock.linuxHost))) as (_ & Hlinux & _).
    rewrite Hlinux; reflexivity.
  - destruct (detectPodmanBackend_by_host (lib := Mock.asciiLib) (host := Mock.linuxHost)
                Mock.emptyWorld
                {| OS := "darwin"; Arch := "arm64"; Platform := "macOS"; PlatformNote := "" |})
      as (Hmachine & _).
    apply Hmachine. by left.
  - destruct (detectPodmanBackend_by_host (lib := Mock.asciiLib) (host := Mock.freebsdHost)
                Mock.emptyWorld (DetectOS (host := Mock.freebsdHost))) as (_ & _ & Hother).
    apply Hother; discriminate.
Defined.

(** [TestDetectNetworkConfig_NativeLinux] and
    [TestDetectNetworkConfig_PodmanMachineMacOS]. *)
Example DetectNetworkConfig_examples :
  kind.adv_ListenAddress
    (kind.DetectNetworkConfig
       {| ri_Runtime := RuntimeDocker; ri_Backend := BackendNative; ri_Version := "";
          ri_SocketPath := "";
          ri_OS := {| OS := "linux"; Arch := ""; Platform := ""; PlatformNote := "" |};
          ri_Available := true; ri_Error := "" |}) = "0.0.0.0" ∧
  kind.adv_RequiresExtraConfig
    (kind.DetectNetworkConfig
       {| ri_Runtime := RuntimePodman; ri_Backend := BackendPodmanMachine;
          ri_Version := ""; ri_SocketPath := "";
          ri_OS := {| OS := "darwin"; Arch := ""; Platform := ""; PlatformNote := "" |};
          ri_Available := true; ri_Error := "" |}) = true.
Proof. split; reflexivity. Qed.

End detection_runs.

(** * Further properties of the configuration builder *)

Section config_more.
Import Go kind.

(** X1. The image of a version is "kindest/node:v" followed by the version
    without its leading "v", if it has one: a "v" is never doubled and never
    missing, and writing the "v" oneself changes nothing. *)
Theorem kindNodeImage_normalises (version : string) :
  kindNodeImage version = "kindest/node:v" +:+ TrimPrefix version "v" ∧
  HasPrefix (kindNodeImage version) "kindest/node:v" = true ∧
  (HasPrefix version "v" = false →
   kindNodeImage ("v" +:+ version) = kindNodeImage version).
Proof.
  assert (kindNodeImage version = "kindest/node:v" +:+ TrimPrefix version "v") as Heq.
  { unfold kindNodeImage, TrimPrefix.
    destruct (HasPrefix version "v") eqn:Hv; [|reflexivity].
    apply HasPrefix_inv in Hv as [r ->]. reflexivity. }
  split; [exact Heq|]. split.
  - rewrite Heq. apply (HasPrefix_app "kindest/node:v").
  - intros Hv. unfold kindNodeImage. rewrite Hv.
    by rewrite (HasPrefix_app "v" version).
Qed.

(** [GenerateConfig] returns what [yaml.Marshal] made of
    [GenerateConfig_cfg]. *)
Lemma GenerateConfig_marshals {yaml : YAML} (opts : ConfigOptions) (data : string) :
  GenerateConfig opts = Ok data → yaml_Marshal (GenerateConfig_cfg opts) = Ok data.
Proof.
  unfold GenerateConfig. destruct (String.eqb (ClusterName opts) ""); [done|].
  by destruct (yaml_Marshal (GenerateConfig_cfg opts)); intros [= ->].
Qed.

(** X2. In the document that [GenerateConfig] serialises every node, control-plane
    or worker, has the same image (the one of the Kubernetes version, or none
    when no version is given), the mounts and the labels of the options, and
    no kubeadm patch. *)
Theorem GenerateConfig_nodes_uniform {yaml : YAML} (opts : ConfigOptions) :
  (∀ data, GenerateConfig opts = Ok data →
           yaml_Marshal (GenerateConfig_cfg opts) = Ok data) ∧
  Forall (λ node,
            node_Image node =
              (if nonempty (KubernetesVersion opts)
               then kindNodeImage (KubernetesVersion opts) else "") ∧
            node_ExtraMounts node = ExtraMounts opts ∧
            node_Labels node = Labels opts ∧
            node_KubeadmConfigPatches node = [])
         (cfg_Nodes (GenerateConfig_cfg opts)).
Proof.
  split; [apply GenerateConfig_marshals|].
  assert (∀ (m : gmap string string), (if has_entries m then m else ∅) = m) as Hlabels.
  { intros m. unfold has_entries. destruct (Nat.ltb_spec 0 (size m)) as [|Hz]; [done|].
    symmetry. apply map_size_empty_iff. lia. }
  simpl. apply Forall_app. split; apply Forall_fmap, Forall_forall; intros i _; simpl;
    by rewrite has_elems_keep, Hlabels.
Qed.

(** The document has one node per control-plane asked for, at least one, and
    one node per worker asked for, none when the count is negative; it is
    never without nodes. *)
Theorem GenerateConfig_node_count {yaml : YAML} (opts : ConfigOptions) :
  (∀ data, GenerateConfig opts = Ok data →
           yaml_Marshal (GenerateConfig_cfg opts) = Ok data) ∧
  length (cfg_Nodes (GenerateConfig_cfg opts)) =
    (Z.to_nat (Z.max 1 (NumControlPlanes opts)) + Z.to_nat (NumWorkers opts))%nat ∧
  cfg_Nodes (GenerateConfig_cfg opts) ≠ [].
Proof.
  split; [apply GenerateConfig_marshals|].
  assert (length (cfg_Nodes (GenerateConfig_cfg opts)) =
          (Z.to_nat (Z.max 1 (NumControlPlanes opts)) + Z.to_nat (NumWorkers opts))%nat)
    as Hlen.
  { simpl. rewrite length_app, !length_fmap, !length_seqZ.
    unfold normalizedControlPlanes.
    destruct (Z.leb_spec (NumControlPlanes opts) 0); f_equal; lia. }
  split; [exact Hlen|].
  intros Hnil. rewrite Hnil in Hlen. simpl in Hlen. lia.
Qed.

Lemma nonempty_true_iff (s : string) : nonempty s = true ↔ s ≠ "".
Proof. unfold nonempty. rewrite negb_true_iff. apply eqb_false_iff. Qed.

Lemma networking_condition (opts : ConfigOptions) :
  nonempty (PodSubnet opts) || nonempty (ServiceSubnet opts) ||
  DisableDefaultCNI opts || nonempty (IPFamily opts) ||
  nonempty (KubeProxyMode opts) || negb (APIServerPort opts =? 0)%Z = true ↔
  networkingRequested opts.
Proof.
  unfold networkingRequested.
  rewrite !orb_true_iff, !nonempty_true_iff, negb_true_iff, Z.eqb_neq. tauto.
Qed.

(** X3. The document carries a networking block exactly when one of the
    networking options is set, and the block then repeats the options and
    leaves the API server address empty; the kind and API version are the two
    literals that [ValidateConfig] expects, the name is the cluster name, the
    containerd patches are those of the options and there are no feature
    gates. *)
Theorem GenerateConfig_top_level {yaml : YAML} (opts : ConfigOptions) :
  (∀ data, GenerateConfig opts = Ok data →
           yaml_Marshal (GenerateConfig_cfg opts) = Ok data) ∧
  (cfg_Networking (GenerateConfig_cfg opts) ≠ None ↔ networkingRequested opts) ∧
  (∀ net, cfg_Networking (GenerateConfig_cfg opts) = Some net →
     net = {| net_IPFamily := IPFamily opts; net_APIServerAddress := "";
              net_APIServerPort := APIServerPort opts; net_PodSubnet := PodSubnet opts;
              net_ServiceSubnet := ServiceSubnet opts;
              net_DisableDefaultCNI := DisableDefaultCNI opts;
              net_KubeProxyMode := KubeProxyMode opts |}) ∧
  cfg_Kind (GenerateConfig_cfg opts) = "Cluster" ∧
  cfg_APIVersion (GenerateConfig_cfg opts) = "kind.x-k8s.io/v1alpha4" ∧
  cfg_Name (GenerateConfig_cfg opts) = ClusterName opts ∧
  cfg_ContainerdConfigPatches (GenerateConfig_cfg opts) = ContainerdPatches opts ∧
  cfg_FeatureGates (GenerateConfig_cfg opts) = ∅.
Proof.
  split; [apply GenerateConfig_marshals|].
  pose proof (networking_condition opts) as Hcond.
  simpl. rewrite has_elems_keep.
  destruct (nonempty (PodSubnet opts) || nonempty (ServiceSubnet opts) ||
            DisableDefaultCNI opts || nonempty (IPFamily opts) ||
            nonempty (KubeProxyMode opts) || negb (APIServerPort opts =? 0)%Z).
  - split; [split; [intros _; by apply Hcond | done]|].
    split; [by intros net [= <-] | done].
  - split; [split; [done | intros Hreq; apply Hcond in Hreq; done]|].
    split; [done | done].
Qed.

(** X4. [GenerateConfig] fails in two cases only: on an empty cluster name, with
    the message "cluster name is required", before anything is built; and
    when [yaml.Marshal] fails, with the error of the library wrapped. *)
Theorem GenerateConfig_errors {yaml : YAML} (opts : ConfigOptions) (e : error) :
  GenerateConfig opts = Err e ↔
  (ClusterName opts = "" ∧ e = "cluster name is required") ∨
  (ClusterName opts ≠ "" ∧
   ∃ e', yaml_Marshal (GenerateConfig_cfg opts) = Err e' ∧
         e = "marshaling config to YAML: " +:+ e').
Proof.
  unfold GenerateConfig.
  destruct (String.eqb_spec (ClusterName opts) "") as [Hname | Hname].
  - split; [intros [= <-]; by left | intros [[_ ->] | [? _]]; done].
  - destruct (yaml_Marshal (GenerateConfig_cfg opts)) as [data | e'].
    + split; [done | intros [[? _] | [_ (? & [=] & _)]]; done].
    + split.
      * intros [= <-]. right. eauto.
      * intros [[? _] | [_ (? & [= <-] & ->)]]; done.
Qed.

End config_more.

(** * Further properties of validation *)

Section validation_more.
Import Go kind.
Context {lib : Lib} {yaml : YAML}.

Lemma validateNodes_roles (nodes1 nodes2 : list NodeConfig) (b : bool) :
  node_Role <$> nodes1 = node_Role <$> nodes2 →
  validateNodes nodes1 b = validateNodes nodes2 b.
Proof.
  revert nodes2 b. induction nodes1 as [|n1 nodes1 IH]; intros [|n2 nodes2] b Hroles;
    try done.
  injection Hroles as Hrole Hrest. simpl. rewrite Hrole.
  destruct (negb _ && negb _); [done|]. by apply IH.
Qed.

(** X5. Validation is structural: it reads the kind, the API version and the
    roles of the nodes and nothing else. Two texts whose documents agree on
    these get the same verdict, error message included. *)
Theorem ValidateConfig_reads_roles_only (text1 text2 : string) (cfg1 cfg2 : ClusterConfig) :
  yaml_Unmarshal text1 = Ok cfg1 →
  yaml_Unmarshal text2 = Ok cfg2 →
  cfg_Kind cfg1 = cfg_Kind cfg2 →
  cfg_APIVersion cfg1 = cfg_APIVersion cfg2 →
  node_Role <$> cfg_Nodes cfg1 = node_Role <$> cfg_Nodes cfg2 →
  ValidateConfig text1 = ValidateConfig text2.
Proof.
  intros Hp1 Hp2 Hkind Hapi Hroles. unfold ValidateConfig, validateParsed.
  rewrite Hp1, Hp2, Hkind, Hapi, (validateNodes_roles _ _ false Hroles).
  assert (has_elems (cfg_Nodes cfg1) = has_elems (cfg_Nodes cfg2)) as ->; [|done].
  unfold has_elems. apply (f_equal length) in Hroles.
  rewrite !length_fmap in Hroles. by rewrite Hroles.
Qed.

Lemma SchemaViolation_Permutation (cfg1 cfg2 : ClusterConfig) :
  cfg_Kind cfg1 = cfg_Kind cfg2 →
  cfg_APIVersion cfg1 = cfg_APIVersion cfg2 →
  cfg_Nodes cfg1 ≡ₚ cfg_Nodes cfg2 →
  SchemaViolation cfg1 → SchemaViolation cfg2.
Proof.
  intros Hkind Hapi Hperm. unfold SchemaViolation. rewrite Hkind, Hapi.
  intros [? | [? | [(node & Hin & Hbad) | [Hne Hnone]]]]; [by left | by right; left | |].
  - right. right. left. exists node. by rewrite <- Hperm.
  - right. right. right. split.
    + intros Hnil. rewrite Hnil in Hperm. by apply Permutation_nil_r in Hperm.
    + intros node Hin. apply Hnone. by rewrite Hperm.
Qed.

(** X6. Whether a document is accepted does not depend on the order of its
    nodes. *)
Theorem ValidateConfig_any_node_order (text1 text2 : string) (cfg1 cfg2 : ClusterConfig) :
  yaml_Unmarshal text1 = Ok cfg1 →
  yaml_Unmarshal text2 = Ok cfg2 →
  cfg_Kind cfg1 = cfg_Kind cfg2 →
  cfg_APIVersion cfg1 = cfg_APIVersion cfg2 →
  cfg_Nodes cfg1 ≡ₚ cfg_Nodes cfg2 →
  is_Ok (ValidateConfig text1) = is_Ok (ValidateConfig text2).
Proof.
  intros Hp1 Hp2 Hkind Hapi Hperm. unfold ValidateConfig. rewrite Hp1, Hp2.
  pose proof (validateParsed_spec cfg1) as Hv1.
  pose proof (validateParsed_spec cfg2) as Hv2.
  destruct (validateParsed cfg1), (validateParsed cfg2); simpl; try done; exfalso.
  - apply Hv1. by apply (SchemaViolation_Permutation cfg2 cfg1).
  - apply Hv2. by apply (SchemaViolation_Permutation cfg1 cfg2).
Qed.

End validation_more.

(** * Further properties of the network advice *)

Section network_more.
Import Go rtdetect kind.

(** Case analysis over the switch of [DetectNetworkConfig]: one goal per
    branch, with the comparisons that lead to it as hypotheses. *)
Ltac network_cases :=
  unfold DetectNetworkConfig, BackendDockerDesktop, BackendColima, BackendWSL,
    BackendPodmanMachine, BackendNative, BackendRancherDesktop, BackendLima;
  repeat (case String.eqb_spec; intros); simpl.

(** X7. The advised listen address is the wildcard "0.0.0.0" exactly for the
    native backend on a Linux host; for every other runtime information,
    unknown backends included, it is the loopback "127.0.0.1". *)
Theorem DetectNetworkConfig_listen_address (ri : RuntimeInfo) :
  (adv_ListenAddress (DetectNetworkConfig ri) = "0.0.0.0" ↔
     ri_Backend ri = BackendNative ∧ OS (ri_OS ri) = "linux") ∧
  (adv_ListenAddress (DetectNetworkConfig ri) = "0.0.0.0" ∨
   adv_ListenAddress (DetectNetworkConfig ri) = "127.0.0.1").
Proof.
  network_cases;
    (split; [split; [intros Heq; (done || discriminate Heq)
                    | intros [Hb Ho]; (done || congruence)]
            | auto]).
Qed.

(** X8. Extra configuration is asked for exactly for Podman Machine on macOS or
    Windows. *)
Theorem DetectNetworkConfig_extra_config (ri : RuntimeInfo) :
  adv_RequiresExtraConfig (DetectNetworkConfig ri) = true ↔
  ri_Backend ri = BackendPodmanMachine ∧
  (OS (ri_OS ri) = "darwin" ∨ OS (ri_OS ri) = "windows").
Proof.
  network_cases;
    (split; [intros Heq; (discriminate Heq || auto)
            | intros [Hb [Ho | Ho]]; (done || congruence)]).
Qed.

(** X9. The advice comes with notes in every case but one: the native backend on
    a host that is not Linux, for which the notes are empty. *)
Theorem DetectNetworkConfig_notes (ri : RuntimeInfo) :
  adv_Notes (DetectNetworkConfig ri) = "" ↔
  ri_Backend ri = BackendNative ∧ OS (ri_OS ri) ≠ "linux".
Proof.
  network_cases;
    (split; [intros Heq; (discriminate Heq || auto)
            | intros [Hb Ho]; (done || congruence)]).
Qed.

(** [DefaultPortMappings] maps the ports 80 and 443 to themselves over TCP, on
    the given listen address, and on the loopback address when none is given:
    no mapping is left without a listen address. *)
Theorem DefaultPortMappings_listen_address (listenAddr : string) :
  DefaultPortMappings "" = DefaultPortMappings "127.0.0.1" ∧
  (listenAddr ≠ "" →
   pm_ListenAddress <$> DefaultPortMappings listenAddr = [listenAddr; listenAddr]) ∧
  Forall (λ pm, pm_ListenAddress pm ≠ "" ∧ pm_Protocol pm = "TCP" ∧
                pm_HostPort pm = pm_ContainerPort pm)
         (DefaultPortMappings listenAddr) ∧
  pm_HostPort <$> DefaultPortMappings listenAddr = [80%Z; 443%Z].
Proof.
  unfold DefaultPortMappings. split; [done|].
  destruct (String.eqb_spec listenAddr "") as [-> | Hne]; simpl.
  - split; [done|]. split; [|done]. by repeat constructor.
  - split; [done|]. split; [|done]. by repeat constructor.
Qed.

(** The summary of the advice for any runtime information starts with the
    advised listen address and the line saying that port mapping is
    supported, has the warning line next exactly when extra configuration is
    required, then the fixed NodePort range, and ends with the notes. *)
Theorem FormatNetworkAdvice_of_DetectNetworkConfig (ri : RuntimeInfo) :
  let advice := DetectNetworkConfig ri in
  FormatNetworkAdvice advice =
    ("Listen Address: " +:+ adv_ListenAddress advice +:+ nl +:+
     "Port Mapping Supported: true" +:+ nl) +:+
    (if adv_RequiresExtraConfig advice
     then "Warning: Extra configuration may be required for port forwarding." +:+ nl
     else "") +:+
    ("Recommended NodePort Range: 30000-32767" +:+ nl) +:+
    ("Notes: " +:+ adv_Notes advice).
Proof.
  intros advice. subst advice. unfold FormatNetworkAdvice.
  network_cases; rewrite ?app_assoc_string; reflexivity.
Qed.

End network_more.

(** * Properties of the cluster lifecycle manager *)

Section manager_commands.
Import Go rtdetect kind.
Context {W : Type} {lib : Lib} {yaml : YAML} {runner : CommandRunner W}
  {temp : TempFiles W}.

(** X10. Each of these operations runs one command and no more: the kind CLI with
    the arguments that select the runtime of the manager in front (for
    [ExecOnNode], the runtime CLI), whether the command succeeds or not.
    [DeleteCluster] and [GetKubeconfig] run nothing at all when the name is
    empty. Recording the commands changes neither result nor world. *)
Theorem Manager_runs_one_command (m : Manager) (w : W) (log : list call)
    (name nodeName : string) (internal : bool) (cmd : list string) :
  DeleteCluster (runner := tracedRunner runner) m (w, log) name =
    ((DeleteCluster m w name).1,
     ((DeleteCluster m w name).2,
      log ++ if String.eqb name "" then []
             else [("kind", kindArgs m ++ ["delete"; "cluster"; "--name"; name])])) ∧
  ListClusters (runner := tracedRunner runner) m (w, log) =
    ((ListClusters m w).1,
     ((ListClusters m w).2, log ++ [("kind", kindArgs m ++ ["get"; "clusters"])])) ∧
  GetKubeconfig (runner := tracedRunner runner) m (w, log) name internal =
    ((GetKubeconfig m w name internal).1,
     ((GetKubeconfig m w name internal).2,
      log ++ if String.eqb name "" then []
             else [("kind", kindArgs m ++ ["get"; "kubeconfig"; "--name"; name] ++
                            if internal then ["--internal"] else [])])) ∧
  GetClusterNodes (runner := tracedRunner runner) m (w, log) name =
    ((GetClusterNodes m w name).1,
     ((GetClusterNodes m w name).2,
      log ++ [("kind", kindArgs m ++ ["get"; "nodes"; "--name"; name])])) ∧
  ExecOnNode (runner := tracedRunner runner) m (w, log) nodeName cmd =
    ((ExecOnNode m w nodeName cmd).1,
     ((ExecOnNode m w nodeName cmd).2, log ++ [(runtimeBin m, "exec" :: nodeName :: cmd)])).
Proof.
  repeat split.
  - unfold DeleteCluster. destruct (String.eqb name ""); simpl; [by rewrite app_nil_r|].
    destruct (Run w "kind" _) as [[out [e|]] w1]; done.
  - unfold ListClusters. simpl.
    destruct (Run w "kind" _) as [[out [e|]] w1]; [done|].
    by destruct (String.eqb (TrimSpace out) "" || _).
  - unfold GetKubeconfig. destruct (String.eqb name ""); simpl; [by rewrite app_nil_r|].
    destruct internal; simpl; rewrite <- ?app_assoc; simpl;
      destruct (Run w "kind" _) as [[out [e|]] w1]; done.
  - unfold GetClusterNodes. simpl.
    destruct (Run w "kind" _) as [[out [e|]] w1]; [done|].
    by destruct (String.eqb (TrimSpace out) "").
  - unfold ExecOnNode. simpl.
    destruct (Run w (runtimeBin m) _) as [[out [e|]] w1]; done.
Qed.

Lemma inspectNodes_traced (m : Manager) (w : W) (log : list call) (lines : list string) :
  inspectNodes (runner := tracedRunner runner) m (w, log) lines =
    ((inspectNodes m w lines).1,
     ((inspectNodes m w lines).2, log ++ (inspectCall m <$> (inspectNodes m w lines).1))).
Proof.
  revert w log. induction lines as [|line rest IH]; intros w log; simpl.
  { by rewrite app_nil_r. }
  destruct (String.eqb (TrimSpace line) ""); [apply IH|].
  destruct (Run w (runtimeBin m) _) as [[out err] w1]. simpl. rewrite IH.
  destruct (inspectNodes m w1 rest) as [nodes w2]. simpl.
  by rewrite <- app_assoc.
Qed.

(** X11. [GetClusterStatus] runs nothing for an empty name; otherwise it lists the
    nodes with the kind CLI and then, when the listing succeeded, inspects
    with the runtime CLI each node of its answer once, in the order of the
    answer. *)
Theorem GetClusterStatus_commands (m : Manager) (w : W) (log : list call) (name : string) :
  GetClusterStatus (runner := tracedRunner runner) m (w, log) name =
    ((GetClusterStatus m w name).1,
     ((GetClusterStatus m w name).2,
      log ++ if String.eqb name "" then []
             else ("kind", kindArgs m ++ ["get"; "nodes"; "--name"; name]) ::
                  match (GetClusterStatus m w name).1 with
                  | Ok status => inspectCall m <$> cs_Nodes status
                  | Err _ => []
                  end)).
Proof.
  unfold GetClusterStatus. destruct (String.eqb name ""); simpl; [by rewrite app_nil_r|].
  destruct (Run w "kind" _) as [[out [e|]] w1]; [done|]. simpl.
  destruct (String.eqb (TrimSpace out) ""); [done|].
  rewrite inspectNodes_traced.
  destruct (inspectNodes m w1 _) as [nodes w2]. simpl.
  by rewrite <- app_assoc.
Qed.

End manager_commands.

Section manager_results.
Import Go rtdetect kind.
Context {W : Type} {lib : Lib} {yaml : YAML} {runner : CommandRunner W}
  {temp : TempFiles W}.

Lemma trimmed_lines (lines : list string) :
  Forall (λ c, c ≠ "" ∧ ∃ line, line ∈ lines ∧ c = TrimSpace line)
         (List.filter nonempty (TrimSpace <$> lines)).
Proof.
  induction lines as [|line rest IH]; simpl; [constructor|].
  assert (Forall (λ c, c ≠ "" ∧ ∃ l, l ∈ line :: rest ∧ c = TrimSpace l)
                 (List.filter nonempty (TrimSpace <$> rest))) as IH'.
  { eapply list.Forall_impl; [exact IH|]. intros c [Hc (l & Hl & ->)].
    split; [done|]. exists l. split; [by right | done]. }
  destruct (nonempty (TrimSpace line)) eqn:Hne; [|exact IH'].
  constructor; [|exact IH']. split; [by apply nonempty_true_iff|].
  exists line. split; [by left | done].
Qed.

Lemma filter_nonempty (names : list string) :
  List.filter nonempty names = filter (λ c, c ≠ "") names.
Proof.
  induction names as [|c names IH]; [done|].
  simpl. rewrite filter_cons, <- IH.
  destruct (decide (c ≠ "")) as [Hc | Hc].
  - apply nonempty_true_iff in Hc. by rewrite Hc.
  - destruct (nonempty c) eqn:Hne; [|done]. by apply nonempty_true_iff in Hne.
Qed.

(** X12. When the kind CLI fails [ListClusters] fails with its output in the
    message. When it succeeds [ListClusters] succeeds: with no cluster if the
    output is blank or is the sentence "No kind clusters found.", and
    otherwise with exactly the lines of the trimmed output, each trimmed, in
    their order, without those that are blank. A name returned is never
    empty. *)
Theorem ListClusters_names (m : Manager) (w w1 : W) (out : string) (err : option error) :
  Run w "kind" (kindArgs m ++ ["get"; "clusters"]) = ((out, err), w1) →
  match err with
  | Some e =>
      ListClusters m w =
        (Err ("kind get clusters failed: " +:+ e +:+ nl +:+ "Output: " +:+ out), w1)
  | None =>
      ∃ clusters,
        ListClusters m w = (Ok clusters, w1) ∧
        Forall (λ c, c ≠ "" ∧
                     ∃ line, line ∈ Split (TrimSpace out) "010"%char ∧ c = TrimSpace line)
               clusters ∧
        (TrimSpace out = "" ∨ TrimSpace out = "No kind clusters found." → clusters = []) ∧
        (TrimSpace out ≠ "" → TrimSpace out ≠ "No kind clusters found." →
         clusters = filter (λ c, c ≠ "") (TrimSpace <$> Split (TrimSpace out) "010"%char))
  end.
Proof.
  intros Hrun. unfold ListClusters. rewrite Hrun. destruct err as [e|]; [done|].
  destruct (String.eqb_spec (TrimSpace out) "") as [Hempty | Hempty]; simpl.
  { exists []. split; [done|]. split; [constructor | done]. }
  destruct (String.eqb_spec (TrimSpace out) "No kind clusters found.") as [Hnone | Hnone].
  { exists []. split; [done|]. split; [constructor | done]. }
  eexists. split; [reflexivity|]. split; [apply trimmed_lines|].
  split; [by intros [? | ?]|]. intros _ _. apply filter_nonempty.
Qed.

Lemma inspectNodes_nodes (m : Manager) (w : W) (lines : list string) :
  ns_Name <$> (inspectNodes m w lines).1 = List.filter nonempty (TrimSpace <$> lines) ∧
  Forall (λ ns, ns_Role ns = roleOfName (ns_Name ns)) (inspectNodes m w lines).1.
Proof.
  revert w. induction lines as [|line rest IH]; intros w; simpl; [by split|].
  unfold nonempty at 1.
  destruct (String.eqb (TrimSpace line) ""); simpl; [apply IH|].
  destruct (Run w (runtimeBin m) _) as [[out err] w1].
  destruct (IH w1) as [Hnames Hroles].
  destruct (inspectNodes m w1 rest) as [nodes w2]. simpl in *.
  split; [by f_equal | by constructor].
Qed.

Lemma filterNodes_by_role (nodes : list NodeStatus) :
  Forall (λ ns, ns_Role ns = roleOfName (ns_Name ns)) nodes →
  ns_Name <$> List.filter (λ ns, String.eqb (ns_Role ns) "control-plane") nodes
    = registry.filterNodes (ns_Name <$> nodes) "control-plane" ∧
  ns_Name <$> List.filter (λ ns, String.eqb (ns_Role ns) "worker") nodes
    = registry.filterNodes (ns_Name <$> nodes) "worker".
Proof.
  unfold registry.filterNodes. simpl.
  induction 1 as [|ns nodes Hrole _ [IHcp IHwk]]; [done|].
  simpl. rewrite Hrole. unfold roleOfName.
  destruct (Contains (ns_Name ns) "control-plane"); simpl;
    (split; [first [exact IHcp | f_equal; exact IHcp]
            | first [exact IHwk | f_equal; exact IHwk]]).
Qed.

(** X13. When the kind CLI lists the nodes of a cluster, [GetClusterStatus]
    succeeds whatever the inspections of the nodes do. Its nodes are, in
    order, the names that [GetClusterNodes] returns for the same listing;
    each has the role "control-plane" if its name contains that word and
    "worker" otherwise; and the nodes of each role are those that
    [filterNodes] selects for the role. *)
Theorem GetClusterStatus_agrees_with_GetClusterNodes (m : Manager) (w w1 : W)
    (name out : string) :
  name ≠ "" →
  Run w "kind" (kindArgs m ++ ["get"; "nodes"; "--name"; name]) = ((out, None), w1) →
  TrimSpace out ≠ "" →
  ∃ status w2,
    GetClusterStatus m w name = (Ok status, w2) ∧
    cs_Name status = name ∧
    GetClusterNodes m w name = (Ok (ns_Name <$> cs_Nodes status), w1) ∧
    Forall (λ ns, ns_Name ns ≠ "" ∧ ns_Role ns = roleOfName (ns_Name ns))
           (cs_Nodes status) ∧
    ns_Name <$> List.filter (λ ns, String.eqb (ns_Role ns) "control-plane") (cs_Nodes status)
      = registry.filterNodes (ns_Name <$> cs_Nodes status) "control-plane" ∧
    ns_Name <$> List.filter (λ ns, String.eqb (ns_Role ns) "worker") (cs_Nodes status)
      = registry.filterNodes (ns_Name <$> cs_Nodes status) "worker".
Proof.
  intros Hname%eqb_false_iff Hrun Hout%eqb_false_iff.
  unfold GetClusterStatus, GetClusterNodes. rewrite Hname, Hrun, Hout.
  destruct (inspectNodes_nodes m w1 (Split (TrimSpace out) "010"%char)) as [Hnames Hroles].
  destruct (inspectNodes m w1 _) as [nodes w2]. simpl in *.
  exists {| cs_Name := name; cs_Nodes := nodes |}, w2. simpl.
  split; [done|]. split; [done|]. split; [by rewrite Hnames|]. split.
  - pose proof (trimmed_lines (Split (TrimSpace out) "010"%char)) as Htrim.
    rewrite <- Hnames in Htrim. apply Forall_fmap in Htrim.
    apply list.Forall_forall. intros ns Hns. split.
    + by destruct (proj1 (list.Forall_forall _ _) Htrim ns Hns).
    + exact (proj1 (list.Forall_forall _ _) Hroles ns Hns).
  - by apply filterNodes_by_role.
Qed.

(** X14. A blank listing is read in two ways: [GetClusterStatus] reports that the
    cluster was not found, [GetClusterNodes] returns no node and no error,
    and so [ApplyMirrorConfig] on such a cluster succeeds with no result line
    and runs nothing more. *)
Theorem blank_node_listing (m : Manager) (w w1 : W) (name out : string)
    (mirrorCfg : registry.MirrorConfig) :
  name ≠ "" →
  Run w "kind" (kindArgs m ++ ["get"; "nodes"; "--name"; name]) = ((out, None), w1) →
  TrimSpace out = "" →
  GetClusterStatus m w name =
    (Err ("cluster " +:+ Quote name +:+ " not found or has no nodes"), w1) ∧
  GetClusterNodes m w name = (Ok [], w1) ∧
  registry.ApplyMirrorConfig m w name mirrorCfg = (Ok [], w1).
Proof.
  intros Hname%eqb_false_iff Hrun Hout.
  assert (GetClusterNodes m w name = (Ok [], w1)) as Hnodes.
  { unfold GetClusterNodes. by rewrite Hrun, Hout. }
  split; [|split; [exact Hnodes|]].
  - unfold GetClusterStatus. by rewrite Hname, Hrun, Hout.
  - unfold registry.ApplyMirrorConfig. rewrite Hnodes.
    assert (∀ cmds, registry.applyCommands m w1 cmds [] = ([], w1)) as ->; [|done].
    induction cmds as [|cmd rest IH]; simpl; [done|].
    assert (registry.filterNodes [] (registry.NodeSelector cmd) = []) as ->.
    { unfold registry.filterNodes. by repeat case_match. }
    simpl. by rewrite IH.
Qed.

(** X15. [CreateCluster] checks before it acts: with an empty name, or a
    configuration that [ValidateConfig] rejects, it fails without creating a
    file and without running a command. *)
Theorem CreateCluster_checks_first (m : Manager) (w : W) (log : list call)
    (name configYAML : string) :
  (name = "" →
   CreateCluster (runner := tracedRunner runner) (temp := tracedTempFiles temp)
     m (w, log) name configYAML
   = (("", Some "cluster name is required"), (w, log))) ∧
  (∀ e, name ≠ "" → ValidateConfig configYAML = Err e →
   CreateCluster (runner := tracedRunner runner) (temp := tracedTempFiles temp)
     m (w, log) name configYAML
   = (("", Some ("invalid config: " +:+ e)), (w, log))).
Proof.
  unfold CreateCluster. split.
  - by intros ->.
  - intros e Hname%eqb_false_iff Hinvalid. by rewrite Hname, Hinvalid.
Qed.

(** X16. Once the temporary file exists [CreateCluster] removes it on every way
    out: when writing the configuration fails, in which case no command is
    run, and after the kind CLI has run, whether it succeeded or not. The
    kind CLI is run once, after the file was written and closed, with that
    file as its configuration. *)
Theorem CreateCluster_removes_temp_file (m : Manager) (w w1 : W) (log : list call)
    (name configYAML tmpFile : string) :
  name ≠ "" →
  ValidateConfig configYAML = Ok () →
  CreateTemp w "" "kind-config-*.yaml" = (Ok tmpFile, w1) →
  ∃ w' calls,
    CreateCluster (runner := tracedRunner runner) (temp := tracedTempFiles temp)
      m (w, log) name configYAML
    = ((CreateCluster m w name configYAML).1, (Remove w' tmpFile, log ++ calls)) ∧
    (CreateCluster m w name configYAML).2 = Remove w' tmpFile ∧
    ((∃ e w2, WriteString w1 tmpFile configYAML = (Some e, w2) ∧
              w' = Close w2 tmpFile ∧ calls = []) ∨
     (∃ w2 r, WriteString w1 tmpFile configYAML = (None, w2) ∧
              Run (Close w2 tmpFile) "kind"
                (kindArgs m ++ ["create"; "cluster"; "--name"; name; "--config"; tmpFile])
              = (r, w') ∧
              calls = [("kind", kindArgs m ++
                                ["create"; "cluster"; "--name"; name; "--config"; tmpFile])])).
Proof.
  intros Hname%eqb_false_iff Hvalid Htemp. unfold CreateCluster.
  rewrite Hname, Hvalid. simpl. rewrite Htemp. simpl.
  destruct (WriteString w1 tmpFile configYAML) as [[e|] w2] eqn:Hwrite; simpl.
  - exists (Close w2 tmpFile), []. rewrite app_nil_r.
    split; [done|]. split; [done|]. left. eauto.
  - destruct (Run (Close w2 tmpFile) "kind" _) as [[out err] w4] eqn:Hrun. simpl.
    exists w4, [("kind", kindArgs m ++
                         ["create"; "cluster"; "--name"; name; "--config"; tmpFile])].
    split; [by destruct err|]. split; [by destruct err|]. right. eauto.
Qed.

End manager_results.

(** ** Registry mirrors: selection of nodes, generated configuration, and
    the commands of [ApplyMirrorConfig] *)

Section registry_more.
Import Go rtdetect kind registry.
Context {W : Type} {lib : Lib} {runner : CommandRunner W}.

Lemma filter_sublist {A} (f : A → bool) (l : list A) : sublist (List.filter f l) l.
Proof.
  induction l as [|x l IH]; simpl; [constructor|].
  destruct (f x); [by apply sublist_skip | by apply sublist_cons].
Qed.

Lemma filter_split {A} (f : A → bool) (l : list A) :
  List.filter f l ++ List.filter (λ x, negb (f x)) l ≡ₚ l.
Proof.
  induction l as [|x l IH]; simpl; [done|].
  destruct (f x); simpl; [by rewrite IH|].
  by rewrite <- Permutation_middle, IH.
Qed.

(** X17. The selectors of [filterNodes]: "all" keeps the list; "control-plane"
    and "worker" split it in two, each node on exactly one side; any other
    selector selects nothing; and a selection never adds, repeats or
    reorders nodes. *)
Theorem filterNodes_partition (nodes : list string) :
  filterNodes nodes "all" = nodes ∧
  filterNodes nodes "control-plane" ++ filterNodes nodes "worker" ≡ₚ nodes ∧
  (∀ n, n ∈ filterNodes nodes "control-plane" → n ∉ filterNodes nodes "worker") ∧
  (∀ n, n ∈ nodes →
        (n ∈ filterNodes nodes "control-plane" ↔ roleOfName n = "control-plane") ∧
        (n ∈ filterNodes nodes "worker" ↔ roleOfName n = "worker")) ∧
  (∀ selector, selector ≠ "all" → selector ≠ "control-plane" → selector ≠ "worker" →
               filterNodes nodes selector = []) ∧
  (∀ selector, sublist (filterNodes nodes selector) nodes).
Proof.
  split; [done|]. split; [apply filter_split|]. split; [|split; [|split]].
  - unfold filterNodes. simpl. intros n Hcp Hwk.
    apply list_elem_of_In, filter_In in Hcp as [_ Hcp].
    apply list_elem_of_In, filter_In in Hwk as [_ Hwk].
    by rewrite Hcp in Hwk.
  - intros n Hn. unfold filterNodes, roleOfName. simpl.
    apply list_elem_of_In in Hn. rewrite !list_elem_of_In, !filter_In.
    destruct (Contains n "control-plane"); simpl; split; split;
      try done; try (by intros [_ ?]); by intros _.
  - intros selector Hall%eqb_false_iff Hcp%eqb_false_iff Hwk%eqb_false_iff.
    unfold filterNodes. by rewrite Hall, Hcp, Hwk.
  - intros selector. unfold filterNodes.
    repeat case_match; try done; try apply filter_sublist. apply sublist_nil_l.
Qed.

Lemma overrideCommands_lookup (overrides : list RegistryOverride) (i : nat)
    (o : RegistryOverride) :
  overrides !! i = Some o →
  concat (overrideCommands <$> overrides) !! (2 * i)%nat
    = Some {| NodeSelector := "all";
              Description := "Create registry config directory for " +:+ Original o;
              Command := ["mkdir"; "-p"; "/etc/containerd/certs.d/" +:+ Original o] |} ∧
  concat (overrideCommands <$> overrides) !! (2 * i + 1)%nat
    = Some {| NodeSelector := "all";
              Description := "Configure mirror for " +:+ Original o +:+ " -> " +:+ Mirror o;
              Command := ["bash"; "-c";
                          "cat > /etc/containerd/certs.d/" +:+ Original o +:+
                          "/hosts.toml << 'EOF'" +:+ nl +:+ generateHostsToml o +:+
                          nl +:+ "EOF"] |}.
Proof.
  revert i. induction overrides as [|o' rest IH]; intros i Hi; [done|].
  destruct i as [|i]; simpl in Hi.
  - injection Hi as ->. by split.
  - destruct (IH i Hi) as [H0 H1].
    replace (2 * S i)%nat with (S (S (2 * i))) by lia.
    replace (S (S (2 * i)) + 1)%nat with (S (S (2 * i + 1))) by lia.
    by split.
Qed.

(** X18. [GenerateMirrorConfig] fails exactly on an empty list of overrides.
    Otherwise the configuration has the one containerd patch that points at
    /etc/containerd/certs.d, and for the override at index i the commands at
    2i and 2i+1: first the registry's directory is created, then its
    hosts.toml, as [generateHostsToml] renders it, is written into that
    directory. All commands address every node, and there are no others. *)
Theorem GenerateMirrorConfig_structure (overrides : list RegistryOverride)
    (credInfo : option CredentialInfo) :
  match GenerateMirrorConfig overrides credInfo with
  | Err e => overrides = [] ∧ e = "at least one registry override is required"
  | Ok mirrorCfg =>
      overrides ≠ [] ∧
      length (registry.ContainerdPatches mirrorCfg) = 1%nat ∧
      Forall (λ patch, Contains patch "/etc/containerd/certs.d" = true)
             (registry.ContainerdPatches mirrorCfg) ∧
      length (PostCreateCommands mirrorCfg) = (2 * length overrides)%nat ∧
      Forall (λ cmd, NodeSelector cmd = "all") (PostCreateCommands mirrorCfg) ∧
      ∀ i o, overrides !! i = Some o →
        Command <$> PostCreateCommands mirrorCfg !! (2 * i)%nat
          = Some ["mkdir"; "-p"; "/etc/containerd/certs.d/" +:+ Original o] ∧
        Command <$> PostCreateCommands mirrorCfg !! (2 * i + 1)%nat
          = Some ["bash"; "-c";
                  "cat > /etc/containerd/certs.d/" +:+ Original o +:+
                  "/hosts.toml << 'EOF'" +:+ nl +:+ generateHostsToml o +:+ nl +:+ "EOF"]
  end.
Proof.
  unfold GenerateMirrorConfig. destruct overrides as [|o rest]; [done|].
  cbn [length Nat.eqb PostCreateCommands registry.ContainerdPatches].
  destruct (overrideCommands_all (o :: rest)) as [Hlen Hall].
  split; [done|]. split; [done|]. split; [by repeat constructor|].
  split; [exact Hlen|]. split; [exact Hall|].
  intros i o' Hi. destruct (overrideCommands_lookup (o :: rest) i o' Hi) as [-> ->].
  by split.
Qed.

(** X19. A mirror given without a scheme is treated as its "http://" form: the
    two overrides give the same hosts.toml. *)
Theorem generateHostsToml_schemeless_as_http (original mirror : string) :
  schemeless mirror →
  generateHostsToml {| Original := original; Mirror := mirror |} =
  generateHostsToml {| Original := original; Mirror := "http://" +:+ mirror |}.
Proof.
  intros [Hhttp Hhttps]. unfold generateHostsToml, generateHostsToml_writes.
  cbn [Original Mirror]. rewrite Hhttp, Hhttps.
  by rewrite (HasPrefix_app "http://" mirror).
Qed.

Lemma ExecOnNode_traced (m : Manager) (w : W) (log : list call) (node : string)
    (cmd : list string) :
  ExecOnNode (runner := tracedRunner runner) m (w, log) node cmd =
    ((ExecOnNode m w node cmd).1,
     ((ExecOnNode m w node cmd).2, log ++ [execCall m cmd node])).
Proof.
  unfold ExecOnNode. simpl. destruct (Run w (runtimeBin m) _) as [[out [e|]] w1]; done.
Qed.

Lemma applyCommand_traced (m : Manager) (w : W) (log : list call) (cmd : NodeCommand)
    (targetNodes : list string) :
  applyCommand (runner := tracedRunner runner) m (w, log) cmd targetNodes =
    ((applyCommand m w cmd targetNodes).1,
     ((applyCommand m w cmd targetNodes).2,
      log ++ (execCall m (Command cmd) <$> targetNodes))).
Proof.
  revert w log. induction targetNodes as [|node rest IH]; intros w log.
  { simpl. by rewrite app_nil_r. }
  cbn [applyCommand]. rewrite ExecOnNode_traced.
  destruct (ExecOnNode m w node (Command cmd)) as [[out err] w1]. cbn [fst snd].
  rewrite IH. destruct (applyCommand m w1 cmd rest) as [lines w2]. cbn [fst snd].
  by rewrite <- app_assoc.
Qed.

Lemma applyCommands_traced (m : Manager) (w : W) (log : list call) (cmds : list NodeCommand)
    (nodes : list string) :
  applyCommands (runner := tracedRunner runner) m (w, log) cmds nodes =
    ((applyCommands m w cmds nodes).1,
     ((applyCommands m w cmds nodes).2,
      log ++ concat ((λ cmd, execCall m (Command cmd) <$>
                               filterNodes nodes (NodeSelector cmd)) <$> cmds))).
Proof.
  revert w log. induction cmds as [|cmd rest IH]; intros w log.
  { simpl. by rewrite app_nil_r. }
  cbn [applyCommands]. rewrite applyCommand_traced.
  destruct (applyCommand m w cmd _) as [lines1 w1]. cbn [fst snd].
  rewrite IH. destruct (applyCommands m w1 rest nodes) as [lines2 w2]. cbn [fst snd].
  by rewrite <- app_assoc.
Qed.

Lemma restartNodes_traced (m : Manager) (w : W) (log : list call) (nodes : list string) :
  restartNodes (runner := tracedRunner runner) m (w, log) nodes =
    ((restartNodes m w nodes).1,
     ((restartNodes m w nodes).2,
      log ++ (execCall m ["systemctl"; "restart"; "containerd"] <$> nodes))).
Proof.
  revert w log. induction nodes as [|node rest IH]; intros w log.
  { simpl. by rewrite app_nil_r. }
  cbn [restartNodes]. rewrite ExecOnNode_traced.
  destruct (ExecOnNode m w node _) as [[out err] w1]. cbn [fst snd].
  rewrite IH. destruct (restartNodes m w1 rest) as [lines w2]. cbn [fst snd].
  by rewrite <- app_assoc.
Qed.

Lemma GetClusterNodes_traced (m : Manager) (w : W) (log : list call) (name : string) :
  GetClusterNodes (runner := tracedRunner runner) m (w, log) name =
    ((GetClusterNodes m w name).1,
     ((GetClusterNodes m w name).2,
      log ++ [("kind", kindArgs m ++ ["get"; "nodes"; "--name"; name])])).
Proof.
  unfold GetClusterNodes. simpl.
  destruct (Run w "kind" _) as [[out [e|]] w1]; [done|].
  by destruct (String.eqb (TrimSpace out) "").
Qed.

(** X20. The commands of [ApplyMirrorConfig], in order: the kind CLI lists the
    nodes; if that fails nothing else is run. Otherwise every command of the
    configuration is run, in the order of the configuration, inside each of
    the nodes its selector selects, and after the last of them containerd is
    restarted inside every node, whatever any of these commands returned. *)
Theorem ApplyMirrorConfig_commands (m : Manager) (w : W) (log : list call)
    (clusterName : string) (mirrorCfg : MirrorConfig) :
  ApplyMirrorConfig (runner := tracedRunner runner) m (w, log) clusterName mirrorCfg =
    ((ApplyMirrorConfig m w clusterName mirrorCfg).1,
     ((ApplyMirrorConfig m w clusterName mirrorCfg).2,
      log ++
      ("kind", kindArgs m ++ ["get"; "nodes"; "--name"; clusterName]) ::
      match (GetClusterNodes m w clusterName).1 with
      | Err _ => []
      | Ok nodes =>
          concat ((λ cmd, execCall m (Command cmd) <$>
                            filterNodes nodes (NodeSelector cmd)) <$>
                  PostCreateCommands mirrorCfg) ++
          (execCall m ["systemctl"; "restart"; "containerd"] <$> nodes)
      end)).
Proof.
  unfold ApplyMirrorConfig. rewrite GetClusterNodes_traced.
  destruct (GetClusterNodes m w clusterName) as [[nodes|e] w1]; cbn [fst snd]; [|done].
  rewrite applyCommands_traced.
  destruct (applyCommands m w1 _ nodes) as [provisioned w2]. cbn [fst snd].
  rewrite restartNodes_traced.
  destruct (restartNodes m w2 nodes) as [restarted w3]. cbn [fst snd].
  by rewrite <- !app_assoc.
Qed.

End registry_more.

(** ** Credentials: the search, the record it returns, and its use as a
    mount *)

Section credentials_more.
Import Go rtdetect registry.
Context {W : Type} {lib : Lib} {host : Host W} {json : JSON}.

Lemma searchCandidates_result (w : W) (paths : list candidatePath) :
  match searchCandidates w paths with
  | Some info =>
      ∃ before c rest cfg,
        paths = before ++ c :: rest ∧ Forall (passedOver w) before ∧
        parsesAs w c cfg ∧ info = credentialInfo (expandPath w (path c)) c cfg
  | None => Forall (passedOver w) paths
  end.
Proof.
  induction paths as [|c rest IH]; simpl; [constructor|].
  destruct (Stat w (expandPath w (path c))) eqn:Hstat; simpl.
  - destruct (ReadFile w (expandPath w (path c))) as [data|e] eqn:Hread.
    + destruct (json_Unmarshal_dockerConfig data) as [cfg|e] eqn:Hparse.
      * exists [], c, rest, cfg. repeat split; [constructor | done | by exists data].
      * assert (passedOver w c) as Hc.
        { right. right. split; [done|]. by exists data, e. }
        destruct (searchCandidates w rest) as [info|].
        -- destruct IH as (before & c' & rest' & cfg & -> & Hbefore & Hc' & ->).
           exists (c :: before), c', rest', cfg. repeat split; try done.
           ++ by constructor.
           ++ by destruct Hc'.
           ++ by destruct Hc'.
        -- by constructor.
    + assert (passedOver w c) as Hc.
      { right. left. split; [done|]. by exists e. }
      destruct (searchCandidates w rest) as [info|].
      * destruct IH as (before & c' & rest' & cfg & -> & Hbefore & Hc' & ->).
        exists (c :: before), c', rest', cfg. repeat split; try done.
        -- by constructor.
        -- by destruct Hc'.
        -- by destruct Hc'.
      * by constructor.
  - assert (passedOver w c) as Hc by by left.
    destruct (searchCandidates w rest) as [info|].
    + destruct IH as (before & c' & rest' & cfg & -> & Hbefore & Hc' & ->).
      exists (c :: before), c', rest', cfg. repeat split; try done.
      * by constructor.
      * by destruct Hc'.
      * by destruct Hc'.
    + by constructor.
Qed.

(** X21. What [FindCredentials] returns, in full. A success describes the first
    candidate, in the order of [candidatePaths], whose file exists, can be
    read and parses; every candidate before it was passed over. A failure
    means that every candidate was passed over, and its message lists the
    expanded path of every candidate, in order. *)
Theorem FindCredentials_result (w : W) (ri : RuntimeInfo) :
  match FindCredentials w ri with
  | Ok info =>
      ∃ before c rest cfg,
        candidatePaths w ri = before ++ c :: rest ∧
        Forall (passedOver w) before ∧
        parsesAs w c cfg ∧
        info = credentialInfo (expandPath w (path c)) c cfg
  | Err e =>
      Forall (passedOver w) (candidatePaths w ri) ∧
      e = "no registry credentials found; searched paths: " +:+
          Join ((λ c, expandPath w (path c)) <$> candidatePaths w ri) ", "
  end.
Proof.
  unfold FindCredentials.
  pose proof (searchCandidates_result w (candidatePaths w ri)) as Hsearch.
  destruct (searchCandidates w (candidatePaths w ri)) as [info|]; [done|].
  by split.
Qed.

Lemma candidatePaths_sources (w : W) (ri : RuntimeInfo) :
  Forall (λ c, source c = "docker" ∨ source c = "podman") (candidatePaths w ri).
Proof.
  unfold candidatePaths.
  repeat case_match; simpl; repeat (constructor; [simpl; auto|]); constructor.
Qed.

Lemma FindCredentials_Ok_inv (w : W) (ri : RuntimeInfo) (info : CredentialInfo) :
  FindCredentials w ri = Ok info →
  ∃ before c rest cfg,
    candidatePaths w ri = before ++ c :: rest ∧
    parsesAs w c cfg ∧
    info = credentialInfo (expandPath w (path c)) c cfg.
Proof.
  unfold FindCredentials.
  pose proof (searchCandidates_result w (candidatePaths w ri)) as Hsearch.
  destruct (searchCandidates w (candidatePaths w ri)) as [info'|]; [|done].
  intros [= <-]. destruct Hsearch as (before & c & rest & cfg & ? & _ & ? & ?).
  by exists before, c, rest, cfg.
Qed.

(** X22. The record returned by a successful [FindCredentials]: its file exists
    and was read; the registries are the keys of the file's auths, each once;
    the credentials count as inline exactly when the file names neither a
    credentials store nor a credential helper; the mount path is the kubelet's
    config.json; the source is docker or podman; a credentials store always
    leaves a note, inline credentials never do. *)
Theorem FindCredentials_info (w : W) (ri : RuntimeInfo) (info : CredentialInfo) :
  FindCredentials w ri = Ok info →
  Stat w (FilePath info) = true ∧
  (∃ data cfg, ReadFile w (FilePath info) = Ok data ∧
               json_Unmarshal_dockerConfig data = Ok cfg ∧
               (∀ r, r ∈ Registries info ↔ is_Some (Auths cfg !! r)) ∧
               CredStore info = CredsStore cfg ∧
               CredHelpers info = cfg_CredHelpers cfg) ∧
  NoDup (Registries info) ∧
  (InlineAuth info = true ↔ CredStore info = "" ∧ CredHelpers info = ∅) ∧
  MountPath info = "/var/lib/kubelet/config.json" ∧
  (Source info = "docker" ∨ Source info = "podman") ∧
  (CredStore info ≠ "" → Notes info ≠ "") ∧
  (InlineAuth info = true → Notes info = "").
Proof.
  intros Hfound.
  destruct (FindCredentials_Ok_inv w ri info Hfound)
    as (before & c & rest & cfg & Hpaths & [Hstat (data & Hread & Hparse)] & ->).
  cbn [FilePath Registries CredStore CredHelpers InlineAuth MountPath Source Notes
       credentialInfo].
  split; [done|]. split.
  { exists data, cfg. repeat split; try done.
    - intros [a Ha]%list_elem_of_fmap. destruct Ha as [-> Ha].
      destruct a as [k v]. apply elem_of_map_to_list in Ha. by exists v.
    - intros [v Hv]. apply list_elem_of_fmap. exists (r, v).
      split; [done|]. by apply elem_of_map_to_list. }
  split; [apply NoDup_fst_map_to_list|].
  split.
  { rewrite andb_true_iff, eqb_true_iff, Nat.eqb_eq. split.
    - intros [? Hsize]. split; [done|]. by apply map_size_empty_iff.
    - intros [? ->]. split; [done|]. by rewrite map_size_empty. }
  split; [done|]. split.
  { pose proof (candidatePaths_sources w ri) as Hsrc. rewrite Hpaths in Hsrc.
    apply Forall_app in Hsrc as [_ Hsrc]. by inversion Hsrc. }
  split.
  - intros Hstore.
    assert (nonempty (CredsStore cfg) = true) as -> by by apply nonempty_true_iff.
    assert (String.eqb (CredsStore cfg) "" = false) as -> by by apply eqb_false_iff.
    cbn [andb negb]. by case_match.
  - intros [Hstore Hsize]%andb_true_iff. rewrite Hstore, Hsize. cbn [andb negb].
    unfold nonempty. by rewrite Hstore.
Qed.

(** X23. Credentials found on the host are mounted into the nodes only when they
    are inline: [GenerateMirrorConfig] turns a record returned by
    [FindCredentials] into one read-only mount of the file found, at the
    kubelet's config.json, when the file names neither a credentials store
    nor a credential helper, and into no mount at all otherwise, as it does
    when no credentials are given. *)
Theorem GenerateMirrorConfig_credential_mount (w : W) (ri : RuntimeInfo)
    (info : CredentialInfo) (overrides : list RegistryOverride) :
  FindCredentials w ri = Ok info →
  overrides ≠ [] →
  ∃ withCreds without,
    GenerateMirrorConfig overrides (Some info) = Ok withCreds ∧
    GenerateMirrorConfig overrides None = Ok without ∧
    registry.ExtraMounts without = [] ∧
    PostCreateCommands withCreds = PostCreateCommands without ∧
    registry.ContainerdPatches withCreds = registry.ContainerdPatches without ∧
    (CredStore info = "" ∧ CredHelpers info = ∅ →
     registry.ExtraMounts withCreds =
       [ {| kind.mnt_HostPath := FilePath info;
            kind.mnt_ContainerPath := "/var/lib/kubelet/config.json";
            kind.mnt_ReadOnly := true;
            kind.mnt_Propagation := "" |} ]) ∧
    (¬ (CredStore info = "" ∧ CredHelpers info = ∅) →
     registry.ExtraMounts withCreds = []).
Proof.
  intros Hfound Hne.
  destruct (FindCredentials_Ok_inv w ri info Hfound) as (before & c & rest & cfg & _ & _ & ->).
  unfold GenerateMirrorConfig. destruct overrides as [|o others]; [done|].
  cbn [length Nat.eqb]. eexists _, _. split; [reflexivity|]. split; [reflexivity|].
  cbn [registry.ExtraMounts PostCreateCommands registry.ContainerdPatches
       InlineAuth FilePath MountPath CredStore CredHelpers credentialInfo].
  split; [done|]. split; [done|]. split; [done|].
  destruct (String.eqb_spec (CredsStore cfg) "") as [Hstore|Hstore]; cbn [andb].
  - destruct (Nat.eqb_spec (size (cfg_CredHelpers cfg)) 0) as [Hsize|Hsize].
    + split; [done|]. intros []. split; [done|]. by apply map_size_empty_iff.
    + split; [|done]. intros [_ Hhelpers]. by rewrite Hhelpers, map_size_empty in Hsize.
  - split; [by intros [? _]|done].
Qed.

(** X24. The candidates of [candidatePaths]: there is always at least one, and
    never more than four; each is a docker or a podman candidate; the default
    Docker config is always among them, and for Docker and for Podman it is
    the last. A path given by the environment is tried first: for Podman the
    file named by REGISTRY_AUTH_FILE as it is, for Docker the config.json in
    the directory DOCKER_CONFIG. For Podman no docker candidate precedes a
    podman one. *)
Theorem candidatePaths_order (w : W) (ri : RuntimeInfo) :
  let paths := candidatePaths w ri in
  let dockerDefault := {| path := "~/.docker/config.json"; source := "docker" |} in
  (1 ≤ length paths ≤ 4)%nat ∧
  Forall (λ c, source c = "docker" ∨ source c = "podman") paths ∧
  dockerDefault ∈ paths ∧
  (ri_Runtime ri = RuntimePodman ∨ ri_Runtime ri = RuntimeDocker →
   list.last paths = Some dockerDefault) ∧
  (ri_Runtime ri = RuntimePodman → Getenv w "REGISTRY_AUTH_FILE" ≠ "" →
   head paths = Some {| path := Getenv w "REGISTRY_AUTH_FILE"; source := "podman" |}) ∧
  (ri_Runtime ri = RuntimeDocker → Getenv w "DOCKER_CONFIG" ≠ "" →
   head paths = Some {| path := filepath_Join [Getenv w "DOCKER_CONFIG"; "config.json"];
                        source := "docker" |}) ∧
  (ri_Runtime ri = RuntimePodman →
   ∃ podmanPaths, paths = podmanPaths ++ [dockerDefault] ∧
                  Forall (λ c, source c = "podman") podmanPaths).
Proof.
  intros paths dockerDefault. subst paths dockerDefault.
  split; [|split; [apply candidatePaths_sources|]].
  { unfold candidatePaths. repeat case_match; simpl; lia. }
  split.
  { unfold candidatePaths. repeat case_match; rewrite ?list.elem_of_app, ?list.elem_of_cons; auto. }
  split.
  { unfold candidatePaths. intros [-> | ->].
    - rewrite String.eqb_refl, !app_assoc. apply last_snoc.
    - change (String.eqb RuntimeDocker RuntimePodman) with false.
      rewrite String.eqb_refl. apply last_snoc. }
  split.
  { unfold candidatePaths. intros -> Henv%nonempty_true_iff.
    by rewrite String.eqb_refl, Henv. }
  split.
  { unfold candidatePaths. intros -> Henv%nonempty_true_iff.
    change (String.eqb RuntimeDocker RuntimePodman) with false.
    by rewrite String.eqb_refl, Henv. }
  unfold candidatePaths. intros ->. rewrite String.eqb_refl, app_assoc.
  eexists. split; [reflexivity|].
  repeat case_match; simpl; repeat constructor.
Qed.

End credentials_more.

(** ** Runtime detection: what [Detect] returns and what it runs *)

Section runtime_more.
Import Go rtdetect kind.
Context {W : Type} {lib : Lib} {runner : CommandRunner W} {host : Host W} {json : JSON}.

Lemma find_result {A} (f : A → bool) (l : list A) (fallback : A) :
  f (default fallback (List.find f l)) = true ∨ default fallback (List.find f l) = fallback.
Proof.
  destruct (List.find f l) as [x|] eqn:Hfind; simpl; [|by right].
  left. by apply find_some in Hfind as [_ ?].
Qed.

(** X25. The Docker socket. With DOCKER_HOST set, the socket is its value without
    a leading "unix://" and the file system is not consulted. Without it, the
    socket is the named pipe on Windows; on every other host it is a path
    that exists, or else the default /var/run/docker.sock, and on a host that
    is neither macOS nor Linux always the default. *)
Theorem detectDockerSocket_result (w : W) :
  (Getenv w "DOCKER_HOST" ≠ "" →
   detectDockerSocket w = TrimPrefix (Getenv w "DOCKER_HOST") "unix://") ∧
  (Getenv w "DOCKER_HOST" = "" → GOOS = "windows" →
   detectDockerSocket w = "\\.\pipe\docker_engine") ∧
  (Getenv w "DOCKER_HOST" = "" → GOOS ≠ "windows" →
   Stat w (detectDockerSocket w) = true ∨ detectDockerSocket w = "/var/run/docker.sock") ∧
  (Getenv w "DOCKER_HOST" = "" → GOOS ≠ "darwin" → GOOS ≠ "linux" → GOOS ≠ "windows" →
   detectDockerSocket w = "/var/run/docker.sock").
Proof.
  unfold detectDockerSocket, first_existing. split; [|split; [|split]].
  - intros Hhost%nonempty_true_iff. rewrite Hhost. unfold TrimPrefix.
    by destruct (HasPrefix _ _).
  - intros Hhost Hos. unfold nonempty. by rewrite Hhost, Hos.
  - intros Hhost Hos%eqb_false_iff.
    replace (nonempty (Getenv w "DOCKER_HOST")) with false by (by rewrite Hhost).
    rewrite Hos.
    destruct (String.eqb GOOS "darwin"); [apply find_result|].
    destruct (String.eqb GOOS "linux"); [apply find_result | by right].
  - intros Hhost Hd%eqb_false_iff Hl%eqb_false_iff Hw%eqb_false_iff.
    unfold nonempty. by rewrite Hhost, Hd, Hl, Hw.
Qed.

Lemma DetectOS_host : OS DetectOS = GOOS ∧ Arch DetectOS = GOARCH.
Proof. unfold DetectOS. by repeat case_match. Qed.

Lemma detectDockerBackend_values (w : W) (di : dockerInfo) (osInfo : OSInfo) :
  detectDockerBackend w di osInfo ∈
    [BackendDockerDesktop; BackendColima; BackendRancherDesktop; BackendLima;
     BackendWSL; BackendNative] ∧
  (detectDockerBackend w di osInfo = BackendNative ∨
   detectDockerBackend w di osInfo = BackendWSL → OS osInfo = "linux") ∧
  detectDockerBackend w di osInfo ≠ BackendPodmanMachine.
Proof.
  unfold detectDockerBackend.
  destruct (String.eqb_spec (OS osInfo) "linux") as [Hos|Hos];
    repeat case_match; simpl;
    (split; [set_solver | split; [by intros [|] | done]]).
Qed.

Lemma detectPodmanBackend_values (w : W) (osInfo : OSInfo) :
  detectPodmanBackend w osInfo ∈
    [BackendPodmanMachine; BackendWSL; BackendNative; BackendUnknown] ∧
  (detectPodmanBackend w osInfo = BackendNative ∨
   detectPodmanBackend w osInfo = BackendWSL → OS osInfo = "linux") ∧
  (detectPodmanBackend w osInfo = BackendPodmanMachine ↔
   OS osInfo = "darwin" ∨ OS osInfo = "windows").
Proof.
  unfold detectPodmanBackend.
  destruct (String.eqb_spec (OS osInfo) "darwin") as [Hd|Hd];
    destruct (String.eqb_spec (OS osInfo) "windows") as [Hw|Hw];
    destruct (String.eqb_spec (OS osInfo) "linux") as [Hl|Hl];
    repeat case_match; simpl;
    (split; [set_solver | split; [by intros [|] | split; [auto; done | by intros [|]]]]).
Qed.

(** The three shapes of the result of [Detect]. *)
Lemma Detect_shapes (w : W) :
  (∃ w1 di, (Detect w).1 =
     {| ri_Runtime := RuntimeDocker; ri_Backend := detectDockerBackend w1 di DetectOS;
        ri_Version := ServerVersion di; ri_SocketPath := detectDockerSocket w1;
        ri_OS := DetectOS; ri_Available := true; ri_Error := "" |}) ∨
  (∃ w1 pi, (Detect w).1 =
     {| ri_Runtime := RuntimePodman; ri_Backend := detectPodmanBackend w1 DetectOS;
        ri_Version := Host_Version_Version pi;
        ri_SocketPath := Host_RemoteSocket_Path pi;
        ri_OS := DetectOS; ri_Available := true; ri_Error := "" |}) ∨
  (Detect w).1 = noRuntime.
Proof.
  assert (∀ w', (∃ w1 pi, (Detect_podman w' DetectOS).1 =
     {| ri_Runtime := RuntimePodman; ri_Backend := detectPodmanBackend w1 DetectOS;
        ri_Version := Host_Version_Version pi;
        ri_SocketPath := Host_RemoteSocket_Path pi;
        ri_OS := DetectOS; ri_Available := true; ri_Error := "" |}) ∨
     (Detect_podman w' DetectOS).1 = noRuntime) as Hpodman.
  { intros w'. unfold Detect_podman, detectPodman.
    destruct (LookPath w' "podman"); [|by right].
    destruct (Run w' "podman" _) as [[out [e|]] w1]; [by right|].
    destruct (json_Unmarshal_podmanInfo out) as [pi|e]; [|by right].
    left. by exists w1, pi. }
  unfold Detect, detectDocker.
  destruct (LookPath w "docker"); [|right; apply Hpodman].
  destruct (Run w "docker" _) as [[out [e|]] w1]; [right; apply Hpodman|].
  destruct (json_Unmarshal_dockerInfo out) as [di|e]; [|right; apply Hpodman].
  left. by exists w1, di.
Qed.

(** X26. The result of [Detect] is consistent: it carries the host's operating
    system; its runtime is docker, podman or unknown; it is available exactly
    when the runtime is known, and exactly when there is no error message;
    and an unavailable result is the one fixed record, so nothing of a probe
    that failed half-way is returned. *)
Theorem Detect_invariants (w : W) :
  let ri := (Detect w).1 in
  ri_OS ri = DetectOS ∧ OS (ri_OS ri) = GOOS ∧ Arch (ri_OS ri) = GOARCH ∧
  (ri_Runtime ri = RuntimeDocker ∨ ri_Runtime ri = RuntimePodman ∨
   ri_Runtime ri = RuntimeUnknown) ∧
  (ri_Available ri = true ↔ ri_Runtime ri ≠ RuntimeUnknown) ∧
  (ri_Available ri = true ↔ ri_Error ri = "") ∧
  (ri_Available ri = false → ri = noRuntime).
Proof.
  intros ri. subst ri. destruct DetectOS_host as [Hos Harch].
  destruct (Detect_shapes w) as [(w1 & di & ->) | [(w1 & pi & ->) | ->]]; simpl;
    repeat split; auto; try done.
Qed.

(** X27. The backend that [Detect] reports, by runtime: for Docker one of Docker
    Desktop, Colima, Rancher Desktop, Lima, WSL and native, never unknown;
    for Podman one of Podman Machine, WSL, native and unknown, and Podman
    Machine exactly on macOS and Windows. Whatever the runtime, the backends
    native and WSL are reported on Linux hosts only, and the backend is never
    left empty. *)
Theorem Detect_backend (w : W) :
  let ri := (Detect w).1 in
  (ri_Runtime ri = RuntimeDocker →
   ri_Backend ri ∈ [BackendDockerDesktop; BackendColima; BackendRancherDesktop;
                    BackendLima; BackendWSL; BackendNative]) ∧
  (ri_Runtime ri = RuntimePodman →
   ri_Backend ri ∈ [BackendPodmanMachine; BackendWSL; BackendNative; BackendUnknown] ∧
   (ri_Backend ri = BackendPodmanMachine ↔ GOOS = "darwin" ∨ GOOS = "windows")) ∧
  (ri_Runtime ri = RuntimeUnknown → ri_Backend ri = BackendUnknown) ∧
  (ri_Backend ri = BackendNative ∨ ri_Backend ri = BackendWSL → GOOS = "linux") ∧
  ri_Backend ri ≠ "".
Proof.
  intros ri. subst ri. destruct DetectOS_host as [Hos _].
  destruct (Detect_shapes w) as [(w1 & di & ->) | [(w1 & pi & ->) | ->]]; simpl.
  - destruct (detectDockerBackend_values w1 di DetectOS) as (Hin & Hlinux & _).
    rewrite Hos in Hlinux.
    repeat split; try done. intros Hempty. rewrite Hempty in Hin.
    repeat (apply elem_of_cons in Hin as [Hin|Hin]; [done|]). by apply elem_of_nil in Hin.
  - destruct (detectPodmanBackend_values w1 DetectOS) as (Hin & Hlinux & Hmachine).
    rewrite Hos in Hlinux, Hmachine.
    repeat split; try done; try apply Hmachine.
    intros Hempty. rewrite Hempty in Hin.
    repeat (apply elem_of_cons in Hin as [Hin|Hin]; [done|]). by apply elem_of_nil in Hin.
  - repeat split; try done. by intros [|].
Qed.

(** X28. The network advice for a detected runtime. Extra configuration is asked
    for exactly when Podman was detected on macOS or Windows; the advice is
    to listen on all interfaces exactly for a native backend, which is only
    found on Linux, and on the loopback address otherwise; and the advice
    always comes with notes: the one case of [DetectNetworkConfig] without
    notes does not arise from [Detect]. *)
Theorem DetectNetworkConfig_of_Detect (w : W) :
  let ri := (Detect w).1 in
  let advice := DetectNetworkConfig ri in
  (adv_RequiresExtraConfig advice = true ↔
   ri_Runtime ri = RuntimePodman ∧ (GOOS = "darwin" ∨ GOOS = "windows")) ∧
  (adv_ListenAddress advice = "0.0.0.0" ↔ ri_Backend ri = BackendNative) ∧
  (adv_ListenAddress advice = "127.0.0.1" ↔ ri_Backend ri ≠ BackendNative) ∧
  (ri_Backend ri = BackendNative → GOOS = "linux") ∧
  adv_Notes advice ≠ "".
Proof.
  intros ri advice. subst ri advice. destruct DetectOS_host as [Hos _].
  destruct (Detect_shapes w) as [(w1 & di & ->) | [(w1 & pi & ->) | ->]].
  - destruct (detectDockerBackend_values w1 di DetectOS) as (Hin & Hlinux & Hnot).
    rewrite Hos in Hlinux. unfold DetectNetworkConfig. cbn [ri_Backend ri_OS ri_Runtime].
    rewrite Hos. revert Hin Hlinux Hnot.
    generalize (detectDockerBackend w1 di DetectOS). intros b Hin Hlinux Hnot.
    repeat (apply elem_of_cons in Hin as [-> | Hin]); [..|by apply elem_of_nil in Hin];
      try (rewrite (Hlinux (or_introl eq_refl))); simpl;
      repeat split; try done; try (by intros [? _]); auto.
  - destruct (detectPodmanBackend_values w1 DetectOS) as (Hin & Hlinux & Hmachine).
    rewrite Hos in Hlinux, Hmachine. unfold DetectNetworkConfig.
    cbn [ri_Backend ri_OS ri_Runtime]. rewrite Hos. revert Hin Hlinux Hmachine.
    generalize (detectPodmanBackend w1 DetectOS). intros b Hin Hlinux Hmachine.
    repeat (apply elem_of_cons in Hin as [-> | Hin]); [..|by apply elem_of_nil in Hin];
      first [rewrite (Hlinux (or_introl eq_refl)) | rewrite (Hlinux (or_intror eq_refl))
            | idtac]; simpl.
    + destruct (proj1 Hmachine eq_refl) as [-> | ->]; simpl;
        repeat split; try done; auto.
    + repeat split; try done; by intros [_ [|]].
    + repeat split; try done; by intros [_ [|]].
    + repeat split; try done. by intros [_ ?%Hmachine].
  - simpl. repeat split; try done; try (by intros [? _]); auto.
Qed.

Lemma detectDocker_traced (w : W) (log : list call) (osInfo : OSInfo) :
  detectDocker (runner := tracedRunner runner) (host := tracedHost host) (w, log) osInfo =
    ((detectDocker w osInfo).1,
     ((detectDocker w osInfo).2, log ++ [("docker", ["info"; "--format"; "{{json .}}"])])) ∧
  ri_Runtime (detectDocker w osInfo).1.1 = RuntimeDocker.
Proof.
  unfold detectDocker. simpl.
  destruct (Run w "docker" _) as [[out [e|]] w1]; [done|].
  by destruct (json_Unmarshal_dockerInfo out).
Qed.

Lemma Detect_podman_traced (w : W) (log : list call) (osInfo : OSInfo) :
  Detect_podman (runner := tracedRunner runner) (host := tracedHost host) (w, log) osInfo =
    ((Detect_podman w osInfo).1,
     ((Detect_podman w osInfo).2,
      log ++ match LookPath w "podman" with
             | Ok _ => [("podman", ["info"; "--format"; "json"])]
             | Err _ => []
             end)) ∧
  ri_Runtime (Detect_podman w osInfo).1 ≠ RuntimeDocker ∧
  (ri_Runtime (Detect_podman w osInfo).1 = RuntimePodman → ∃ p, LookPath w "podman" = Ok p).
Proof.
  unfold Detect_podman, detectPodman. simpl.
  destruct (LookPath w "podman") as [p|e]; [|by rewrite app_nil_r].
  destruct (Run w "podman" _) as [[out [e|]] w1]; simpl; [by eauto|].
  destruct (json_Unmarshal_podmanInfo out); simpl; by eauto.
Qed.

(** X29. The commands of [Detect]: at most the info call of Docker followed by
    the info call of Podman, each only if the executable is on the search
    path. Podman is not asked when Docker was detected, and is the last one
    asked when Podman was detected. Recording the commands changes neither
    result nor world. *)
Theorem Detect_commands (w : W) (log : list call) :
  let dockerCall : call := ("docker", ["info"; "--format"; "{{json .}}"]) in
  let podmanCall : call := ("podman", ["info"; "--format"; "json"]) in
  ∃ calls,
    Detect (runner := tracedRunner runner) (host := tracedHost host) (w, log)
      = ((Detect w).1, ((Detect w).2, log ++ calls)) ∧
    sublist calls [dockerCall; podmanCall] ∧
    (dockerCall ∈ calls ↔ ∃ p, LookPath w "docker" = Ok p) ∧
    (ri_Runtime (Detect w).1 = RuntimeDocker → calls = [dockerCall]) ∧
    (ri_Runtime (Detect w).1 = RuntimePodman → list.last calls = Some podmanCall) ∧
    (calls = [] ↔ (∃ e, LookPath w "docker" = Err e) ∧ (∃ e, LookPath w "podman" = Err e)).
Proof.
  intros dockerCall podmanCall. unfold Detect.
  change (LookPath (CommandRunner := tracedRunner runner) (w, log) "docker")
    with (LookPath w "docker").
  change (DetectOS (host := tracedHost host)) with (DetectOS (host := host)).
  destruct (LookPath w "docker") as [p|e] eqn:Hlook.
  - destruct (detectDocker_traced w log DetectOS) as [-> Hdocker].
    destruct (detectDocker w DetectOS) as [[ri [e|]] w1]; cbn [fst snd] in *.
    + destruct (Detect_podman_traced w1 (log ++ [("docker", ["info"; "--format"; "{{json .}}"])])
                  DetectOS) as (-> & Hnot & Hpodman).
      exists (dockerCall :: match LookPath w1 "podman" with
                            | Ok _ => [podmanCall] | Err _ => [] end).
      rewrite <- app_assoc. split; [done|].
      split; [destruct (LookPath w1 "podman"); by repeat constructor|].
      split; [split; [eauto | intros _; by left]|].
      split; [done|]. split; [|split; [done | by intros [[? ?] _]]].
      intros [p' ->]%Hpodman. done.
    + exists [dockerCall]. split; [done|]. split; [by repeat constructor|].
      split; [split; [eauto | intros _; by left]|].
      split; [done|]. split; [by rewrite Hdocker|].
      split; [done | by intros [[? ?] _]].
  - destruct (Detect_podman_traced w log DetectOS) as (-> & Hnot & Hpodman).
    exists (match LookPath w "podman" with Ok _ => [podmanCall] | Err _ => [] end).
    split; [done|].
    split; [destruct (LookPath w "podman"); [by apply sublist_cons | apply sublist_nil_l]|].
    split.
    { split; [|by intros [? ?]]. destruct (LookPath w "podman").
      - intros [Heq | Hin%elem_of_nil]%elem_of_cons; done.
      - by intros ?%elem_of_nil. }
    split; [done|]. split.
    { intros [p' ->]%Hpodman. done. }
    destruct (LookPath w "podman") as [p'|e'].
    + split; [done | by intros [_ [? ?]]].
    + split; [eauto | done].
Qed.

(** X30. The manager of a tool call drives Podman exactly when the detection
    found Podman. In every other case, also when no runtime was found, it
    runs the docker executable and gives the kind CLI no runtime argument. *)
Theorem kindManager_runtime (w : W) :
  let m := (tools.kindManager w).1 in
  (tools.kindManager w).2 = (Detect w).2 ∧
  (ri_Runtime (Detect w).1 = RuntimePodman →
   kindArgs m = ["--runtime"; "podman"] ∧ runtimeBin m = "podman") ∧
  (ri_Runtime (Detect w).1 = RuntimeDocker ∨ ri_Available (Detect w).1 = false →
   kindArgs m = [] ∧ runtimeBin m = "docker").
Proof.
  intros m. subst m. unfold tools.kindManager, tools.runtimeInfo, kindArgs, runtimeBin.
  destruct (Detect_shapes w) as [(w1 & di & Hri) | [(w1 & pi & Hri) | Hri]];
    destruct (Detect w) as [ri w']; simpl in *; subst ri; simpl;
    (split; [done|]); split; try done; by intros [|].
Qed.

End runtime_more.

(** * Concrete runs of the further properties *)

Section validation_runs.
Import Go kind.

(** A document with images and one without, of the same roles, get the same
    verdict. *)
Lemma ValidateConfig_reads_roles_only_images :
  yaml_Unmarshal (YAML := Mock.documentsYAML) Mock.plainText = Ok Mock.plainCluster ∧
  yaml_Unmarshal (YAML := Mock.documentsYAML) Mock.imagesText = Ok Mock.imagesCluster ∧
  ValidateConfig (lib := Mock.asciiLib) (yaml := Mock.documentsYAML) Mock.plainText =
  ValidateConfig (lib := Mock.asciiLib) (yaml := Mock.documentsYAML) Mock.imagesText.
Proof.
  split; [reflexivity|]. split; [reflexivity|].
  apply (ValidateConfig_reads_roles_only (lib := Mock.asciiLib) (yaml := Mock.documentsYAML)
           Mock.plainText Mock.imagesText Mock.plainCluster Mock.imagesCluster);
    reflexivity.
Defined.

(** A document that lists its worker first is accepted like the one that
    lists the control-plane first. *)
Lemma ValidateConfig_any_node_order_worker_first :
  cfg_Nodes Mock.plainCluster ≡ₚ cfg_Nodes Mock.workerFirstCluster ∧
  is_Ok (ValidateConfig (lib := Mock.asciiLib) (yaml := Mock.documentsYAML) Mock.plainText) =
  is_Ok (ValidateConfig (lib := Mock.asciiLib) (yaml := Mock.documentsYAML)
           Mock.workerFirstText).
Proof.
  assert (cfg_Nodes Mock.plainCluster ≡ₚ cfg_Nodes Mock.workerFirstCluster) as Hperm
    by apply Permutation_swap.
  split; [exact Hperm|].
  apply (ValidateConfig_any_node_order (lib := Mock.asciiLib) (yaml := Mock.documentsYAML)
           Mock.plainText Mock.workerFirstText Mock.plainCluster Mock.workerFirstCluster);
    [reflexivity | reflexivity | reflexivity | reflexivity | exact Hperm].
Defined.

End validation_runs.

Section manager_runs.
Import Go rtdetect kind.

(** Two clusters listed with a blank line between them: the two names are
    returned in their order and the blank line gives no name. *)
Lemma ListClusters_names_two_clusters :
  Run (CommandRunner := Mock.kindMockRunner) Mock.twoClusters "kind"
      (kindArgs Mock.dockerManager ++ ["get"; "clusters"])
    = (("dev" +:+ nl +:+ nl +:+ "staging" +:+ nl, None), Mock.twoClusters) ∧
  ListClusters (lib := Mock.asciiLib) (runner := Mock.kindMockRunner)
    Mock.dockerManager Mock.twoClusters = (Ok ["dev"; "staging"], Mock.twoClusters).
Proof.
  split; [reflexivity|].
  destruct (ListClusters_names (lib := Mock.asciiLib) (runner := Mock.kindMockRunner)
              Mock.dockerManager Mock.twoClusters Mock.twoClusters
              ("dev" +:+ nl +:+ nl +:+ "staging" +:+ nl) None eq_refl)
    as (clusters & Hlist & _ & _ & Hexact).
  rewrite Hlist, Hexact; [reflexivity | vm_compute; discriminate | vm_compute; discriminate].
Defined.

(** A cluster of two nodes whose inspections fail: the status is returned
    all the same, with the names of [GetClusterNodes]. *)
Lemma GetClusterStatus_agrees_with_GetClusterNodes_two_nodes :
  ∃ status w2,
    GetClusterStatus (lib := Mock.asciiLib) (runner := Mock.kindMockRunner)
      Mock.dockerManager Mock.twoNodeCluster "test" = (Ok status, w2) ∧
    GetClusterNodes (lib := Mock.asciiLib) (runner := Mock.kindMockRunner)
      Mock.dockerManager Mock.twoNodeCluster "test"
      = (Ok (ns_Name <$> cs_Nodes status), Mock.twoNodeCluster).
Proof.
  destruct (GetClusterStatus_agrees_with_GetClusterNodes (lib := Mock.asciiLib)
              (runner := Mock.kindMockRunner) Mock.dockerManager
              Mock.twoNodeCluster Mock.twoNodeCluster "test"
              ("test-control-plane" +:+ nl +:+ "test-worker" +:+ nl))
    as (status & w2 & Hstatus & _ & Hnodes & _).
  - discriminate.
  - reflexivity.
  - vm_compute. discriminate.
  - by exists status, w2.
Defined.

(** A listing that is a single newline. *)
Lemma blank_node_listing_newline :
  TrimSpace (Lib := Mock.asciiLib) nl = "" ∧
  GetClusterNodes (lib := Mock.asciiLib) (runner := Mock.kindMockRunner)
    Mock.dockerManager Mock.noNodes "test" = (Ok [], Mock.noNodes) ∧
  registry.ApplyMirrorConfig (lib := Mock.asciiLib) (runner := Mock.kindMockRunner)
    Mock.dockerManager Mock.noNodes "test" Mock.dockerHubMirror = (Ok [], Mock.noNodes) ∧
  is_Ok (GetClusterStatus (lib := Mock.asciiLib) (runner := Mock.kindMockRunner)
           Mock.dockerManager Mock.noNodes "test").1 = false.
Proof.
  destruct (blank_node_listing (lib := Mock.asciiLib) (runner := Mock.kindMockRunner)
              Mock.dockerManager Mock.noNodes Mock.noNodes "test" nl Mock.dockerHubMirror)
    as (Hstatus & Hnodes & Happly).
  - discriminate.
  - reflexivity.
  - reflexivity.
  - split; [reflexivity|]. split; [exact Hnodes|]. split; [exact Happly|].
    by rewrite Hstatus.
Defined.

(** The kind CLI fails to create the cluster: the temporary file was written
    and is gone afterwards, and the one command run is the creation. *)
Lemma CreateCluster_removes_temp_file_on_failure :
  ValidateConfig (lib := Mock.asciiLib) (yaml := Mock.documentsYAML) Mock.plainText = Ok () ∧
  ∃ calls,
    (CreateCluster (lib := Mock.asciiLib) (yaml := Mock.documentsYAML)
       (runner := tracedRunner Mock.diskRunner) (temp := tracedTempFiles Mock.diskTempFiles)
       Mock.dockerManager ((Mock.createFails, ∅), []) "demo" Mock.plainText).2.2 = calls ∧
    length calls ≤ 1 ∧
    (CreateCluster (lib := Mock.asciiLib) (yaml := Mock.documentsYAML)
       (runner := Mock.diskRunner) (temp := Mock.diskTempFiles)
       Mock.dockerManager (Mock.createFails, ∅) "demo" Mock.plainText).2.2
      !! Mock.tempFileName = None.
Proof.
  split; [reflexivity|].
  destruct (CreateCluster_removes_temp_file (lib := Mock.asciiLib)
              (yaml := Mock.documentsYAML) (runner := Mock.diskRunner)
              (temp := Mock.diskTempFiles) Mock.dockerManager
              (Mock.createFails, ∅) (Mock.createFails, {[ Mock.tempFileName := "" ]})
              [] "demo" Mock.plainText Mock.tempFileName)
    as (w' & calls & Htraced & Hworld & Hcalls).
  - discriminate.
  - reflexivity.
  - reflexivity.
  - exists calls. split; [by rewrite Htraced|]. split.
    + destruct Hcalls as [(e & w2 & _ & _ & ->) | (w2 & r & _ & _ & ->)]; simpl; lia.
    + rewrite Hworld. apply lookup_delete_eq.
Defined.

End manager_runs.

Section registry_runs.
Import Go rtdetect registry.

(** The mirror "proxy:5000" gives the hosts.toml of "http://proxy:5000". *)
Lemma generateHostsToml_schemeless_as_http_proxy :
  schemeless "proxy:5000" ∧
  generateHostsToml {| Original := "quay.io"; Mirror := "proxy:5000" |} =
  generateHostsToml {| Original := "quay.io"; Mirror := "http://proxy:5000" |}.
Proof.
  assert (schemeless "proxy:5000") as Hplain by (split; reflexivity).
  split; [exact Hplain|].
  exact (generateHostsToml_schemeless_as_http "quay.io" "proxy:5000" Hplain).
Defined.

(** The Podman authentication file of the host with the broken Docker
    configuration: found, inline, with no registry and no note. *)
Lemma FindCredentials_info_podman_auth :
  ∃ info,
    FindCredentials (lib := Mock.asciiLib) (host := Mock.brokenHost) (json := Mock.brokenJSON)
      Mock.brokenDockerConfigWorld Mock.unknownRuntime = Ok info ∧
    InlineAuth info = true ∧ Notes info = "" ∧
    MountPath info = "/var/lib/kubelet/config.json" ∧
    Stat (Host := Mock.brokenHost) Mock.brokenDockerConfigWorld (FilePath info) = true.
Proof.
  assert (FindCredentials (lib := Mock.asciiLib) (host := Mock.brokenHost)
            (json := Mock.brokenJSON) Mock.brokenDockerConfigWorld Mock.unknownRuntime
          = Ok (credentialInfo (lib := Mock.asciiLib)
                  "/home/user/.config/containers/auth.json" Mock.podmanCandidate
                  Mock.emptyDockerConfig)) as Hfound by (vm_compute; reflexivity).
  destruct (FindCredentials_info (lib := Mock.asciiLib) (host := Mock.brokenHost)
              (json := Mock.brokenJSON) Mock.brokenDockerConfigWorld Mock.unknownRuntime
              _ Hfound)
    as (Hstat & _ & _ & Hinline & Hmount & _ & _ & Hnotes).
  eexists. split; [exact Hfound|].
  assert (InlineAuth (credentialInfo (lib := Mock.asciiLib)
                        "/home/user/.config/containers/auth.json" Mock.podmanCandidate
                        Mock.emptyDockerConfig) = true) as Hin
    by (apply Hinline; split; reflexivity).
  split; [exact Hin|]. split; [exact (Hnotes Hin)|]. split; [exact Hmount | exact Hstat].
Defined.

(** The same file, given to [GenerateMirrorConfig], is mounted read-only. *)
Lemma GenerateMirrorConfig_credential_mount_podman_auth :
  Mock.dockerHubOverride ≠ [] ∧
  ∃ withCreds,
    GenerateMirrorConfig Mock.dockerHubOverride
      (Some (credentialInfo (lib := Mock.asciiLib)
               "/home/user/.config/containers/auth.json" Mock.podmanCandidate
               Mock.emptyDockerConfig)) = Ok withCreds ∧
    registry.ExtraMounts withCreds =
      [ {| kind.mnt_HostPath := "/home/user/.config/containers/auth.json";
           kind.mnt_ContainerPath := "/var/lib/kubelet/config.json";
           kind.mnt_ReadOnly := true;
           kind.mnt_Propagation := "" |} ].
Proof.
  assert (FindCredentials (lib := Mock.asciiLib) (host := Mock.brokenHost)
            (json := Mock.brokenJSON) Mock.brokenDockerConfigWorld Mock.unknownRuntime
          = Ok (credentialInfo (lib := Mock.asciiLib)
                  "/home/user/.config/containers/auth.json" Mock.podmanCandidate
                  Mock.emptyDockerConfig)) as Hfound by (vm_compute; reflexivity).
  assert (Mock.dockerHubOverride ≠ []) as Hne by discriminate.
  split; [exact Hne|].
  destruct (GenerateMirrorConfig_credential_mount (lib := Mock.asciiLib)
              (host := Mock.brokenHost) (json := Mock.brokenJSON)
              Mock.brokenDockerConfigWorld Mock.unknownRuntime _
              Mock.dockerHubOverride Hfound Hne)
    as (withCreds & without & Hwith & _ & _ & _ & _ & Hmount & _).
  exists withCreds. split; [exact Hwith|]. apply Hmount. split; reflexivity.
Defined.

End registry_runs.
